(** * opening_hours: the entity model of 3party/opening_hours/opening_hours.cpp
      and its canonical-text serializer, embedded over an explicit model of
      the [std::ostream] the serializer writes to. *)

From Stdlib Require Import ZArith String Ascii List Bool Lia.
From Stdlib Require Import DecimalString HexString OctalString DecimalPos DecimalN.
From Equations Require Import Equations.
From Equations.Prop Require Import Logic.
Import ListNotations.

Open Scope string_scope.
Open Scope Z_scope.

(** ** Fixed-width integers

    [uint32_t] values are [Z] in [0, 2^32); a conversion to [uint32_t]
    reduces modulo [2^32].  [int32_t] values are [Z] in [-2^31, 2^31). *)

Definition to_uint32 (z : Z) : Z := z mod 2 ^ 32.

Definition INT32_MIN : Z := - 2 ^ 31.
Definition INT32_MAX : Z := 2 ^ 31 - 1.

Definition to_int32 (z : Z) : Z := (z + 2 ^ 31) mod 2 ^ 32 - 2 ^ 31.

(** The count of a [std::chrono] duration ([hours::rep], [minutes::rep])
    is a signed 64-bit integer: the range within which its arithmetic is
    defined. *)
Definition INT64_MIN : Z := - 2 ^ 63.
Definition INT64_MAX : Z := 2 ^ 63 - 1.

(** [std::abs] on a signed integer.  The C++ result is undefined when it is
    not representable (the most negative value); statements that go through
    [std_abs] on an [int32_t] keep their argument above [INT32_MIN]. *)
Definition std_abs (z : Z) : Z := Z.abs z.

(** ** The output stream

    The part of [std::ostream] the serializer depends on: the characters
    written so far, the format flags consulted by the inserters of
    characters, strings and integers, the field width and the fill
    character.  The sink is assumed good (an insertion is never dropped). *)

Module ios.

Inductive adjust := adjust_unset | left | right | internal.

(** [basefield]: [oct] and [hex] select those conversions, every other
    setting converts in decimal. *)
Inductive base := dec | oct | hex.

Record fmtflags := {
  adjustfield : adjust;
  basefield : base;
  showbase : bool;
  showpos : bool;
  uppercase : bool
}.

(** The flags of a freshly constructed stream ([skipws | dec]). *)
Definition initial : fmtflags :=
  {| adjustfield := adjust_unset; basefield := dec;
     showbase := false; showpos := false; uppercase := false |}.

End ios.

Record ostream := {
  os_text : string;
  os_flags : ios.fmtflags;
  os_width : Z;
  os_fill : ascii
}.

(** A freshly constructed [std::ostringstream]. *)
Definition ostringstream : ostream :=
  {| os_text := ""; os_flags := ios.initial; os_width := 0; os_fill := " "%char |}.

Declare Scope ostream_scope.
Delimit Scope ostream_scope with os.
Notation "ost << f" := (f ost) (at level 50, left associativity, only parsing) : ostream_scope.
Open Scope ostream_scope.

Definition flags (ost : ostream) : ios.fmtflags := os_flags ost.

Definition set_flags (f : ios.fmtflags) (ost : ostream) : ostream :=
  {| os_text := os_text ost; os_flags := f;
     os_width := os_width ost; os_fill := os_fill ost |}.

(** [std::setw] and [std::setfill]. *)
Definition setw (n : Z) (ost : ostream) : ostream :=
  {| os_text := os_text ost; os_flags := os_flags ost;
     os_width := n; os_fill := os_fill ost |}.

Definition setfill (c : ascii) (ost : ostream) : ostream :=
  {| os_text := os_text ost; os_flags := os_flags ost;
     os_width := os_width ost; os_fill := c |}.

Fixpoint fill_string (n : nat) (c : ascii) : string :=
  match n with
  | O => ""
  | S n' => String c (fill_string n' c)
  end.

(** Padding of a field made of a sign or base prefix [pre] and a body:
    [os_width - length] fill characters, placed by [adjustfield]. *)
Definition padded (ost : ostream) (pre body : string) : string :=
  let n := Z.to_nat (os_width ost - Z.of_nat (String.length pre + String.length body)) in
  let f := fill_string n (os_fill ost) in
  match ios.adjustfield (os_flags ost) with
  | ios.left => pre ++ body ++ f
  | ios.internal => pre ++ f ++ body
  | _ => f ++ pre ++ body
  end.

(** Every formatted insertion writes its padded field and resets the width. *)
Definition insert_field (pre body : string) (ost : ostream) : ostream :=
  {| os_text := os_text ost ++ padded ost pre body;
     os_flags := os_flags ost;
     os_width := 0;
     os_fill := os_fill ost |}.

(** [ost << c] for a [char] and [ost << s] for a string. *)
Definition chr (c : ascii) : ostream -> ostream := insert_field "" (String c "").
Definition str (s : string) : ostream -> ostream := insert_field "" s.

Definition dec_digits (n : Z) : string := NilZero.string_of_uint (N.to_uint (Z.to_N n)).

Definition oct_digits (n : Z) : string :=
  match n with
  | Zpos p => OctalString.Raw.of_pos p ""
  | _ => "0"
  end.

(** The digits a to f (codes 97 to 102) in upper case. *)
Definition upper_hex (c : ascii) : ascii :=
  let code := N_of_ascii c in
  if (97 <=? code)%N && (code <=? 102)%N then ascii_of_N (code - 32) else c.

Fixpoint upper_hex_string (digits : string) : string :=
  match digits with
  | EmptyString => EmptyString
  | String c rest => String (upper_hex c) (upper_hex_string rest)
  end.

Definition hex_digits (upper : bool) (n : Z) : string :=
  match n with
  | Zpos p =>
      let d := HexString.Raw.of_pos p "" in
      if upper then upper_hex_string d else d
  | _ => "0"
  end.

(** The digits and the base prefix of a non-negative value. *)
Definition num_digits (f : ios.fmtflags) (n : Z) : string :=
  match ios.basefield f with
  | ios.dec => dec_digits n
  | ios.oct => oct_digits n
  | ios.hex => hex_digits (ios.uppercase f) n
  end.

Definition num_prefix (f : ios.fmtflags) (n : Z) : string :=
  if ios.showbase f && negb (n =? 0) then
    match ios.basefield f with
    | ios.dec => ""
    | ios.oct => "0"
    | ios.hex => if ios.uppercase f then "0X" else "0x"
    end
  else "".

(** [ost << n] for an unsigned integer ([uint16_t], [uint32_t]). *)
Definition unsigned_ (n : Z) (ost : ostream) : ostream :=
  ost << insert_field (num_prefix (os_flags ost) n) (num_digits (os_flags ost) n).

(** [ost << n] for an [int]: signed in decimal, the 32-bit pattern in
    octal and hexadecimal. *)
Definition int_ (n : Z) (ost : ostream) : ostream :=
  match ios.basefield (os_flags ost) with
  | ios.dec =>
      let sign := if n <? 0 then "-" else if ios.showpos (os_flags ost) then "+" else "" in
      ost << insert_field sign (dec_digits (Z.abs n))
  | _ => ost << unsigned_ (to_uint32 n)
  end.

(** [std::vector::empty] and [std::string::empty]. *)
Definition empty {T : Type} (v : list T) : bool :=
  match v with [] => true | _ => false end.

Definition string_empty (s : string) : bool :=
  match s with "" => true | _ => false end.

(** ** Naming

    Each class of the source is a module, and its members keep their
    names.  The overloads of [operator<<] are [out] in the module of their
    class, [out_<Enum>] for an enumeration and [out_T<Name>s] for the
    vector types; [ost << f] applies the insertion [f] to the stream. *)

(** ** Helpers of the anonymous namespace *)

Section PrintVector.
Context {T : Type}.
Variable out : T -> ostream -> ostream.
Variable sepFunc : T -> string.

(** The [while] loop: [sep] belongs to the element printed last. *)
Fixpoint PrintVector_loop (sep : string) (it : list T) (ost : ostream) : ostream :=
  match it with
  | [] => ost
  | x :: it' => PrintVector_loop (sepFunc x) it' (ost << str sep << out x)
  end.

Definition PrintVector (v : list T) (ost : ostream) : ostream :=
  match v with
  | [] => ost
  | x :: it => PrintVector_loop (sepFunc x) it (ost << out x)
  end.
End PrintVector.

(** The overload with a constant separator, [", "] by default. *)
Definition PrintVector_sep {T : Type} (out : T -> ostream -> ostream)
    (sep : string) (v : list T) : ostream -> ostream :=
  PrintVector out (fun _ => sep) v.

Definition PrintOffset (offset : Z) (space : bool) (ost : ostream) : ostream :=
  if offset =? 0 then ost
  else
    let ost := if space then ost << chr " " else ost in
    let ost := if offset >? 0 then ost << chr "+" else ost in
    let ost := ost << int_ offset in
    let ost := ost << chr " " << str "day" in
    if std_abs offset >? 1 then ost << chr "s" else ost.

(** [StreamFlagsKeeper]: the constructor reads [flags()], the destructor
    writes them back. *)
Definition StreamFlagsKeeper (ost : ostream) : ios.fmtflags := flags ost.
Definition StreamFlagsKeeper_destroy (m_flags : ios.fmtflags) (ost : ostream) : ostream :=
  set_flags m_flags ost.

(** The arguments are converted to the [uint32_t] parameters; [std::setw]
    takes an [int]. *)
Definition PrintPaddedNumber (number : Z) (padding : Z) (ost : ostream) : ostream :=
  let number := to_uint32 number in
  let padding := to_uint32 padding in
  let keeper := StreamFlagsKeeper ost in
  let ost := ost << setw (to_int32 padding) << setfill "0" << unsigned_ number in
  StreamFlagsKeeper_destroy keeper ost.

(** ** Time *)

Module Time.

Inductive Event := NotEvent | Sunrise | Sunset | Dawn | Dusk.

Definition Event_eqb (a b : Event) : bool :=
  match a, b with
  | NotEvent, NotEvent | Sunrise, Sunrise | Sunset, Sunset
  | Dawn, Dawn | Dusk, Dusk => true
  | _, _ => false
  end.

(** Modelled from the spec: the [State] enumeration is declared in
    opening_hours.hpp, which is not part of the sources at hand.  The spec
    gives two presence flags (has-hours, has-minutes); the code treats them
    as bits of [m_state] and [IsNotTime] as the value with neither set. *)
Definition IsNotTime : Z := 0.
Definition HaveHours : Z := 1.
Definition HaveMinutes : Z := 2.

(** [m_duration] counts minutes ([TMinutes]); [THours] and [TMinutes] values
    are their tick counts. *)
Record t := {
  m_event : Event;
  m_duration : Z;
  m_state : Z
}.

(** The default-constructed [Time{}]. *)
Definition default : t :=
  {| m_event := NotEvent; m_duration := 0; m_state := IsNotTime |}.

(** [m_state & flag], read as a condition. *)
Definition has_flag (flag : Z) (time : t) : bool :=
  negb (Z.land (m_state time) flag =? 0).

(** [std::chrono::duration_cast<THours>] of a minute count truncates
    towards zero. *)
Definition duration_cast_hours (minutes : Z) : Z := Z.quot minutes 60.

Definition GetEvent (time : t) : Event := m_event time.

(** [m_duration = hours] converts the hour count to minutes: 60 * hours,
    which C++ defines when it is representable in the minute count. *)
Definition SetHours (hours : Z) (time : t) : t :=
  {| m_event := m_event time;
     m_duration := 60 * hours;
     m_state := Z.lor (m_state time) (Z.lor HaveHours HaveMinutes) |}.

(** Modelled from the spec: the literal [1_h] comes from opening_hours.hpp;
    the spec reads it as one hour, that is 60 minutes. *)
Definition one_hour : Z := 60.

Definition SetMinutes (minutes : Z) (time : t) : t :=
  let state := Z.lor (m_state time) HaveMinutes in
  {| m_event := m_event time;
     m_duration := minutes;
     m_state := if (minutes >? one_hour) || (minutes <? - one_hour)
                then Z.lor state HaveHours else state |}.

Definition SetEvent (event : Event) (time : t) : t :=
  {| m_event := event; m_duration := m_duration time; m_state := m_state time |}.

(** [Time(THours)] and [Time(TMinutes)]. *)
Definition of_hours (hours : Z) : t := SetHours hours default.
Definition of_minutes (minutes : Z) : t := SetMinutes minutes default.

Definition IsEvent (time : t) : bool := negb (Event_eqb (GetEvent time) NotEvent).

Definition IsEventOffset (time : t) : bool :=
  IsEvent time && negb (m_state time =? IsNotTime).

Definition IsHoursMinutes (time : t) : bool :=
  negb (IsEvent time) && (has_flag HaveHours time && has_flag HaveMinutes time).

Definition IsMinutes (time : t) : bool :=
  negb (IsEvent time) && (has_flag HaveMinutes time && negb (has_flag HaveHours time)).

Definition IsTime (time : t) : bool := IsHoursMinutes time || IsEvent time.

Definition HasValue (time : t) : bool := IsEvent time || IsTime time || IsMinutes time.

(** [operator+], [operator-] (binary) and [operator-] (unary, which changes
    the object in place and returns it). *)
Definition add (this other : t) : t :=
  SetMinutes (m_duration this + m_duration other) this.

Definition sub (this other : t) : t :=
  SetMinutes (m_duration this - m_duration other) this.

Definition neg (this : t) : t :=
  {| m_event := m_event this; m_duration := - m_duration this; m_state := m_state this |}.

Definition GetEventTime (time : t) : t := default.

(** The recursion of [GetHours] and [GetMinutes] goes through values that
    are not events, so it is at most one call deep. *)
Definition event_depth (time : t) : nat := if IsEvent time then 1%nat else 0%nat.

Equations? GetHours (time : t) : Z by wf (event_depth time) lt :=
  GetHours time with inspect (IsEvent time) := {
    | exist _ true isEvent => GetHours (GetEventTime time);
    | exist _ false isEvent with inspect (IsEventOffset time) := {
        | exist _ true isOffset => GetHours (sub (GetEventTime time) time);
        | exist _ false isOffset => duration_cast_hours (m_duration time) } }.
Proof.
  - unfold event_depth. rewrite isEvent. simpl. lia.
  - unfold IsEventOffset in isOffset. rewrite isEvent in isOffset. discriminate.
Qed.

Equations? GetMinutes (time : t) : Z by wf (event_depth time) lt :=
  GetMinutes time with inspect (IsEvent time) := {
    | exist _ true isEvent => GetMinutes (GetEventTime time);
    | exist _ false isEvent with inspect (IsEventOffset time) := {
        | exist _ true isOffset => GetMinutes (sub (GetEventTime time) time);
        | exist _ false isOffset => m_duration time - 60 * GetHours time } }.
Proof.
  - unfold event_depth. rewrite isEvent. simpl. lia.
  - unfold IsEventOffset in isOffset. rewrite isEvent in isOffset. discriminate.
Qed.

Definition GetHoursCount (time : t) : Z := GetHours time.
Definition GetMinutesCount (time : t) : Z := GetMinutes time.

Definition out_Event (event : Event) (ost : ostream) : ostream :=
  match event with
  | NotEvent => ost << str "NotEvent"
  | Sunrise => ost << str "sunrise"
  | Sunset => ost << str "sunset"
  | Dawn => ost << str "dawn"
  | Dusk => ost << str "dusk"
  end.

(** [operator<<(std::ostream &, Time const &)]. *)
Definition out (time : t) (ost : ostream) : ostream :=
  if negb (HasValue time) then ost << str "hh:mm"
  else
    let minutes := GetMinutesCount time in
    let hours := GetHoursCount time in
    if IsEvent time then
      if IsEventOffset time then
        let ost := ost << chr "(" << out_Event (GetEvent time) in
        let ost := if hours <? 0 then ost << chr "-" else ost << chr "+" in
        ost << PrintPaddedNumber (std_abs hours) 2
            << chr ":"
            << PrintPaddedNumber (std_abs minutes) 2
            << chr ")"
      else ost << out_Event (GetEvent time)
    else if IsMinutes time then
      ost << PrintPaddedNumber (std_abs minutes) 2
    else
      ost << PrintPaddedNumber (std_abs hours) 2
          << chr ":"
          << PrintPaddedNumber (std_abs minutes) 2.

End Time.

(** ** Timespan *)

Module Timespan.

Record t := {
  m_start : Time.t;
  m_end : Time.t;
  m_period : Time.t;
  m_plus : bool
}.

Definition GetStart (span : t) : Time.t := m_start span.
Definition GetEnd (span : t) : Time.t := m_end span.
Definition GetPeriod (span : t) : Time.t := m_period span.

Definition HasStart (span : t) : bool := Time.HasValue (GetStart span).
Definition HasEnd (span : t) : bool := Time.HasValue (GetEnd span).
Definition HasPlus (span : t) : bool := m_plus span.
Definition HasPeriod (span : t) : bool := Time.HasValue (m_period span).

Definition IsEmpty (span : t) : bool := negb (HasStart span) && negb (HasEnd span).
Definition IsOpen (span : t) : bool := HasStart span && negb (HasEnd span).

Definition IsValid (span : t) : bool := false.

(** [operator<<(std::ostream &, Timespan const &)]. *)
Definition out (span : t) (ost : ostream) : ostream :=
  let ost := ost << Time.out (GetStart span) in
  let ost :=
    if negb (IsOpen span) then
      let ost := ost << chr "-" << Time.out (GetEnd span) in
      if HasPeriod span then ost << chr "/" << Time.out (GetPeriod span) else ost
    else ost in
  if HasPlus span then ost << chr "+" else ost.

End Timespan.

Definition out_TTimespans (timespans : list Timespan.t) : ostream -> ostream :=
  PrintVector_sep Timespan.out ", " timespans.

(** ** Weekdays *)

Module NthWeekdayOfTheMonthEntry.

Inductive NthDayOfTheMonth := None | First | Second | Third | Fourth | Fifth.

(** Modelled from the spec: the enumeration is declared in
    opening_hours.hpp; the spec calls its values the nth-of-month ordinal
    or None, so [None] is 0 and [First] .. [Fifth] are 1 .. 5. *)
Definition NthDayOfTheMonth_value (n : NthDayOfTheMonth) : Z :=
  match n with
  | None => 0 | First => 1 | Second => 2 | Third => 3 | Fourth => 4 | Fifth => 5
  end.

Definition is_None (n : NthDayOfTheMonth) : bool :=
  match n with None => true | _ => false end.

Record t := {
  m_start : NthDayOfTheMonth;
  m_end : NthDayOfTheMonth
}.

Definition GetStart (entry : t) : NthDayOfTheMonth := m_start entry.
Definition GetEnd (entry : t) : NthDayOfTheMonth := m_end entry.
Definition HasStart (entry : t) : bool := negb (is_None (GetStart entry)).
Definition HasEnd (entry : t) : bool := negb (is_None (GetEnd entry)).
Definition IsEmpty (entry : t) : bool := negb (HasStart entry) && negb (HasEnd entry).

Definition out (entry : t) (ost : ostream) : ostream :=
  let ost :=
    if HasStart entry
    then ost << unsigned_ (to_uint32 (NthDayOfTheMonth_value (GetStart entry)))
    else ost in
  if HasEnd entry
  then ost << chr "-" << unsigned_ (to_uint32 (NthDayOfTheMonth_value (GetEnd entry)))
  else ost.

End NthWeekdayOfTheMonthEntry.

Module Weekday.

Inductive t :=
  Sunday | Monday | Tuesday | Wednesday | Thursday | Friday | Saturday | None.

Definition eqb (a b : t) : bool :=
  match a, b with
  | Sunday, Sunday | Monday, Monday | Tuesday, Tuesday | Wednesday, Wednesday
  | Thursday, Thursday | Friday, Friday | Saturday, Saturday | None, None => true
  | _, _ => false
  end.

(** Modelled from the spec: the enumeration is declared in
    opening_hours.hpp.  The spec gives it as {Sun..Sat, None}, ordered
    Sun < ... < Sat; enumerators without initialisers count up from 0 in
    that order. *)
Definition value (wday : t) : Z :=
  match wday with
  | Sunday => 0 | Monday => 1 | Tuesday => 2 | Wednesday => 3
  | Thursday => 4 | Friday => 5 | Saturday => 6 | None => 7
  end.

(** What the statements below use of the enumerator values, whatever the
    header gives: the days of the week follow each other, Sunday first. *)
Definition week_ordered (val : t -> Z) : Prop :=
  val Monday = val Sunday + 1 /\ val Tuesday = val Monday + 1 /\
  val Wednesday = val Tuesday + 1 /\ val Thursday = val Wednesday + 1 /\
  val Friday = val Thursday + 1 /\ val Saturday = val Friday + 1.

Definition out (wday : t) (ost : ostream) : ostream :=
  match wday with
  | Sunday => ost << str "Su"
  | Monday => ost << str "Mo"
  | Tuesday => ost << str "Tu"
  | Wednesday => ost << str "We"
  | Thursday => ost << str "Th"
  | Friday => ost << str "Fr"
  | Saturday => ost << str "Sa"
  | None => ost << str "not-a-day"
  end.

End Weekday.

Module WeekdayRange.

Record t := {
  m_start : Weekday.t;
  m_end : Weekday.t;
  m_offset : Z;
  m_nths : list NthWeekdayOfTheMonthEntry.t
}.

Definition GetStart (range : t) : Weekday.t := m_start range.
Definition GetEnd (range : t) : Weekday.t := m_end range.
Definition GetOffset (range : t) : Z := m_offset range.
Definition GetNths (range : t) : list NthWeekdayOfTheMonthEntry.t := m_nths range.

Definition HasStart (range : t) : bool := negb (Weekday.eqb (GetStart range) Weekday.None).
Definition HasEnd (range : t) : bool := negb (Weekday.eqb (GetEnd range) Weekday.None).
Definition HasOffset (range : t) : bool := negb (GetOffset range =? 0).
Definition HasNth (range : t) : bool := negb (empty (m_nths range)).

Definition IsEmpty (range : t) : bool :=
  Weekday.eqb (GetStart range) Weekday.None && Weekday.eqb (GetEnd range) Weekday.None.

Section EnumeratorValues.

(** The value of each [Weekday] enumerator, which the relational operators
    and [static_cast<uint32_t>] read. *)
Variable val : Weekday.t -> Z.

Definition HasWday (range : t) (wday : Weekday.t) : bool :=
  if IsEmpty range || Weekday.eqb wday Weekday.None then false
  else if negb (HasEnd range) then Weekday.eqb (GetStart range) wday
  else (val (GetStart range) <=? val wday) && (val wday <=? val (GetEnd range)).

Definition HasSunday (range : t) : bool := HasWday range Weekday.Sunday.
Definition HasMonday (range : t) : bool := HasWday range Weekday.Monday.
Definition HasTuesday (range : t) : bool := HasWday range Weekday.Tuesday.
Definition HasWednesday (range : t) : bool := HasWday range Weekday.Wednesday.
Definition HasThursday (range : t) : bool := HasWday range Weekday.Thursday.
Definition HasFriday (range : t) : bool := HasWday range Weekday.Friday.
Definition HasSaturday (range : t) : bool := HasWday range Weekday.Saturday.

(** The subtraction and the addition are done on [uint32_t]; the result
    widens to [size_t] unchanged. *)
Definition GetDaysCount (range : t) : Z :=
  if IsEmpty range then 0
  else
    to_uint32
      (to_uint32 (to_uint32 (val (m_start range)) - to_uint32 (val (m_end range))) + 1).

End EnumeratorValues.

Definition out (range : t) (ost : ostream) : ostream :=
  let ost := ost << Weekday.out (GetStart range) in
  if HasEnd range then ost << chr "-" << Weekday.out (GetEnd range)
  else
    let ost :=
      if HasNth range then
        ost << chr "["
            << PrintVector_sep NthWeekdayOfTheMonthEntry.out "," (GetNths range)
            << chr "]"
      else ost in
    ost << PrintOffset (GetOffset range) true.

End WeekdayRange.

Definition out_TWeekdayRanges (ranges : list WeekdayRange.t) : ostream -> ostream :=
  PrintVector_sep WeekdayRange.out ", " ranges.

Module Holiday.

Record t := {
  m_plural : bool;
  m_offset : Z
}.

Definition IsPlural (holiday : t) : bool := m_plural holiday.
Definition GetOffset (holiday : t) : Z := m_offset holiday.

Definition out (holiday : t) (ost : ostream) : ostream :=
  if IsPlural holiday then ost << str "PH"
  else ost << str "SH" << PrintOffset (GetOffset holiday) true.

End Holiday.

Definition out_THolidays (holidays : list Holiday.t) : ostream -> ostream :=
  PrintVector_sep Holiday.out ", " holidays.

Module Weekdays.

Record t := {
  m_weekdayRanges : list WeekdayRange.t;
  m_holidays : list Holiday.t
}.

Definition GetWeekdayRanges (weekday : t) : list WeekdayRange.t := m_weekdayRanges weekday.
Definition GetHolidays (weekday : t) : list Holiday.t := m_holidays weekday.

Definition IsEmpty (weekday : t) : bool :=
  empty (GetWeekdayRanges weekday) && empty (GetHolidays weekday).
Definition HasWeekday (weekday : t) : bool := negb (empty (GetWeekdayRanges weekday)).
Definition HasHolidays (weekday : t) : bool := negb (empty (GetHolidays weekday)).

(** [std::vector::push_back] appends at the end. *)
Definition AddWeekdayRange (range : WeekdayRange.t) (weekday : t) : t :=
  {| m_weekdayRanges := (m_weekdayRanges weekday ++ [range])%list;
     m_holidays := m_holidays weekday |}.

Definition AddHoliday (holiday : Holiday.t) (weekday : t) : t :=
  {| m_weekdayRanges := m_weekdayRanges weekday;
     m_holidays := (m_holidays weekday ++ [holiday])%list |}.

Definition out (weekday : t) (ost : ostream) : ostream :=
  let ost := ost << out_THolidays (GetHolidays weekday) in
  let ost := if HasWeekday weekday && HasHolidays weekday then ost << str ", " else ost in
  ost << out_TWeekdayRanges (GetWeekdayRanges weekday).

End Weekdays.

(** ** Dates *)

Module DateOffset.

Record t := {
  m_wday_offset : Weekday.t;
  m_positive : bool;
  m_offset : Z
}.

Definition HasWDayOffset (offset : t) : bool :=
  negb (Weekday.eqb (m_wday_offset offset) Weekday.None).
Definition HasOffset (offset : t) : bool := negb (m_offset offset =? 0).
Definition IsEmpty (offset : t) : bool := negb (HasOffset offset) && negb (HasWDayOffset offset).
Definition IsWDayOffsetPositive (offset : t) : bool := m_positive offset.
Definition GetWDayOffset (offset : t) : Weekday.t := m_wday_offset offset.
Definition GetOffset (offset : t) : Z := m_offset offset.

Definition out (offset : t) (ost : ostream) : ostream :=
  let ost :=
    if HasWDayOffset offset then
      ost << chr (if IsWDayOffsetPositive offset then "+" else "-")
          << Weekday.out (GetWDayOffset offset)
    else ost in
  ost << PrintOffset (GetOffset offset) (HasWDayOffset offset).

End DateOffset.

(** The local [space] flag and the [putSpace] closure of the [MonthDay] and
    [RuleSequence] printers: the stream travels together with the flag. *)
Definition putSpace (st : ostream * bool) : ostream * bool :=
  ((if snd st then fst st << chr " " else fst st), true).

Definition on_stream (f : ostream -> ostream) (st : ostream * bool) : ostream * bool :=
  (f (fst st), snd st).

Module MonthDay.

Inductive Month :=
  Month_None | Jan | Feb | Mar | Apr | May | Jun | Jul | Aug | Sep | Oct | Nov | Dec.

Inductive VariableDate := VariableDate_None | Easter.

Record t := {
  m_year : Z;
  m_month : Month;
  m_daynum : Z;
  m_variable_date : VariableDate;
  m_offset : DateOffset.t
}.

Definition GetYear (md : t) : Z := m_year md.
Definition GetMonth (md : t) : Month := m_month md.
Definition GetDayNum (md : t) : Z := m_daynum md.
Definition GetOffset (md : t) : DateOffset.t := m_offset md.
Definition GetVariableDate (md : t) : VariableDate := m_variable_date md.

Definition IsVariable (md : t) : bool :=
  match GetVariableDate md with VariableDate_None => false | _ => true end.
Definition HasYear (md : t) : bool := negb (GetYear md =? 0).
Definition HasMonth (md : t) : bool :=
  match GetMonth md with Month_None => false | _ => true end.
Definition HasDayNum (md : t) : bool := negb (GetDayNum md =? 0).
Definition HasOffset (md : t) : bool := negb (DateOffset.IsEmpty (GetOffset md)).
Definition IsEmpty (md : t) : bool :=
  negb (HasYear md) && negb (HasMonth md) && negb (HasDayNum md) && negb (IsVariable md).

Definition out_Month (month : Month) (ost : ostream) : ostream :=
  match month with
  | Month_None => ost << str "None"
  | Jan => ost << str "Jan"
  | Feb => ost << str "Feb"
  | Mar => ost << str "Mar"
  | Apr => ost << str "Apr"
  | May => ost << str "May"
  | Jun => ost << str "Jun"
  | Jul => ost << str "Jul"
  | Aug => ost << str "Aug"
  | Sep => ost << str "Sep"
  | Oct => ost << str "Oct"
  | Nov => ost << str "Nov"
  | Dec => ost << str "Dec"
  end.

Definition out_VariableDate (date : VariableDate) (ost : ostream) : ostream :=
  match date with
  | VariableDate_None => ost << str "none"
  | Easter => ost << str "easter"
  end.

Definition out (md : t) (ost : ostream) : ostream :=
  let st := (ost, false) in
  let st :=
    if HasYear md then st << putSpace << on_stream (unsigned_ (GetYear md)) else st in
  let st :=
    if IsVariable md then
      st << putSpace << on_stream (out_VariableDate (GetVariableDate md))
    else
      let st :=
        if HasMonth md then st << putSpace << on_stream (out_Month (GetMonth md)) else st in
      if HasDayNum md
      then st << putSpace << on_stream (PrintPaddedNumber (GetDayNum md) 2)
      else st in
  let ost := fst st in
  if HasOffset md then ost << chr " " << DateOffset.out (GetOffset md) else ost.

End MonthDay.

Module MonthdayRange.

Record t := {
  m_start : MonthDay.t;
  m_end : MonthDay.t;
  m_period : Z;
  m_plus : bool
}.

Definition GetStart (range : t) : MonthDay.t := m_start range.
Definition GetEnd (range : t) : MonthDay.t := m_end range.
Definition GetPeriod (range : t) : Z := m_period range.

Definition HasStart (range : t) : bool := negb (MonthDay.IsEmpty (GetStart range)).
Definition HasEnd (range : t) : bool :=
  negb (MonthDay.IsEmpty (GetEnd range)) || MonthDay.HasDayNum (GetEnd range).
Definition HasPeriod (range : t) : bool := negb (m_period range =? 0).
Definition HasPlus (range : t) : bool := m_plus range.
Definition IsEmpty (range : t) : bool := negb (HasStart range) && negb (HasEnd range).

Definition out (range : t) (ost : ostream) : ostream :=
  let ost := if HasStart range then ost << MonthDay.out (GetStart range) else ost in
  if HasEnd range then
    let ost := ost << chr "-" << MonthDay.out (GetEnd range) in
    if HasPeriod range then ost << chr "/" << unsigned_ (GetPeriod range) else ost
  else if HasPlus range then ost << chr "+"
  else ost.

End MonthdayRange.

Definition out_TMonthdayRanges (ranges : list MonthdayRange.t) : ostream -> ostream :=
  PrintVector_sep MonthdayRange.out ", " ranges.

Module YearRange.

Record t := {
  m_start : Z;
  m_end : Z;
  m_plus : bool;
  m_period : Z
}.

Definition GetStart (range : t) : Z := m_start range.
Definition GetEnd (range : t) : Z := m_end range.
Definition GetPeriod (range : t) : Z := m_period range.

Definition HasStart (range : t) : bool := negb (GetStart range =? 0).
Definition HasEnd (range : t) : bool := negb (GetEnd range =? 0).
Definition HasPlus (range : t) : bool := m_plus range.
Definition HasPeriod (range : t) : bool := negb (GetPeriod range =? 0).
Definition IsEmpty (range : t) : bool := negb (HasStart range) && negb (HasEnd range).
Definition IsOpen (range : t) : bool := HasStart range && negb (HasEnd range).

Definition out (range : t) (ost : ostream) : ostream :=
  if IsEmpty range then ost
  else
    let ost := ost << unsigned_ (GetStart range) in
    if HasEnd range then
      let ost := ost << chr "-" << unsigned_ (GetEnd range) in
      if HasPeriod range then ost << chr "/" << unsigned_ (GetPeriod range) else ost
    else if HasPlus range then ost << chr "+"
    else ost.

End YearRange.

Definition out_TYearRanges (ranges : list YearRange.t) : ostream -> ostream :=
  PrintVector_sep YearRange.out ", " ranges.

Module WeekRange.

Record t := {
  m_start : Z;
  m_end : Z;
  m_period : Z
}.

Definition GetStart (range : t) : Z := m_start range.
Definition GetEnd (range : t) : Z := m_end range.
Definition GetPeriod (range : t) : Z := m_period range.

Definition HasStart (range : t) : bool := negb (GetStart range =? 0).
Definition HasEnd (range : t) : bool := negb (GetEnd range =? 0).
Definition HasPeriod (range : t) : bool := negb (GetPeriod range =? 0).
Definition IsEmpty (range : t) : bool := negb (HasStart range) && negb (HasEnd range).
Definition IsOpen (range : t) : bool := HasStart range && negb (HasEnd range).

Definition out (range : t) (ost : ostream) : ostream :=
  if IsEmpty range then ost
  else
    let ost := ost << PrintPaddedNumber (GetStart range) 2 in
    if HasEnd range then
      let ost := ost << chr "-" << PrintPaddedNumber (GetEnd range) 2 in
      if HasPeriod range then ost << chr "/" << unsigned_ (GetPeriod range) else ost
    else ost.

End WeekRange.

Definition out_TWeekRanges (ranges : list WeekRange.t) (ost : ostream) : ostream :=
  ost << str "week " << PrintVector_sep WeekRange.out ", " ranges.

(** ** Rule sequences *)

Module RuleSequence.

Inductive Modifier := DefaultOpen | Open | Closed | Unknown | Comment.

Record t := {
  m_twentyFourHours : bool;
  m_years : list YearRange.t;
  m_months : list MonthdayRange.t;
  m_weeks : list WeekRange.t;
  m_weekdays : Weekdays.t;
  m_times : list Timespan.t;
  m_comment : string;
  m_anySeparator : string;
  m_separatorForReadability : bool;
  m_modifier : Modifier;
  m_modifierComment : string
}.

Definition GetYears (s : t) := m_years s.
Definition GetMonths (s : t) := m_months s.
Definition GetWeeks (s : t) := m_weeks s.
Definition GetWeekdays (s : t) := m_weekdays s.
Definition GetTimes (s : t) := m_times s.
Definition GetComment (s : t) : string := m_comment s.
Definition GetModifierComment (s : t) : string := m_modifierComment s.
Definition GetAnySeparator (s : t) : string := m_anySeparator s.
Definition GetModifier (s : t) : Modifier := m_modifier s.

Definition IsTwentyFourHours (s : t) : bool := m_twentyFourHours s.
Definition HasYears (s : t) : bool := negb (empty (GetYears s)).
Definition HasMonths (s : t) : bool := negb (empty (GetMonths s)).
Definition HasWeeks (s : t) : bool := negb (empty (GetWeeks s)).
Definition HasWeekdays (s : t) : bool := negb (Weekdays.IsEmpty (GetWeekdays s)).
Definition HasTimes (s : t) : bool := negb (empty (GetTimes s)).
Definition HasComment (s : t) : bool := negb (string_empty (GetComment s)).
Definition HasModifierComment (s : t) : bool := negb (string_empty (GetModifierComment s)).
Definition HasSeparatorForReadability (s : t) : bool := m_separatorForReadability s.

Definition IsEmpty (s : t) : bool :=
  negb (HasYears s) && negb (HasMonths s) && negb (HasWeeks s)
  && negb (HasWeekdays s) && negb (HasTimes s).

Definition out_Modifier (modifier : Modifier) (ost : ostream) : ostream :=
  match modifier with
  | DefaultOpen | Comment => ost
  | Unknown => ost << str "unknown"
  | Closed => ost << str "closed"
  | Open => ost << str "open"
  end.

Definition Modifier_eqb (a b : Modifier) : bool :=
  match a, b with
  | DefaultOpen, DefaultOpen | Open, Open | Closed, Closed
  | Unknown, Unknown | Comment, Comment => true
  | _, _ => false
  end.

(** The double quote character. *)
Definition dquote : ascii := "034"%char.

Definition out (s : t) (ost : ostream) : ostream :=
  let st := (ost, false) in
  let st :=
    if IsTwentyFourHours s then st << putSpace << on_stream (str "24/7")
    else if HasComment s then
      st << on_stream (str (GetComment s)) << on_stream (chr ":")
    else
      let st :=
        if HasYears s then st << putSpace << on_stream (out_TYearRanges (GetYears s))
        else st in
      let st :=
        if HasMonths s then st << putSpace << on_stream (out_TMonthdayRanges (GetMonths s))
        else st in
      let st :=
        if HasWeeks s then st << putSpace << on_stream (out_TWeekRanges (GetWeeks s))
        else st in
      let st :=
        if HasSeparatorForReadability s then st << on_stream (chr ":") else st in
      let st :=
        if HasWeekdays s then st << putSpace << on_stream (Weekdays.out (GetWeekdays s))
        else st in
      if HasTimes s then st << putSpace << on_stream (out_TTimespans (GetTimes s))
      else st in
  let st :=
    if negb (Modifier_eqb (GetModifier s) DefaultOpen)
       && negb (Modifier_eqb (GetModifier s) Comment)
    then st << putSpace << on_stream (out_Modifier (GetModifier s))
    else st in
  let st :=
    if HasModifierComment s then
      st << putSpace
         << on_stream (chr dquote)
         << on_stream (str (GetModifierComment s))
         << on_stream (chr dquote)
    else st in
  fst st.

End RuleSequence.

(** The separator a rule contributes to the join: its own separator,
    spaced on both sides when it is the fallback separator. *)
Definition rule_separator (r : RuleSequence.t) : string :=
  let sep := RuleSequence.GetAnySeparator r in
  if (sep =? "||")%string then " " ++ sep ++ " " else sep ++ " ".

Definition out_TRuleSequences (s : list RuleSequence.t) : ostream -> ostream :=
  PrintVector RuleSequence.out rule_separator s.

(** * The printers, with the undefined operations made explicit

    The printers above are total functions because [std_abs] and the
    duration arithmetic are total on [Z].  In C++ they are not: [std::abs]
    has no defined result on the most negative value of its type, and
    signed arithmetic has none when the result is not representable.
    Here each printer is written a second time, from the same source text,
    over a stream that may be lost: [None] stands for an execution that has
    passed through such an operation, after which C++ defines nothing. *)

Module Checked.

(** A signed 64-bit result, when it is representable. *)
Definition int64 (z : Z) : option Z :=
  if (INT64_MIN <=? z) && (z <=? INT64_MAX) then Some z else None.

(** [std::abs] on an [int32_t] and on a 64-bit duration count. *)
Definition std_abs_int32 (z : Z) : option Z :=
  if (INT32_MIN <? z) && (z <=? INT32_MAX) then Some (Z.abs z) else None.

Definition std_abs_int64 (z : Z) : option Z :=
  if (INT64_MIN <? z) && (z <=? INT64_MAX) then Some (Z.abs z) else None.

(** An insertion that is always defined, on a stream that may be lost. *)
Definition ok (f : ostream -> ostream) (ost : option ostream) : option ostream :=
  match ost with
  | Some o => Some (f o)
  | None => None
  end.

Section PrintVector.
Context {T : Type}.
Variable out : T -> option ostream -> option ostream.
Variable sepFunc : T -> string.

Fixpoint PrintVector_loop (sep : string) (it : list T) (ost : option ostream)
    : option ostream :=
  match it with
  | [] => ost
  | x :: it' => PrintVector_loop (sepFunc x) it' (ost << ok (str sep) << out x)
  end.

Definition PrintVector (v : list T) (ost : option ostream) : option ostream :=
  match v with
  | [] => ost
  | x :: it => PrintVector_loop (sepFunc x) it (ost << out x)
  end.
End PrintVector.

Definition PrintVector_sep {T : Type} (out : T -> option ostream -> option ostream)
    (sep : string) (v : list T) : option ostream -> option ostream :=
  PrintVector out (fun _ => sep) v.

Definition PrintOffset (offset : Z) (space : bool) (ost : option ostream)
    : option ostream :=
  if offset =? 0 then ost
  else
    let ost := if space then ost << ok (chr " ") else ost in
    let ost := if offset >? 0 then ost << ok (chr "+") else ost in
    let ost := ost << ok (int_ offset) in
    let ost := ost << ok (chr " ") << ok (str "day") in
    match std_abs_int32 offset with
    | Some a => if a >? 1 then ost << ok (chr "s") else ost
    | None => None
    end.

(** [duration_cast<TMinutes>(m_duration) - GetHours()]: the hours are
    converted to minutes, which multiplies their count by 60, and
    subtracted. *)
Definition minutes_beyond_hours (time : Time.t) : option Z :=
  match int64 (60 * Time.GetHours time) with
  | Some hours_in_minutes => int64 (Time.m_duration time - hours_in_minutes)
  | None => None
  end.

(** [GetMinutes], whose calls on the event time and on the difference are
    calls on values that are not events. *)
Definition GetMinutes (time : Time.t) : option Z :=
  if Time.IsEvent time then minutes_beyond_hours (Time.GetEventTime time)
  else if Time.IsEventOffset time then
    match int64 (Time.m_duration (Time.GetEventTime time) - Time.m_duration time) with
    | Some _ => minutes_beyond_hours (Time.sub (Time.GetEventTime time) time)
    | None => None
    end
  else minutes_beyond_hours time.

Definition GetMinutesCount (time : Time.t) : option Z := GetMinutes time.

(** [PrintPaddedNumber(ost, std::abs(n), 2)] for a duration count [n]. *)
Definition PrintPaddedAbs (n : Z) (ost : option ostream) : option ostream :=
  match std_abs_int64 n with
  | Some a => ost << ok (PrintPaddedNumber a 2)
  | None => None
  end.

Definition Time_out (time : Time.t) (ost : option ostream) : option ostream :=
  if negb (Time.HasValue time) then ost << ok (str "hh:mm")
  else
    match GetMinutesCount time with
    | None => None
    | Some minutes =>
        let hours := Time.GetHoursCount time in
        if Time.IsEvent time then
          if Time.IsEventOffset time then
            let ost := ost << ok (chr "(") << ok (Time.out_Event (Time.GetEvent time)) in
            let ost := if hours <? 0 then ost << ok (chr "-") else ost << ok (chr "+") in
            ost << PrintPaddedAbs hours
                << ok (chr ":")
                << PrintPaddedAbs minutes
                << ok (chr ")")
          else ost << ok (Time.out_Event (Time.GetEvent time))
        else if Time.IsMinutes time then
          ost << PrintPaddedAbs minutes
        else
          ost << PrintPaddedAbs hours
              << ok (chr ":")
              << PrintPaddedAbs minutes
    end.

Definition Timespan_out (span : Timespan.t) (ost : option ostream) : option ostream :=
  let ost := ost << Time_out (Timespan.GetStart span) in
  let ost :=
    if negb (Timespan.IsOpen span) then
      let ost := ost << ok (chr "-") << Time_out (Timespan.GetEnd span) in
      if Timespan.HasPeriod span
      then ost << ok (chr "/") << Time_out (Timespan.GetPeriod span)
      else ost
    else ost in
  if Timespan.HasPlus span then ost << ok (chr "+") else ost.

Definition out_TTimespans (timespans : list Timespan.t)
    : option ostream -> option ostream :=
  PrintVector_sep Timespan_out ", " timespans.

Definition WeekdayRange_out (range : WeekdayRange.t) (ost : option ostream)
    : option ostream :=
  let ost := ost << ok (Weekday.out (WeekdayRange.GetStart range)) in
  if WeekdayRange.HasEnd range
  then ost << ok (chr "-") << ok (Weekday.out (WeekdayRange.GetEnd range))
  else
    let ost :=
      if WeekdayRange.HasNth range then
        ost << ok (chr "[")
            << PrintVector_sep (fun entry => ok (NthWeekdayOfTheMonthEntry.out entry)) ","
                 (WeekdayRange.GetNths range)
            << ok (chr "]")
      else ost in
    ost << PrintOffset (WeekdayRange.GetOffset range) true.

Definition out_TWeekdayRanges (ranges : list WeekdayRange.t)
    : option ostream -> option ostream :=
  PrintVector_sep WeekdayRange_out ", " ranges.

Definition Holiday_out (holiday : Holiday.t) (ost : option ostream) : option ostream :=
  if Holiday.IsPlural holiday then ost << ok (str "PH")
  else ost << ok (str "SH") << PrintOffset (Holiday.GetOffset holiday) true.

Definition out_THolidays (holidays : list Holiday.t)
    : option ostream -> option ostream :=
  PrintVector_sep Holiday_out ", " holidays.

Definition Weekdays_out (weekday : Weekdays.t) (ost : option ostream) : option ostream :=
  let ost := ost << out_THolidays (Weekdays.GetHolidays weekday) in
  let ost :=
    if Weekdays.HasWeekday weekday && Weekdays.HasHolidays weekday
    then ost << ok (str ", ") else ost in
  ost << out_TWeekdayRanges (Weekdays.GetWeekdayRanges weekday).

Definition DateOffset_out (offset : DateOffset.t) (ost : option ostream)
    : option ostream :=
  let ost :=
    if DateOffset.HasWDayOffset offset then
      ost << ok (chr (if DateOffset.IsWDayOffsetPositive offset then "+" else "-"))
          << ok (Weekday.out (DateOffset.GetWDayOffset offset))
    else ost in
  ost << PrintOffset (DateOffset.GetOffset offset) (DateOffset.HasWDayOffset offset).

Definition putSpace (st : option ostream * bool) : option ostream * bool :=
  ((if snd st then fst st << ok (chr " ") else fst st), true).

Definition on_stream (f : option ostream -> option ostream)
    (st : option ostream * bool) : option ostream * bool :=
  (f (fst st), snd st).

Definition MonthDay_out (md : MonthDay.t) (ost : option ostream) : option ostream :=
  let st := (ost, false) in
  let st :=
    if MonthDay.HasYear md
    then st << putSpace << on_stream (ok (unsigned_ (MonthDay.GetYear md)))
    else st in
  let st :=
    if MonthDay.IsVariable md then
      st << putSpace
         << on_stream (ok (MonthDay.out_VariableDate (MonthDay.GetVariableDate md)))
    else
      let st :=
        if MonthDay.HasMonth md
        then st << putSpace << on_stream (ok (MonthDay.out_Month (MonthDay.GetMonth md)))
        else st in
      if MonthDay.HasDayNum md
      then st << putSpace << on_stream (ok (PrintPaddedNumber (MonthDay.GetDayNum md) 2))
      else st in
  let ost := fst st in
  if MonthDay.HasOffset md
  then ost << ok (chr " ") << DateOffset_out (MonthDay.GetOffset md)
  else ost.

Definition MonthdayRange_out (range : MonthdayRange.t) (ost : option ostream)
    : option ostream :=
  let ost :=
    if MonthdayRange.HasStart range
    then ost << MonthDay_out (MonthdayRange.GetStart range) else ost in
  if MonthdayRange.HasEnd range then
    let ost := ost << ok (chr "-") << MonthDay_out (MonthdayRange.GetEnd range) in
    if MonthdayRange.HasPeriod range
    then ost << ok (chr "/") << ok (unsigned_ (MonthdayRange.GetPeriod range))
    else ost
  else if MonthdayRange.HasPlus range then ost << ok (chr "+")
  else ost.

Definition out_TMonthdayRanges (ranges : list MonthdayRange.t)
    : option ostream -> option ostream :=
  PrintVector_sep MonthdayRange_out ", " ranges.

(** The printers of the entities without a day offset or a duration go
    through no such operation: [NthWeekdayOfTheMonthEntry], [Weekday],
    [YearRange], [WeekRange] and their vectors are the printers above, on a
    stream that is still there. *)
Definition out_TYearRanges (ranges : list YearRange.t)
    : option ostream -> option ostream :=
  PrintVector_sep (fun range => ok (YearRange.out range)) ", " ranges.

Definition out_TWeekRanges (ranges : list WeekRange.t) (ost : option ostream)
    : option ostream :=
  ost << ok (str "week ")
      << PrintVector_sep (fun range => ok (WeekRange.out range)) ", " ranges.

Definition RuleSequence_out (s : RuleSequence.t) (ost : option ostream)
    : option ostream :=
  let st := (ost, false) in
  let st :=
    if RuleSequence.IsTwentyFourHours s then st << putSpace << on_stream (ok (str "24/7"))
    else if RuleSequence.HasComment s then
      st << on_stream (ok (str (RuleSequence.GetComment s))) << on_stream (ok (chr ":"))
    else
      let st :=
        if RuleSequence.HasYears s
        then st << putSpace << on_stream (out_TYearRanges (RuleSequence.GetYears s))
        else st in
      let st :=
        if RuleSequence.HasMonths s
        then st << putSpace << on_stream (out_TMonthdayRanges (RuleSequence.GetMonths s))
        else st in
      let st :=
        if RuleSequence.HasWeeks s
        then st << putSpace << on_stream (out_TWeekRanges (RuleSequence.GetWeeks s))
        else st in
      let st :=
        if RuleSequence.HasSeparatorForReadability s
        then st << on_stream (ok (chr ":")) else st in
      let st :=
        if RuleSequence.HasWeekdays s
        then st << putSpace << on_stream (Weekdays_out (RuleSequence.GetWeekdays s))
        else st in
      if RuleSequence.HasTimes s
      then st << putSpace << on_stream (out_TTimespans (RuleSequence.GetTimes s))
      else st in
  let st :=
    if negb (RuleSequence.Modifier_eqb (RuleSequence.GetModifier s) RuleSequence.DefaultOpen)
       && negb (RuleSequence.Modifier_eqb (RuleSequence.GetModifier s) RuleSequence.Comment)
    then st << putSpace
            << on_stream (ok (RuleSequence.out_Modifier (RuleSequence.GetModifier s)))
    else st in
  let st :=
    if RuleSequence.HasModifierComment s then
      st << putSpace
         << on_stream (ok (chr RuleSequence.dquote))
         << on_stream (ok (str (RuleSequence.GetModifierComment s)))
         << on_stream (ok (chr RuleSequence.dquote))
    else st in
  fst st.

Definition out_TRuleSequences (s : list RuleSequence.t)
    : option ostream -> option ostream :=
  PrintVector RuleSequence_out rule_separator s.

End Checked.

(** * Vocabulary of the statements and sample values *)

(** [extends a b]: the text of [b] is the text of [a] with more after it.
    [appends f]: whatever the state of the stream, [f] keeps the text
    written so far and writes after it. *)
Definition extends (a b : ostream) : Prop :=
  exists w, os_text b = os_text a ++ w.

Definition appends (f : ostream -> ostream) : Prop :=
  forall ost, extends ost (f ost).

(** A stream is [plain] when it formats as a fresh one does: the initial
    flags and no pending width.  The fill character is left free, since
    [PrintPaddedNumber] changes it. *)
Definition plain (ost : ostream) : Prop :=
  os_flags ost = ios.initial /\ os_width ost = 0.

(** [sim w a b]: two plain streams whose texts differ by the prefix [w];
    [sim2] is the same for a stream that travels with the [space] flag. *)
Definition sim (w : string) (a b : ostream) : Prop :=
  os_text a = w ++ os_text b /\ plain a /\ plain b.

Definition sim2 (w : string) (s1 s2 : ostream * bool) : Prop :=
  sim w (fst s1) (fst s2) /\ snd s1 = snd s2.

(** A printer [renders] when it keeps plain streams plain and writes the
    same characters on both; what it writes is then [text_of] it, the text
    it leaves on a fresh stream. *)
Definition renders (f : ostream -> ostream) : Prop :=
  forall w a b, sim w a b -> sim w (f a) (f b).

Definition text_of (f : ostream -> ostream) : string := os_text (f ostringstream).

(** A number padded with zeros on the left to [width] characters. *)
Definition zero_padded (width : Z) (number : Z) : string :=
  fill_string (Z.to_nat (width - Z.of_nat (String.length (dec_digits number)))) "0"
  ++ dec_digits number.

(** What follows the selectors of a rule: the modifier keyword, unless the
    modifier is [DefaultOpen] or [Comment], then the quoted modifier
    comment, each after a space. *)
Definition modifier_text (s : RuleSequence.t) : string :=
  match RuleSequence.GetModifier s with
  | RuleSequence.DefaultOpen | RuleSequence.Comment => ""
  | RuleSequence.Open => " open"
  | RuleSequence.Closed => " closed"
  | RuleSequence.Unknown => " unknown"
  end.

Definition modifier_comment_text (s : RuleSequence.t) : string :=
  if RuleSequence.HasModifierComment s
  then " " ++ String RuleSequence.dquote (RuleSequence.GetModifierComment s
                                          ++ String RuleSequence.dquote "")
  else "".

(** A rule that is open around the clock, with populated selectors, a
    comment, the modifier [closed] and a modifier comment. *)
Definition rule_always (separator : string) : RuleSequence.t :=
  {| RuleSequence.m_twentyFourHours := true;
     RuleSequence.m_years :=
       [ {| YearRange.m_start := 2015; YearRange.m_end := 2020;
            YearRange.m_plus := false; YearRange.m_period := 0 |} ];
     RuleSequence.m_months := [];
     RuleSequence.m_weeks := [];
     RuleSequence.m_weekdays :=
       {| Weekdays.m_weekdayRanges := []; Weekdays.m_holidays := [] |};
     RuleSequence.m_times :=
       [ {| Timespan.m_start := Time.of_hours 9; Timespan.m_end := Time.of_hours 18;
            Timespan.m_period := Time.default; Timespan.m_plus := false |} ];
     RuleSequence.m_comment := "by appointment";
     RuleSequence.m_anySeparator := separator;
     RuleSequence.m_separatorForReadability := false;
     RuleSequence.m_modifier := RuleSequence.Closed;
     RuleSequence.m_modifierComment := "on request" |}.

(** Two rules open around the clock: [24/7 open] with the separator [;]
    and [24/7 closed] with the separator [,]. *)
Definition rule_24_7 (modifier : RuleSequence.Modifier) (separator : string)
    : RuleSequence.t :=
  {| RuleSequence.m_twentyFourHours := true;
     RuleSequence.m_years := []; RuleSequence.m_months := [];
     RuleSequence.m_weeks := [];
     RuleSequence.m_weekdays :=
       {| Weekdays.m_weekdayRanges := []; Weekdays.m_holidays := [] |};
     RuleSequence.m_times := []; RuleSequence.m_comment := "";
     RuleSequence.m_anySeparator := separator;
     RuleSequence.m_separatorForReadability := false;
     RuleSequence.m_modifier := modifier;
     RuleSequence.m_modifierComment := "" |}.

Definition rule_open_semicolon : RuleSequence.t := rule_24_7 RuleSequence.Open ";".
Definition rule_closed_comma : RuleSequence.t := rule_24_7 RuleSequence.Closed ",".

(** The rules of a sequence, each followed by its separator when another
    rule comes after it. *)
Fixpoint joined (rules : list RuleSequence.t) : string :=
  match rules with
  | [] => ""
  | r :: rest =>
      text_of (RuleSequence.out r)
      ++ match rest with
         | [] => ""
         | _ :: _ => rule_separator r ++ joined rest
         end
  end.

(** The entities that carry no data. *)
Definition Timespan_empty : Timespan.t :=
  {| Timespan.m_start := Time.default; Timespan.m_end := Time.default;
     Timespan.m_period := Time.default; Timespan.m_plus := false |}.

Definition MonthDay_empty : MonthDay.t :=
  {| MonthDay.m_year := 0; MonthDay.m_month := MonthDay.Month_None;
     MonthDay.m_daynum := 0; MonthDay.m_variable_date := MonthDay.VariableDate_None;
     MonthDay.m_offset :=
       {| DateOffset.m_wday_offset := Weekday.None; DateOffset.m_positive := true;
          DateOffset.m_offset := 0 |} |}.

Definition RuleSequence_empty : RuleSequence.t :=
  {| RuleSequence.m_twentyFourHours := false;
     RuleSequence.m_years := []; RuleSequence.m_months := [];
     RuleSequence.m_weeks := [];
     RuleSequence.m_weekdays :=
       {| Weekdays.m_weekdayRanges := []; Weekdays.m_holidays := [] |};
     RuleSequence.m_times := []; RuleSequence.m_comment := "";
     RuleSequence.m_anySeparator := ";";
     RuleSequence.m_separatorForReadability := false;
     RuleSequence.m_modifier := RuleSequence.DefaultOpen;
     RuleSequence.m_modifierComment := "" |}.

(** The event offset [(sunrise+01:30)]: the event tag with a duration of 90
    minutes, as [SetMinutes] and [SetEvent] build it. *)
Definition sunrise_plus_90 : Time.t := Time.SetEvent Time.Sunrise (Time.of_minutes 90).

(** The range Mo-Fr and the range Mo-Tu. *)
Definition Mo_Fr : WeekdayRange.t :=
  {| WeekdayRange.m_start := Weekday.Monday; WeekdayRange.m_end := Weekday.Friday;
     WeekdayRange.m_offset := 0; WeekdayRange.m_nths := [] |}.

Definition Mo_Tu : WeekdayRange.t :=
  {| WeekdayRange.m_start := Weekday.Monday; WeekdayRange.m_end := Weekday.Tuesday;
     WeekdayRange.m_offset := 0; WeekdayRange.m_nths := [] |}.

(** The texts of the elements of a vector, each followed by its separator
    when another element comes after it. *)
Fixpoint join_texts {T : Type} (text sepFunc : T -> string) (v : list T) : string :=
  match v with
  | [] => ""
  | x :: rest =>
      text x
      ++ match rest with
         | [] => ""
         | _ :: _ => sepFunc x ++ join_texts text sepFunc rest
         end
  end.

(** The number a string of decimal digits denotes, leading zeros allowed. *)
Definition read_decimal (s : string) : option Z :=
  match NilZero.uint_of_string s with
  | Some d => Some (Z.of_N (N.of_uint d))
  | None => None
  end.

(** The seven days of the week. *)
Definition week : list Weekday.t :=
  [Weekday.Sunday; Weekday.Monday; Weekday.Tuesday; Weekday.Wednesday;
   Weekday.Thursday; Weekday.Friday; Weekday.Saturday].

(** A rule with a comment, weekdays, the readability colon and the
    modifier [closed]. *)
Definition rule_by_appointment : RuleSequence.t :=
  {| RuleSequence.m_twentyFourHours := false;
     RuleSequence.m_years := []; RuleSequence.m_months := [];
     RuleSequence.m_weeks := [];
     RuleSequence.m_weekdays :=
       {| Weekdays.m_weekdayRanges := [Mo_Fr]; Weekdays.m_holidays := [] |};
     RuleSequence.m_times := []; RuleSequence.m_comment := "by appointment";
     RuleSequence.m_anySeparator := ";";
     RuleSequence.m_separatorForReadability := true;
     RuleSequence.m_modifier := RuleSequence.Closed;
     RuleSequence.m_modifierComment := "" |}.

(** The days of the week a range contains. *)
Definition days_in (val : Weekday.t -> Z) (range : WeekdayRange.t) : list Weekday.t :=
  filter (WeekdayRange.HasWday val range) week.

(** A part of a text that is written only when its condition holds, and
    the parts that are written. *)
Definition present (parts : list (bool * string)) : list string :=
  map snd (filter fst parts).

(** The guarded insertions of the [MonthDay] and [RuleSequence] printers:
    [if (has) { putSpace(); ost << part; }], one after the other. *)
Definition emit_part (p : bool * (ostream -> ostream)) (st : ostream * bool)
    : ostream * bool :=
  if fst p then st << putSpace << on_stream (snd p) else st.

Definition emit_parts (parts : list (bool * (ostream -> ostream)))
    (st : ostream * bool) : ostream * bool :=
  fold_left (fun st p => emit_part p st) parts st.

Definition texts (parts : list (bool * (ostream -> ostream))) : list (bool * string) :=
  map (fun p => (fst p, text_of (snd p))) parts.

(** A rule with years, weekdays, times, the readability colon and the
    modifier [unknown]. *)
Definition rule_weekdays_times : RuleSequence.t :=
  {| RuleSequence.m_twentyFourHours := false;
     RuleSequence.m_years :=
       [ {| YearRange.m_start := 2015; YearRange.m_end := 2020;
            YearRange.m_plus := false; YearRange.m_period := 0 |} ];
     RuleSequence.m_months := []; RuleSequence.m_weeks := [];
     RuleSequence.m_weekdays :=
       {| Weekdays.m_weekdayRanges := [Mo_Fr]; Weekdays.m_holidays := [] |};
     RuleSequence.m_times :=
       [ {| Timespan.m_start := Time.of_hours 9; Timespan.m_end := Time.of_hours 18;
            Timespan.m_period := Time.default; Timespan.m_plus := false |} ];
     RuleSequence.m_comment := "";
     RuleSequence.m_anySeparator := ";";
     RuleSequence.m_separatorForReadability := true;
     RuleSequence.m_modifier := RuleSequence.Unknown;
     RuleSequence.m_modifierComment := "" |}.

(** A printer is [context_free] when, on a plain stream, it writes the
    text it writes on a fresh stream, whatever was written before and
    whatever the fill character is, and leaves the stream plain. *)
Definition context_free (f : ostream -> ostream) : Prop :=
  forall ost, plain ost -> plain (f ost) /\ os_text (f ost) = os_text ost ++ text_of f.

(** [frame a b]: from [a] to [b] the format flags are the same, the width
    is the same or 0, and the fill character is the same or [0].
    [keeps f]: on every stream [f] changes the format state no more than
    that. *)
Definition frame (a b : ostream) : Prop :=
  os_flags b = os_flags a
  /\ (os_width b = 0 \/ os_width b = os_width a)
  /\ (os_fill b = os_fill a \/ os_fill b = "0"%char).

Definition keeps (f : ostream -> ostream) : Prop :=
  forall ost, frame ost (f ost).

(** ** The values on which every operation of the printers is defined *)

(** A day offset is an [int32_t] other than the most negative one, on
    which [std::abs] has no result. *)
Definition offset_defined (offset : Z) : Prop := INT32_MIN < offset <= INT32_MAX.

(** The minute count of a [Time] is a 64-bit count. *)
Definition Time_defined (time : Time.t) : Prop :=
  INT64_MIN <= Time.m_duration time <= INT64_MAX.

Definition Timespan_defined (span : Timespan.t) : Prop :=
  Time_defined (Timespan.GetStart span)
  /\ Time_defined (Timespan.GetEnd span)
  /\ Time_defined (Timespan.GetPeriod span).

(** The offset of a holiday is read for [SH] only, that of a weekday range
    only when the range has no end. *)
Definition Holiday_defined (holiday : Holiday.t) : Prop :=
  Holiday.IsPlural holiday = true \/ offset_defined (Holiday.GetOffset holiday).

Definition WeekdayRange_defined (range : WeekdayRange.t) : Prop :=
  WeekdayRange.HasEnd range = true \/ offset_defined (WeekdayRange.GetOffset range).

Definition Weekdays_defined (weekday : Weekdays.t) : Prop :=
  Forall Holiday_defined (Weekdays.GetHolidays weekday)
  /\ Forall WeekdayRange_defined (Weekdays.GetWeekdayRanges weekday).

Definition DateOffset_defined (offset : DateOffset.t) : Prop :=
  offset_defined (DateOffset.GetOffset offset).

Definition MonthDay_defined (md : MonthDay.t) : Prop :=
  DateOffset_defined (MonthDay.GetOffset md).

Definition MonthdayRange_defined (range : MonthdayRange.t) : Prop :=
  (MonthdayRange.HasStart range = true -> MonthDay_defined (MonthdayRange.GetStart range))
  /\ (MonthdayRange.HasEnd range = true -> MonthDay_defined (MonthdayRange.GetEnd range)).

(** A rule that is open around the clock or has a comment writes none of
    its selectors. *)
Definition RuleSequence_defined (s : RuleSequence.t) : Prop :=
  RuleSequence.IsTwentyFourHours s = true
  \/ RuleSequence.HasComment s = true
  \/ (Forall MonthdayRange_defined (RuleSequence.GetMonths s)
      /\ Weekdays_defined (RuleSequence.GetWeekdays s)
      /\ Forall Timespan_defined (RuleSequence.GetTimes s)).

(** A rule with every selector, a modifier and a modifier comment. *)
Definition rule_every_selector : RuleSequence.t :=
  {| RuleSequence.m_twentyFourHours := false;
     RuleSequence.m_years :=
       [ {| YearRange.m_start := 2015; YearRange.m_end := 2020;
            YearRange.m_plus := false; YearRange.m_period := 2 |};
         {| YearRange.m_start := 2030; YearRange.m_end := 0;
            YearRange.m_plus := true; YearRange.m_period := 0 |} ];
     RuleSequence.m_months :=
       [ {| MonthdayRange.m_start :=
              {| MonthDay.m_year := 2015; MonthDay.m_month := MonthDay.Jan;
                 MonthDay.m_daynum := 5; MonthDay.m_variable_date := MonthDay.VariableDate_None;
                 MonthDay.m_offset :=
                   {| DateOffset.m_wday_offset := Weekday.Monday;
                      DateOffset.m_positive := true; DateOffset.m_offset := -2 |} |};
            MonthdayRange.m_end :=
              {| MonthDay.m_year := 0; MonthDay.m_month := MonthDay.Month_None;
                 MonthDay.m_daynum := 0; MonthDay.m_variable_date := MonthDay.Easter;
                 MonthDay.m_offset :=
                   {| DateOffset.m_wday_offset := Weekday.None;
                      DateOffset.m_positive := false; DateOffset.m_offset := 0 |} |};
            MonthdayRange.m_period := 3; MonthdayRange.m_plus := false |} ];
     RuleSequence.m_weeks :=
       [ {| WeekRange.m_start := 1; WeekRange.m_end := 53; WeekRange.m_period := 2 |} ];
     RuleSequence.m_weekdays :=
       {| Weekdays.m_weekdayRanges :=
            [ {| WeekdayRange.m_start := Weekday.Monday; WeekdayRange.m_end := Weekday.None;
                 WeekdayRange.m_offset := 1;
                 WeekdayRange.m_nths :=
                   [ {| NthWeekdayOfTheMonthEntry.m_start := NthWeekdayOfTheMonthEntry.First;
                        NthWeekdayOfTheMonthEntry.m_end := NthWeekdayOfTheMonthEntry.Third |};
                     {| NthWeekdayOfTheMonthEntry.m_start := NthWeekdayOfTheMonthEntry.Fifth;
                        NthWeekdayOfTheMonthEntry.m_end := NthWeekdayOfTheMonthEntry.None |} ] |};
              Mo_Fr ];
          Weekdays.m_holidays :=
            [ {| Holiday.m_plural := false; Holiday.m_offset := 2 |};
              {| Holiday.m_plural := true; Holiday.m_offset := 0 |} ] |};
     RuleSequence.m_times :=
       [ {| Timespan.m_start := Time.of_hours 9; Timespan.m_end := sunrise_plus_90;
            Timespan.m_period := Time.of_minutes 30; Timespan.m_plus := false |};
         {| Timespan.m_start := Time.of_minutes (-95); Timespan.m_end := Time.default;
            Timespan.m_period := Time.default; Timespan.m_plus := true |} ];
     RuleSequence.m_comment := "";
     RuleSequence.m_anySeparator := "||";
     RuleSequence.m_separatorForReadability := true;
     RuleSequence.m_modifier := RuleSequence.Unknown;
     RuleSequence.m_modifierComment := "x" |}.

(** A school holiday [INT32_MIN] days off. *)
Definition holiday_most_negative : Holiday.t :=
  {| Holiday.m_plural := false; Holiday.m_offset := INT32_MIN |}.

(** [agrees c o]: the stream is still there, and is [o].  [refines cf f]:
    on a stream that is there, the checked printer [cf] reaches no
    undefined operation and leaves the stream [f] leaves. *)
Definition agrees (c : option ostream) (o : ostream) : Prop := c = Some o.

Definition agrees2 (cst : option ostream * bool) (st : ostream * bool) : Prop :=
  agrees (fst cst) (fst st) /\ snd cst = snd st.

Definition refines (cf : option ostream -> option ostream) (f : ostream -> ostream)
    : Prop :=
  forall ost, cf (Some ost) = Some (f ost).

(** [total_on defined cout out]: on every value that is [defined] and on
    every stream, the checked printer [cout] reaches no undefined operation
    and returns the stream the printer [out] returns, whose text is the
    text written so far with more after it. *)
Definition total_on {T : Type} (defined : T -> Prop)
    (cout : T -> option ostream -> option ostream) (out : T -> ostream -> ostream)
    : Prop :=
  forall x ost, defined x -> cout x (Some ost) = Some (out x ost) /\ extends ost (out x ost).

(** * Properties *)

(** ** Strings *)

Lemma append_nil_r (a : string) : a ++ "" = a.
Proof. induction a as [|c a IH]; simpl; [reflexivity | now rewrite IH]. Qed.

Lemma append_assoc (a b c : string) : (a ++ b) ++ c = a ++ (b ++ c).
Proof. induction a as [|x a IH]; simpl; [reflexivity | now rewrite IH]. Qed.

(** ** Streams: what an insertion appends *)

Lemma extends_refl (a : ostream) : extends a a.
Proof. exists "". now rewrite append_nil_r. Qed.

Lemma extends_step (f : ostream -> ostream) (a b : ostream) :
  appends f -> extends a b -> extends a (f b).
Proof.
  intros Hf [v Hv]. destruct (Hf b) as [w Hw].
  exists (v ++ w). now rewrite Hw, Hv, append_assoc.
Qed.

Lemma extends_putSpace (a : ostream) (st : ostream * bool) :
  extends a (fst st) -> extends a (fst (putSpace st)).
Proof.
  intros H. unfold putSpace. simpl. destruct (snd st); [ | exact H].
  apply extends_step; [ | exact H]. intros o. now exists (padded o "" " ").
Qed.

Lemma extends_on_stream (f : ostream -> ostream) (a : ostream) (st : ostream * bool) :
  appends f -> extends a (fst st) -> extends a (fst (on_stream f st)).
Proof. intros Hf H. unfold on_stream. simpl. now apply extends_step. Qed.

Lemma appends_insert_field (pre body : string) : appends (insert_field pre body).
Proof. intros ost. now exists (padded ost pre body). Qed.

Lemma appends_chr (c : ascii) : appends (chr c).
Proof. apply appends_insert_field. Qed.

Lemma appends_str (s : string) : appends (str s).
Proof. apply appends_insert_field. Qed.

Lemma appends_unsigned (n : Z) : appends (unsigned_ n).
Proof. intros ost. unfold unsigned_. apply appends_insert_field. Qed.

Lemma appends_int (n : Z) : appends (int_ n).
Proof.
  intros ost. unfold int_.
  destruct (ios.basefield (os_flags ost));
    [apply appends_insert_field | apply appends_unsigned ..].
Qed.

Lemma appends_PrintPaddedNumber (number padding : Z) :
  appends (PrintPaddedNumber number padding).
Proof.
  intros ost. unfold PrintPaddedNumber, StreamFlagsKeeper_destroy, set_flags. simpl.
  eexists. reflexivity.
Qed.

Create HintDb appends.
#[local] Hint Resolve appends_chr appends_str appends_unsigned appends_int
  appends_PrintPaddedNumber : appends.

(** One step of a proof that a printer only appends: peel the last
    insertion, or split on the condition it was guarded by. *)
Ltac appends_step :=
  match goal with
  | |- extends ?a ?a => apply extends_refl
  | |- extends _ (fst (_, _)) => cbn [fst]
  | |- extends _ (fst (putSpace _)) => apply extends_putSpace
  | |- extends _ (fst (on_stream _ _)) =>
      apply extends_on_stream; [solve [auto with appends] | ]
  | |- extends _ (fst (if ?c then _ else _)) => destruct c
  | |- extends _ (if ?c then _ else _) => destruct c
  | |- extends _ (_ _) => apply extends_step; [solve [auto with appends] | ]
  end.

Ltac appends_tac := intros ost; cbv zeta; repeat appends_step.

Lemma appends_PrintOffset (offset : Z) (space : bool) : appends (PrintOffset offset space).
Proof. unfold PrintOffset. appends_tac. Qed.

#[local] Hint Resolve appends_PrintOffset : appends.

Lemma extends_PrintVector_loop (T : Type) (out : T -> ostream -> ostream)
    (sepFunc : T -> string) (it : list T) :
  (forall x, appends (out x)) ->
  forall sep a b, extends a b -> extends a (PrintVector_loop out sepFunc sep it b).
Proof.
  intros Hout. induction it as [|x it IH]; intros sep a b Hab; simpl.
  - exact Hab.
  - apply IH. apply extends_step; [apply Hout | ].
    apply extends_step; [apply appends_str | exact Hab].
Qed.

Lemma appends_PrintVector (T : Type) (out : T -> ostream -> ostream)
    (sepFunc : T -> string) (v : list T) :
  (forall x, appends (out x)) -> appends (PrintVector out sepFunc v).
Proof.
  intros Hout ost. destruct v as [|x it]; simpl.
  - apply extends_refl.
  - apply extends_PrintVector_loop; [exact Hout | ].
    apply extends_step; [apply Hout | apply extends_refl].
Qed.

Lemma appends_PrintVector_sep (T : Type) (out : T -> ostream -> ostream)
    (sep : string) (v : list T) :
  (forall x, appends (out x)) -> appends (PrintVector_sep out sep v).
Proof. apply appends_PrintVector. Qed.

Lemma appends_Event (event : Time.Event) : appends (Time.out_Event event).
Proof. destruct event; unfold Time.out_Event; auto with appends. Qed.

#[local] Hint Resolve appends_Event : appends.

Lemma appends_Time (time : Time.t) : appends (Time.out time).
Proof. unfold Time.out. appends_tac. Qed.

#[local] Hint Resolve appends_Time : appends.

Lemma appends_Timespan (span : Timespan.t) : appends (Timespan.out span).
Proof. unfold Timespan.out. appends_tac. Qed.

#[local] Hint Resolve appends_Timespan : appends.

Lemma appends_TTimespans (timespans : list Timespan.t) : appends (out_TTimespans timespans).
Proof. apply appends_PrintVector_sep. auto with appends. Qed.

#[local] Hint Resolve appends_TTimespans : appends.

Lemma appends_NthWeekdayOfTheMonthEntry (entry : NthWeekdayOfTheMonthEntry.t) :
  appends (NthWeekdayOfTheMonthEntry.out entry).
Proof. unfold NthWeekdayOfTheMonthEntry.out. appends_tac. Qed.

Lemma appends_Weekday (wday : Weekday.t) : appends (Weekday.out wday).
Proof. destruct wday; unfold Weekday.out; auto with appends. Qed.

#[local] Hint Resolve appends_NthWeekdayOfTheMonthEntry appends_Weekday : appends.

Lemma appends_nths (nths : list NthWeekdayOfTheMonthEntry.t) :
  appends (PrintVector_sep NthWeekdayOfTheMonthEntry.out "," nths).
Proof. apply appends_PrintVector_sep. auto with appends. Qed.

#[local] Hint Resolve appends_nths : appends.

Lemma appends_WeekdayRange (range : WeekdayRange.t) : appends (WeekdayRange.out range).
Proof. unfold WeekdayRange.out. appends_tac. Qed.

#[local] Hint Resolve appends_WeekdayRange : appends.

Lemma appends_TWeekdayRanges (ranges : list WeekdayRange.t) :
  appends (out_TWeekdayRanges ranges).
Proof. apply appends_PrintVector_sep. auto with appends. Qed.

Lemma appends_Holiday (holiday : Holiday.t) : appends (Holiday.out holiday).
Proof. unfold Holiday.out. appends_tac. Qed.

#[local] Hint Resolve appends_TWeekdayRanges appends_Holiday : appends.

Lemma appends_THolidays (holidays : list Holiday.t) : appends (out_THolidays holidays).
Proof. apply appends_PrintVector_sep. auto with appends. Qed.

#[local] Hint Resolve appends_THolidays : appends.

Lemma appends_Weekdays (weekday : Weekdays.t) : appends (Weekdays.out weekday).
Proof. unfold Weekdays.out. appends_tac. Qed.

Lemma appends_DateOffset (offset : DateOffset.t) : appends (DateOffset.out offset).
Proof. unfold DateOffset.out. appends_tac. Qed.

Lemma appends_Month (month : MonthDay.Month) : appends (MonthDay.out_Month month).
Proof. destruct month; unfold MonthDay.out_Month; auto with appends. Qed.

Lemma appends_VariableDate (date : MonthDay.VariableDate) :
  appends (MonthDay.out_VariableDate date).
Proof. destruct date; unfold MonthDay.out_VariableDate; auto with appends. Qed.

#[local] Hint Resolve appends_Weekdays appends_DateOffset appends_Month
  appends_VariableDate : appends.

Lemma appends_MonthDay (md : MonthDay.t) : appends (MonthDay.out md).
Proof. unfold MonthDay.out. appends_tac. Qed.

#[local] Hint Resolve appends_MonthDay : appends.

Lemma appends_MonthdayRange (range : MonthdayRange.t) : appends (MonthdayRange.out range).
Proof. unfold MonthdayRange.out. appends_tac. Qed.

#[local] Hint Resolve appends_MonthdayRange : appends.

Lemma appends_TMonthdayRanges (ranges : list MonthdayRange.t) :
  appends (out_TMonthdayRanges ranges).
Proof. apply appends_PrintVector_sep. auto with appends. Qed.

Lemma appends_YearRange (range : YearRange.t) : appends (YearRange.out range).
Proof. unfold YearRange.out. appends_tac. Qed.

#[local] Hint Resolve appends_TMonthdayRanges appends_YearRange : appends.

Lemma appends_TYearRanges (ranges : list YearRange.t) : appends (out_TYearRanges ranges).
Proof. apply appends_PrintVector_sep. auto with appends. Qed.

Lemma appends_WeekRange (range : WeekRange.t) : appends (WeekRange.out range).
Proof. unfold WeekRange.out. appends_tac. Qed.

#[local] Hint Resolve appends_TYearRanges appends_WeekRange : appends.

Lemma appends_week_list (ranges : list WeekRange.t) :
  appends (PrintVector_sep WeekRange.out ", " ranges).
Proof. apply appends_PrintVector_sep. auto with appends. Qed.

#[local] Hint Resolve appends_week_list : appends.

Lemma appends_TWeekRanges (ranges : list WeekRange.t) : appends (out_TWeekRanges ranges).
Proof. unfold out_TWeekRanges. appends_tac. Qed.

Lemma appends_Modifier (modifier : RuleSequence.Modifier) :
  appends (RuleSequence.out_Modifier modifier).
Proof.
  destruct modifier; unfold RuleSequence.out_Modifier; auto with appends;
    intros ost; apply extends_refl.
Qed.

#[local] Hint Resolve appends_TWeekRanges appends_Modifier : appends.

Lemma appends_RuleSequence (s : RuleSequence.t) : appends (RuleSequence.out s).
Proof. unfold RuleSequence.out. appends_tac. Qed.

#[local] Hint Resolve appends_RuleSequence : appends.

Lemma appends_TRuleSequences (s : list RuleSequence.t) : appends (out_TRuleSequences s).
Proof. apply appends_PrintVector. auto with appends. Qed.

(** ** Streams: the text a printer writes *)
Lemma plain_ostringstream : plain ostringstream.
Proof. split; reflexivity. Qed.

Lemma padded_plain (ost : ostream) (pre body : string) :
  plain ost -> padded ost pre body = pre ++ body.
Proof.
  intros [Hf Hw]. unfold padded. rewrite Hf, Hw.
  replace (Z.to_nat (0 - Z.of_nat (String.length pre + String.length body))) with 0%nat by lia.
  reflexivity.
Qed.

Lemma renders_insert_field (pre body : string) : renders (insert_field pre body).
Proof.
  intros w a b (Ht & Ha & Hb). unfold sim, insert_field, plain. simpl.
  rewrite !padded_plain by assumption. rewrite Ht, append_assoc.
  destruct Ha, Hb. auto.
Qed.

Lemma renders_chr (c : ascii) : renders (chr c).
Proof. apply renders_insert_field. Qed.

Lemma renders_str (s : string) : renders (str s).
Proof. apply renders_insert_field. Qed.

Lemma renders_unsigned (n : Z) : renders (unsigned_ n).
Proof.
  intros w a b H. unfold unsigned_.
  destruct H as (Ht & Ha & Hb).
  rewrite (proj1 Ha), (proj1 Hb). apply renders_insert_field.
  exact (conj Ht (conj Ha Hb)).
Qed.

Lemma renders_int (n : Z) : renders (int_ n).
Proof.
  intros w a b H. unfold int_.
  destruct H as (Ht & Ha & Hb).
  rewrite (proj1 Ha), (proj1 Hb). simpl. apply renders_insert_field.
  exact (conj Ht (conj Ha Hb)).
Qed.

Lemma renders_PrintPaddedNumber (number padding : Z) :
  renders (PrintPaddedNumber number padding).
Proof.
  intros w a b (Ht & [Hfa Hwa] & [Hfb Hwb]).
  unfold sim, plain, PrintPaddedNumber, StreamFlagsKeeper_destroy, StreamFlagsKeeper,
    set_flags, flags, unsigned_, insert_field, setfill, setw, padded. simpl.
  rewrite Hfa, Hfb, Ht, append_assoc. simpl. auto.
Qed.

Lemma renders_id : renders (fun ost => ost).
Proof. intros w a b H. exact H. Qed.

Lemma sim_step (f : ostream -> ostream) (w : string) (a b : ostream) :
  renders f -> sim w a b -> sim w (f a) (f b).
Proof. intros Hf H. now apply Hf. Qed.

Lemma sim2_fst (w : string) (s1 s2 : ostream * bool) :
  sim2 w s1 s2 -> sim w (fst s1) (fst s2).
Proof. now intros [H _]. Qed.

Lemma sim2_pair (w : string) (a b : ostream) (space : bool) :
  sim w a b -> sim2 w (a, space) (b, space).
Proof. intros H. now split. Qed.

Lemma sim2_putSpace (w : string) (s1 s2 : ostream * bool) :
  sim2 w s1 s2 -> sim2 w (putSpace s1) (putSpace s2).
Proof.
  intros [H E]. unfold putSpace. split; [ | reflexivity]. simpl. rewrite E.
  destruct (snd s2); [ | exact H]. now apply renders_chr.
Qed.

Lemma sim2_on_stream (f : ostream -> ostream) (w : string) (s1 s2 : ostream * bool) :
  renders f -> sim2 w s1 s2 -> sim2 w (on_stream f s1) (on_stream f s2).
Proof. intros Hf [H E]. split; [now apply Hf | exact E]. Qed.

Create HintDb renders.
#[local] Hint Resolve renders_chr renders_str renders_unsigned renders_int
  renders_PrintPaddedNumber : renders.

Ltac renders_step :=
  match goal with
  | H : sim ?w ?a ?b |- sim ?w ?a ?b => exact H
  | |- sim _ (fst _) (fst _) => apply sim2_fst
  | |- sim2 _ (_, _) (_, _) => apply sim2_pair
  | |- sim2 _ (putSpace _) (putSpace _) => apply sim2_putSpace
  | |- sim2 _ (on_stream _ _) (on_stream _ _) =>
      apply sim2_on_stream; [solve [auto with renders] | ]
  | |- sim2 _ (if ?c then _ else _) _ => destruct c
  | |- sim _ (if ?c then _ else _) _ => destruct c
  | |- sim _ (_ _) (_ _) => apply sim_step; [solve [auto with renders] | ]
  end.

Ltac renders_tac := intros w a b Hsim; cbv zeta; repeat renders_step.

Lemma renders_PrintOffset (offset : Z) (space : bool) : renders (PrintOffset offset space).
Proof. unfold PrintOffset. renders_tac. Qed.

#[local] Hint Resolve renders_PrintOffset : renders.

Lemma sim_PrintVector_loop (T : Type) (out : T -> ostream -> ostream)
    (sepFunc : T -> string) (it : list T) :
  (forall x, renders (out x)) ->
  forall sep w a b, sim w a b ->
    sim w (PrintVector_loop out sepFunc sep it a) (PrintVector_loop out sepFunc sep it b).
Proof.
  intros Hout. induction it as [|x it IH]; intros sep w a b Hab; simpl.
  - exact Hab.
  - apply IH. apply Hout. now apply renders_str.
Qed.

Lemma renders_PrintVector (T : Type) (out : T -> ostream -> ostream)
    (sepFunc : T -> string) (v : list T) :
  (forall x, renders (out x)) -> renders (PrintVector out sepFunc v).
Proof.
  intros Hout w a b Hab. destruct v as [|x it]; simpl.
  - exact Hab.
  - apply sim_PrintVector_loop; [exact Hout | ]. now apply Hout.
Qed.

Lemma renders_PrintVector_sep (T : Type) (out : T -> ostream -> ostream)
    (sep : string) (v : list T) :
  (forall x, renders (out x)) -> renders (PrintVector_sep out sep v).
Proof. apply renders_PrintVector. Qed.

(** What [renders] gives on one stream. *)
Lemma renders_plain (f : ostream -> ostream) (ost : ostream) :
  renders f -> plain ost -> plain (f ost).
Proof.
  intros Hf Hp.
  destruct (Hf (os_text ost) ost ostringstream) as (_ & H & _); [ | exact H].
  split; [ | split; [exact Hp | exact plain_ostringstream]].
  simpl. now rewrite append_nil_r.
Qed.

Lemma renders_text (f : ostream -> ostream) (ost : ostream) :
  renders f -> plain ost -> os_text (f ost) = os_text ost ++ text_of f.
Proof.
  intros Hf Hp.
  destruct (Hf (os_text ost) ost ostringstream) as (H & _ & _); [ | exact H].
  split; [ | split; [exact Hp | exact plain_ostringstream]].
  simpl. now rewrite append_nil_r.
Qed.

Lemma renders_Event (event : Time.Event) : renders (Time.out_Event event).
Proof. destruct event; unfold Time.out_Event; auto with renders. Qed.

#[local] Hint Resolve renders_Event : renders.

Lemma renders_Time (time : Time.t) : renders (Time.out time).
Proof. unfold Time.out. renders_tac. Qed.

#[local] Hint Resolve renders_Time : renders.

Lemma renders_Timespan (span : Timespan.t) : renders (Timespan.out span).
Proof. unfold Timespan.out. renders_tac. Qed.

#[local] Hint Resolve renders_Timespan : renders.

Lemma renders_TTimespans (timespans : list Timespan.t) : renders (out_TTimespans timespans).
Proof. apply renders_PrintVector_sep. auto with renders. Qed.

Lemma renders_NthWeekdayOfTheMonthEntry (entry : NthWeekdayOfTheMonthEntry.t) :
  renders (NthWeekdayOfTheMonthEntry.out entry).
Proof. unfold NthWeekdayOfTheMonthEntry.out. renders_tac. Qed.

Lemma renders_Weekday (wday : Weekday.t) : renders (Weekday.out wday).
Proof. destruct wday; unfold Weekday.out; auto with renders. Qed.

#[local] Hint Resolve renders_TTimespans renders_NthWeekdayOfTheMonthEntry
  renders_Weekday : renders.

Lemma renders_nths (nths : list NthWeekdayOfTheMonthEntry.t) :
  renders (PrintVector_sep NthWeekdayOfTheMonthEntry.out "," nths).
Proof. apply renders_PrintVector_sep. auto with renders. Qed.

#[local] Hint Resolve renders_nths : renders.

Lemma renders_WeekdayRange (range : WeekdayRange.t) : renders (WeekdayRange.out range).
Proof. unfold WeekdayRange.out. renders_tac. Qed.

#[local] Hint Resolve renders_WeekdayRange : renders.

Lemma renders_TWeekdayRanges (ranges : list WeekdayRange.t) :
  renders (out_TWeekdayRanges ranges).
Proof. apply renders_PrintVector_sep. auto with renders. Qed.

Lemma renders_Holiday (holiday : Holiday.t) : renders (Holiday.out holiday).
Proof. unfold Holiday.out. renders_tac. Qed.

#[local] Hint Resolve renders_TWeekdayRanges renders_Holiday : renders.

Lemma renders_THolidays (holidays : list Holiday.t) : renders (out_THolidays holidays).
Proof. apply renders_PrintVector_sep. auto with renders. Qed.

#[local] Hint Resolve renders_THolidays : renders.

Lemma renders_Weekdays (weekday : Weekdays.t) : renders (Weekdays.out weekday).
Proof. unfold Weekdays.out. renders_tac. Qed.

Lemma renders_DateOffset (offset : DateOffset.t) : renders (DateOffset.out offset).
Proof. unfold DateOffset.out. renders_tac. Qed.

Lemma renders_Month (month : MonthDay.Month) : renders (MonthDay.out_Month month).
Proof. destruct month; unfold MonthDay.out_Month; auto with renders. Qed.

Lemma renders_VariableDate (date : MonthDay.VariableDate) :
  renders (MonthDay.out_VariableDate date).
Proof. destruct date; unfold MonthDay.out_VariableDate; auto with renders. Qed.

#[local] Hint Resolve renders_Weekdays renders_DateOffset renders_Month
  renders_VariableDate : renders.

Lemma renders_MonthDay (md : MonthDay.t) : renders (MonthDay.out md).
Proof. unfold MonthDay.out. renders_tac. Qed.

#[local] Hint Resolve renders_MonthDay : renders.

Lemma renders_MonthdayRange (range : MonthdayRange.t) : renders (MonthdayRange.out range).
Proof. unfold MonthdayRange.out. renders_tac. Qed.

#[local] Hint Resolve renders_MonthdayRange : renders.

Lemma renders_TMonthdayRanges (ranges : list MonthdayRange.t) :
  renders (out_TMonthdayRanges ranges).
Proof. apply renders_PrintVector_sep. auto with renders. Qed.

Lemma renders_YearRange (range : YearRange.t) : renders (YearRange.out range).
Proof. unfold YearRange.out. renders_tac. Qed.

#[local] Hint Resolve renders_TMonthdayRanges renders_YearRange : renders.

Lemma renders_TYearRanges (ranges : list YearRange.t) : renders (out_TYearRanges ranges).
Proof. apply renders_PrintVector_sep. auto with renders. Qed.

Lemma renders_WeekRange (range : WeekRange.t) : renders (WeekRange.out range).
Proof. unfold WeekRange.out. renders_tac. Qed.

#[local] Hint Resolve renders_TYearRanges renders_WeekRange : renders.

Lemma renders_week_list (ranges : list WeekRange.t) :
  renders (PrintVector_sep WeekRange.out ", " ranges).
Proof. apply renders_PrintVector_sep. auto with renders. Qed.

#[local] Hint Resolve renders_week_list : renders.

Lemma renders_TWeekRanges (ranges : list WeekRange.t) : renders (out_TWeekRanges ranges).
Proof. unfold out_TWeekRanges. renders_tac. Qed.

Lemma renders_Modifier (modifier : RuleSequence.Modifier) :
  renders (RuleSequence.out_Modifier modifier).
Proof.
  destruct modifier; unfold RuleSequence.out_Modifier; auto with renders;
    apply renders_id.
Qed.

#[local] Hint Resolve renders_TWeekRanges renders_Modifier : renders.

Lemma renders_RuleSequence (s : RuleSequence.t) : renders (RuleSequence.out s).
Proof. unfold RuleSequence.out. renders_tac. Qed.

#[local] Hint Resolve renders_RuleSequence : renders.

Lemma renders_TRuleSequences (s : list RuleSequence.t) : renders (out_TRuleSequences s).
Proof. apply renders_PrintVector. auto with renders. Qed.

(** ** The text of the primitive insertions *)

Lemma text_of_insert_field (pre body : string) :
  text_of (insert_field pre body) = pre ++ body.
Proof.
  unfold text_of, insert_field. simpl.
  now rewrite (padded_plain ostringstream pre body plain_ostringstream).
Qed.

Lemma text_of_chr (c : ascii) : text_of (chr c) = String c "".
Proof. apply text_of_insert_field. Qed.

Lemma text_of_str (s : string) : text_of (str s) = s.
Proof. apply text_of_insert_field. Qed.

Lemma text_of_unsigned (n : Z) : text_of (unsigned_ n) = dec_digits n.
Proof. apply text_of_insert_field. Qed.

Lemma text_of_int (n : Z) :
  text_of (int_ n) = (if n <? 0 then "-" else "") ++ dec_digits (Z.abs n).
Proof. unfold text_of, int_. simpl. apply text_of_insert_field. Qed.

Lemma text_of_PrintPaddedNumber (number padding : Z) :
  text_of (PrintPaddedNumber number padding)
  = zero_padded (to_int32 (to_uint32 padding)) (to_uint32 number).
Proof. reflexivity. Qed.

Create Rewrite HintDb text.
#[local] Hint Rewrite text_of_chr text_of_str text_of_unsigned text_of_int
  text_of_PrintPaddedNumber : text.

Ltac plain_tac :=
  repeat first
    [ exact plain_ostringstream
    | assumption
    | apply renders_plain; [solve [auto with renders] | ] ].

(** Rewrite the text of a stream, insertion by insertion, into the text
    before it followed by the text of the insertion. *)
Ltac text_step :=
  match goal with
  | |- context [os_text (?f ?b)] =>
      rewrite (renders_text f b) by first [solve [auto with renders] | solve [plain_tac]]
  end.

Ltac text_tac :=
  repeat text_step; autorewrite with text;
  change (os_text ostringstream) with "";
  rewrite ?append_assoc; cbn [append]; rewrite ?append_nil_r.

Lemma text_of_PrintOffset (offset : Z) (space : bool) :
  text_of (PrintOffset offset space) =
    if offset =? 0 then ""
    else (if space then " " else "") ++ (if offset >? 0 then "+" else "")
         ++ ((if offset <? 0 then "-" else "") ++ dec_digits (Z.abs offset))
         ++ " day" ++ (if Z.abs offset >? 1 then "s" else "").
Proof.
  unfold text_of at 1. unfold PrintOffset, std_abs.
  destruct (offset =? 0); [reflexivity | ].
  destruct space, (offset >? 0), (Z.abs offset >? 1); text_tac; reflexivity.
Qed.

(** ** PrintOffset *)

(** C6: on a plain stream, [PrintOffset] of an [int32_t] offset (other than
    [INT32_MIN], where [std::abs] is undefined) appends a text fixed by the
    offset and the space flag alone: nothing for 0; otherwise a space when
    the flag is set, a [+] when the offset is positive, the integer (which
    carries its own [-] when negative), [ day], and an [s] exactly when the
    absolute value exceeds 1.  So 1 without space gives [+1 day] and -2
    gives [-2 days]. *)
Theorem PrintOffset_emits (offset : Z) (space : bool) (ost : ostream) :
  INT32_MIN < offset <= INT32_MAX ->
  plain ost ->
  os_text (PrintOffset offset space ost) =
    os_text ost ++
    (if offset =? 0 then ""
     else (if space then " " else "") ++ (if offset >? 0 then "+" else "")
          ++ ((if offset <? 0 then "-" else "") ++ dec_digits (Z.abs offset))
          ++ " day" ++ (if Z.abs offset >? 1 then "s" else ""))
  /\ text_of (PrintOffset 0 space) = ""
  /\ text_of (PrintOffset 1 false) = "+1 day"
  /\ text_of (PrintOffset (-2) false) = "-2 days"
  /\ text_of (PrintOffset (-1) true) = " -1 day".
Proof.
  intros _ Hplain. split.
  - rewrite (renders_text _ ost (renders_PrintOffset offset space) Hplain).
    now rewrite text_of_PrintOffset.
  - rewrite text_of_PrintOffset. repeat split.
Qed.

Lemma PrintOffset_emits_witness :
  os_text (PrintOffset 3 true ostringstream) = " +3 days".
Proof.
  refine (proj1 (PrintOffset_emits 3 true ostringstream _ _)).
  - unfold INT32_MIN, INT32_MAX. lia.
  - exact plain_ostringstream.
Defined.

(** ** Timespan *)

Lemma text_of_Timespan (span : Timespan.t) :
  text_of (Timespan.out span) =
    text_of (Time.out (Timespan.GetStart span))
    ++ (if Timespan.IsOpen span then ""
        else "-" ++ text_of (Time.out (Timespan.GetEnd span))
             ++ (if Timespan.HasPeriod span
                 then "/" ++ text_of (Time.out (Timespan.GetPeriod span))
                 else ""))
    ++ (if Timespan.HasPlus span then "+" else "").
Proof.
  unfold text_of at 1. unfold Timespan.out.
  destruct (Timespan.IsOpen span), (Timespan.HasPeriod span), (Timespan.HasPlus span);
    cbn [negb]; text_tac; reflexivity.
Qed.

(** C4: on a plain stream a [Timespan] is written as its start; then,
    exactly when it is not open, [-] and its end and, when it has a period,
    [/] and the period; then [+] exactly when the plus flag is set, also
    after an explicit end.  Open means that the start has a value and the
    end has none.  09:00 to 18:00 gives [09:00-18:00]; 09:00 alone gives
    [09:00]. *)
Theorem Timespan_emits (span : Timespan.t) (ost : ostream) :
  plain ost ->
  os_text (Timespan.out span ost) =
    os_text ost
    ++ text_of (Time.out (Timespan.GetStart span))
    ++ (if Timespan.IsOpen span then ""
        else "-" ++ text_of (Time.out (Timespan.GetEnd span))
             ++ (if Timespan.HasPeriod span
                 then "/" ++ text_of (Time.out (Timespan.GetPeriod span))
                 else ""))
    ++ (if Timespan.HasPlus span then "+" else "")
  /\ Timespan.IsOpen span
     = Time.HasValue (Timespan.GetStart span) && negb (Time.HasValue (Timespan.GetEnd span))
  /\ text_of (Timespan.out
       {| Timespan.m_start := Time.of_hours 9; Timespan.m_end := Time.of_hours 18;
          Timespan.m_period := Time.default; Timespan.m_plus := false |})
     = "09:00-18:00"
  /\ text_of (Timespan.out
       {| Timespan.m_start := Time.of_hours 9; Timespan.m_end := Time.default;
          Timespan.m_period := Time.default; Timespan.m_plus := false |})
     = "09:00"
  /\ text_of (Timespan.out
       {| Timespan.m_start := Time.of_hours 9; Timespan.m_end := Time.of_hours 18;
          Timespan.m_period := Time.default; Timespan.m_plus := true |})
     = "09:00-18:00+".
Proof.
  intros Hplain. split; [ | repeat split].
  rewrite (renders_text _ ost (renders_Timespan span) Hplain).
  now rewrite text_of_Timespan.
Qed.

Lemma Timespan_emits_witness :
  os_text (Timespan.out
    {| Timespan.m_start := Time.of_minutes 570; Timespan.m_end := Time.of_hours 18;
       Timespan.m_period := Time.of_minutes 30; Timespan.m_plus := false |}
    ostringstream) = "09:30-18:00/30".
Proof.
  exact (proj1 (Timespan_emits _ ostringstream plain_ostringstream)).
Defined.

(** ** Rule sequences *)

Lemma text_of_Modifier (modifier : RuleSequence.Modifier) :
  text_of (RuleSequence.out_Modifier modifier) =
    match modifier with
    | RuleSequence.DefaultOpen | RuleSequence.Comment => ""
    | RuleSequence.Open => "open"
    | RuleSequence.Closed => "closed"
    | RuleSequence.Unknown => "unknown"
    end.
Proof. destruct modifier; reflexivity. Qed.

Lemma text_of_RuleSequence_24_7 (s : RuleSequence.t) :
  RuleSequence.IsTwentyFourHours s = true ->
  text_of (RuleSequence.out s) = "24/7" ++ modifier_text s ++ modifier_comment_text s.
Proof.
  intros H24. unfold text_of at 1.
  unfold RuleSequence.out, modifier_text, modifier_comment_text.
  rewrite H24. cbv zeta.
  destruct (RuleSequence.GetModifier s), (RuleSequence.HasModifierComment s);
    cbn [RuleSequence.Modifier_eqb negb andb putSpace on_stream fst snd];
    text_tac; reflexivity.
Qed.

(** C3: on a plain stream a rule whose [twentyFourHours] flag is set is
    written as [24/7], whatever its selectors and its comment hold, then
    the modifier keyword unless the modifier is [DefaultOpen] or [Comment],
    then the modifier comment in double quotes when there is one. *)
Theorem RuleSequence_24_7_emits (s : RuleSequence.t) (ost : ostream) :
  plain ost ->
  RuleSequence.IsTwentyFourHours s = true ->
  os_text (RuleSequence.out s ost) =
    os_text ost ++ "24/7"
    ++ match RuleSequence.GetModifier s with
       | RuleSequence.DefaultOpen | RuleSequence.Comment => ""
       | RuleSequence.Open => " open"
       | RuleSequence.Closed => " closed"
       | RuleSequence.Unknown => " unknown"
       end
    ++ (if RuleSequence.HasModifierComment s
        then " " ++ String RuleSequence.dquote (RuleSequence.GetModifierComment s
                                                ++ String RuleSequence.dquote "")
        else "").
Proof.
  intros Hplain H24.
  rewrite (renders_text _ ost (renders_RuleSequence s) Hplain).
  now rewrite (text_of_RuleSequence_24_7 s H24).
Qed.

Lemma RuleSequence_24_7_emits_witness :
  os_text (RuleSequence.out (rule_always ";") ostringstream)
  = "24/7 closed " ++ String RuleSequence.dquote ("on request" ++ String RuleSequence.dquote "").
Proof.
  exact (RuleSequence_24_7_emits (rule_always ";") ostringstream
           plain_ostringstream eq_refl).
Defined.

Lemma text_PrintVector_loop_rules (it : list RuleSequence.t) :
  forall (sep : string) (ost : ostream),
    plain ost ->
    os_text (PrintVector_loop RuleSequence.out rule_separator sep it ost) =
      os_text ost ++ match it with
                     | [] => ""
                     | _ :: _ => sep ++ joined it
                     end.
Proof.
  induction it as [|r it IH]; intros sep ost Hplain.
  - simpl. now rewrite append_nil_r.
  - cbn [PrintVector_loop]. rewrite IH by plain_tac.
    text_tac. destruct it; cbn [joined]; now rewrite ?append_nil_r, ?append_assoc.
Qed.

Lemma text_of_TRuleSequences (rules : list RuleSequence.t) :
  text_of (out_TRuleSequences rules) = joined rules.
Proof.
  unfold text_of, out_TRuleSequences. destruct rules as [|r it]; [reflexivity | ].
  cbn [PrintVector]. rewrite text_PrintVector_loop_rules by plain_tac.
  text_tac. destruct it; cbn [joined]; now rewrite ?append_nil_r.
Qed.

(** C2 (as the code has it): on a plain stream a sequence of rules is
    written rule by rule; each rule that has a successor is followed by its
    own separator, [||] with a space on either side and any other separator
    with one space after it.  The separator of the last rule is not
    written: two rules with the separators [;] and [,] give
    [<rule1>; <rule2>]. *)
Theorem TRuleSequences_emits (rules : list RuleSequence.t) (ost : ostream) :
  plain ost ->
  os_text (out_TRuleSequences rules ost) = os_text ost ++ joined rules
  /\ (forall r,
        rule_separator r =
          if (RuleSequence.GetAnySeparator r =? "||")%string then " || "
          else RuleSequence.GetAnySeparator r ++ " ")
  /\ (forall r1 r2,
        RuleSequence.GetAnySeparator r1 = ";" ->
        RuleSequence.GetAnySeparator r2 = "," ->
        text_of (out_TRuleSequences [r1; r2]) =
          text_of (RuleSequence.out r1) ++ "; " ++ text_of (RuleSequence.out r2))
  /\ (forall r1 r2 r3,
        text_of (out_TRuleSequences [r1; r2; r3]) =
          text_of (RuleSequence.out r1) ++ rule_separator r1
          ++ text_of (RuleSequence.out r2) ++ rule_separator r2
          ++ text_of (RuleSequence.out r3)).
Proof.
  intros Hplain. repeat split.
  - rewrite (renders_text _ ost (renders_TRuleSequences rules) Hplain).
    now rewrite text_of_TRuleSequences.
  - intros r. unfold rule_separator.
    destruct (String.eqb_spec (RuleSequence.GetAnySeparator r) "||") as [E|_];
      [now rewrite E | reflexivity].
  - intros r1 r2 E1 _. rewrite text_of_TRuleSequences. cbn [joined].
    unfold rule_separator. rewrite E1. cbn. now rewrite append_nil_r.
  - intros r1 r2 r3. rewrite text_of_TRuleSequences. cbn [joined].
    now rewrite append_nil_r.
Qed.

Lemma TRuleSequences_emits_witness :
  os_text (out_TRuleSequences [rule_always ";"; rule_always "||"; rule_always ","]
             ostringstream)
  = joined [rule_always ";"; rule_always "||"; rule_always ","].
Proof.
  exact (proj1 (TRuleSequences_emits _ ostringstream plain_ostringstream)).
Defined.

(** C2, the claimed two-rule pattern: with the separators [;] and [,] the
    text ends with the second rule, not with a comma after it. *)
Lemma TRuleSequences_no_trailing_separator :
  text_of (out_TRuleSequences [rule_open_semicolon; rule_closed_comma])
  = "24/7 open; 24/7 closed"
  /\ text_of (out_TRuleSequences [rule_open_semicolon; rule_closed_comma])
     <> text_of (RuleSequence.out rule_open_semicolon) ++ "; "
        ++ text_of (RuleSequence.out rule_closed_comma) ++ ",".
Proof. split; [reflexivity | vm_compute; discriminate]. Qed.

(** ** Time *)

(** The branch taken for an event offset that is not an event: no [Time]
    reaches it. *)
Lemma IsEventOffset_IsEvent (time : Time.t) :
  Time.IsEventOffset time = true -> Time.IsEvent time = true.
Proof. unfold Time.IsEventOffset. now destruct (Time.IsEvent time). Qed.

Ltac dead_offset_branch :=
  match goal with
  | E : Time.IsEvent ?t = false, O : Time.IsEventOffset ?t = true |- _ =>
      exfalso; pose proof (IsEventOffset_IsEvent t O); congruence
  end.

Lemma GetHours_plain (time : Time.t) :
  Time.IsEvent time = false ->
  Time.GetHours time = Time.duration_cast_hours (Time.m_duration time).
Proof.
  intros H. funelim (Time.GetHours time); try congruence.
  dead_offset_branch.
Qed.

Lemma GetMinutes_plain (time : Time.t) :
  Time.IsEvent time = false ->
  Time.GetMinutes time = Time.m_duration time - 60 * Time.GetHours time.
Proof.
  intros H. funelim (Time.GetMinutes time); try congruence.
  dead_offset_branch.
Qed.

Lemma GetHours_event (time : Time.t) :
  Time.IsEvent time = true -> Time.GetHours time = 0.
Proof.
  intros H. funelim (Time.GetHours time); try congruence.
  now rewrite GetHours_plain.
Qed.

Lemma GetMinutes_event (time : Time.t) :
  Time.IsEvent time = true -> Time.GetMinutes time = 0.
Proof.
  intros H. funelim (Time.GetMinutes time); try congruence.
  rewrite GetMinutes_plain by reflexivity. now rewrite GetHours_plain.
Qed.

(** C1 (what the code does): an event with an offset is an event, so
    [GetHours] and [GetMinutes] take the first branch and return the
    components of the event time, which is the zero placeholder; the
    subtraction branch is never taken.  For [(sunrise+01:30)] they return 0
    and 0, where the event time minus the value has the components -1
    and -30, and the value is written as [(sunrise+00:00)]. *)
Theorem GetHours_event_offset_not_subtracted :
  (forall time, Time.IsEventOffset time = true ->
     Time.GetHours time = 0 /\ Time.GetMinutes time = 0)
  /\ (forall time, Time.IsEvent time = true ->
        Time.GetHours time = Time.GetHours (Time.GetEventTime time)
        /\ Time.GetMinutes time = Time.GetMinutes (Time.GetEventTime time))
  /\ (forall time, Time.m_duration (Time.GetEventTime time) = 0)
  /\ Time.IsEventOffset sunrise_plus_90 = true
  /\ Time.GetHours sunrise_plus_90 = 0
  /\ Time.GetMinutes sunrise_plus_90 = 0
  /\ Time.GetHours (Time.sub (Time.GetEventTime sunrise_plus_90) sunrise_plus_90) = -1
  /\ Time.GetMinutes (Time.sub (Time.GetEventTime sunrise_plus_90) sunrise_plus_90) = -30
  /\ text_of (Time.out sunrise_plus_90) = "(sunrise+00:00)".
Proof.
  split; [ | split]; [ | | repeat split].
  - intros time H. apply IsEventOffset_IsEvent in H.
    split; [apply GetHours_event | apply GetMinutes_event]; exact H.
  - intros time H.
    rewrite (GetHours_event time H), (GetMinutes_event time H).
    split; symmetry; [apply GetHours_plain | rewrite GetMinutes_plain, GetHours_plain];
      reflexivity.
Qed.

Lemma has_flag_lor_same (flag state : Z) (time : Time.t) :
  flag <> 0 -> Time.m_state time = Z.lor state flag -> Time.has_flag flag time = true.
Proof.
  intros Hflag E. unfold Time.has_flag. rewrite E, Z.land_lor_distr_l, Z.land_diag.
  destruct (Z.eqb_spec (Z.lor (Z.land state flag) flag) 0) as [H|H]; [ | reflexivity].
  apply Z.lor_eq_0_iff in H. now destruct H.
Qed.

Lemma SetMinutes_flags (minutes : Z) (time : Time.t) :
  Time.has_flag Time.HaveMinutes (Time.SetMinutes minutes time) = true
  /\ Time.has_flag Time.HaveHours (Time.SetMinutes minutes time)
     = Time.has_flag Time.HaveHours time || (Z.abs minutes >? 60).
Proof.
  unfold Time.SetMinutes, Time.one_hour, Time.has_flag. cbn [Time.m_state].
  replace ((minutes >? 60) || (minutes <? - (60))) with (Z.abs minutes >? 60) by lia.
  destruct (Z.abs minutes >? 60).
  - rewrite !Z.land_lor_distr_l. change (Z.land Time.HaveHours Time.HaveMinutes) with 0.
    change (Z.land Time.HaveMinutes Time.HaveMinutes) with 2.
    change (Z.land Time.HaveMinutes Time.HaveHours) with 0.
    change (Z.land Time.HaveHours Time.HaveHours) with 1.
    rewrite !Z.lor_0_r, orb_true_r.
    split; match goal with |- negb (?x =? 0) = true =>
      destruct (Z.eqb_spec x 0) as [H|H]; [ | reflexivity];
      apply Z.lor_eq_0_iff in H; now destruct H end.
  - rewrite !Z.land_lor_distr_l.
    change (Z.land Time.HaveMinutes Time.HaveMinutes) with 2.
    change (Z.land Time.HaveMinutes Time.HaveHours) with 0.
    rewrite Z.lor_0_r, orb_false_r. split; [ | reflexivity].
    destruct (Z.eqb_spec (Z.lor (Z.land (Time.m_state time) Time.HaveMinutes) 2) 0) as [H|H];
      [ | reflexivity].
    apply Z.lor_eq_0_iff in H. now destruct H.
Qed.

(** C5 (as the code has it): binary [+] and [-] compute on the durations
    and set the flags through [SetMinutes], starting from the left operand:
    the result has the minute flag, and it has the hour flag exactly when
    the left operand had it or the magnitude of the result exceeds one
    hour.  Unary [-] negates the duration and leaves the flags as they
    are. *)
Theorem Time_arithmetic (a b : Time.t) :
  let sum := Time.m_duration a + Time.m_duration b in
  let diff := Time.m_duration a - Time.m_duration b in
  Time.add a b = Time.SetMinutes sum a
  /\ Time.m_duration (Time.add a b) = sum
  /\ Time.has_flag Time.HaveMinutes (Time.add a b) = true
  /\ Time.has_flag Time.HaveHours (Time.add a b)
     = Time.has_flag Time.HaveHours a || (Z.abs sum >? 60)
  /\ Time.sub a b = Time.SetMinutes diff a
  /\ Time.m_duration (Time.sub a b) = diff
  /\ Time.has_flag Time.HaveMinutes (Time.sub a b) = true
  /\ Time.has_flag Time.HaveHours (Time.sub a b)
     = Time.has_flag Time.HaveHours a || (Z.abs diff >? 60)
  /\ Time.m_duration (Time.neg a) = - Time.m_duration a
  /\ Time.m_state (Time.neg a) = Time.m_state a
  /\ Time.m_event (Time.neg a) = Time.m_event a.
Proof.
  intros sum diff.
  destruct (SetMinutes_flags sum a) as [Hm Hh].
  destruct (SetMinutes_flags diff a) as [Hm' Hh'].
  unfold Time.add, Time.sub. fold sum. fold diff.
  repeat split; assumption.
Qed.

(** C5, unary minus: negating the default [Time] leaves it without the
    minute flag, which [SetMinutes] on the negated duration would set. *)
Lemma Time_neg_does_not_set_flags :
  Time.has_flag Time.HaveMinutes (Time.neg Time.default) = false
  /\ Time.has_flag Time.HaveMinutes
       (Time.SetMinutes (- Time.m_duration Time.default) Time.default) = true
  /\ Time.HasValue (Time.neg Time.default) = false.
Proof. repeat split. Qed.

(** ** PrintPaddedNumber and the stream's format state *)

Example PrintPaddedNumber_examples :
  text_of (PrintPaddedNumber 5 2) = "05"
  /\ text_of (PrintPaddedNumber 12 2) = "12"
  /\ text_of (PrintPaddedNumber 5 1) = "5".
Proof. repeat split. Qed.

(** C9 (what the code does): [StreamFlagsKeeper] saves and restores the
    format flags only.  After [PrintPaddedNumber] the flags are as before
    and the width is 0, but the fill character is [0] whatever it was: on a
    fresh stream, whose fill is a space, a later field of width 3 holding 7
    reads [007], where it reads [  7] when the [05] before it was written
    without [PrintPaddedNumber]. *)
Theorem PrintPaddedNumber_leaves_fill :
  (forall number padding ost,
     os_fill (PrintPaddedNumber number padding ost) = "0"%char
     /\ os_flags (PrintPaddedNumber number padding ost) = os_flags ost
     /\ os_width (PrintPaddedNumber number padding ost) = 0)
  /\ os_fill ostringstream = " "%char
  /\ os_fill (PrintPaddedNumber 5 2 ostringstream) = "0"%char
  /\ os_text (ostringstream << PrintPaddedNumber 5 2 << setw 3 << unsigned_ 7) = "05007"
  /\ os_text (ostringstream << str "05" << setw 3 << unsigned_ 7) = "05  7".
Proof. repeat split. Qed.

(** ** Weekday ranges *)

Lemma Weekday_eqb_eq (a b : Weekday.t) : Weekday.eqb a b = true <-> a = b.
Proof. destruct a, b; simpl; split; intros H; congruence. Qed.

Lemma Weekday_eqb_neq (a b : Weekday.t) : Weekday.eqb a b = false <-> a <> b.
Proof. destruct a, b; simpl; split; intros H; congruence. Qed.

Lemma week_ordered_value : Weekday.week_ordered Weekday.value.
Proof. repeat split. Qed.

(** C7: whatever values the header gives the enumerators, as long as the
    days of the week follow each other from Sunday to Saturday: [HasWday]
    is false when the range is empty or the day is [None]; for a range
    with no end it is true exactly for the start; otherwise it is true
    exactly when the day lies between the start and the end, both
    included, in the order of the enumerator values.  For Mo-Fr it is true
    for Tu and false for Sa and for [None]. *)
Theorem HasWday_spec (val : Weekday.t -> Z) (range : WeekdayRange.t) (wday : Weekday.t) :
  Weekday.week_ordered val ->
  (WeekdayRange.IsEmpty range = true \/ wday = Weekday.None ->
     WeekdayRange.HasWday val range wday = false)
  /\ (WeekdayRange.IsEmpty range = false -> wday <> Weekday.None ->
      WeekdayRange.HasEnd range = false ->
      (WeekdayRange.HasWday val range wday = true <-> wday = WeekdayRange.GetStart range))
  /\ (wday <> Weekday.None -> WeekdayRange.HasEnd range = true ->
      (WeekdayRange.HasWday val range wday = true <->
       val (WeekdayRange.GetStart range) <= val wday <= val (WeekdayRange.GetEnd range)))
  /\ WeekdayRange.HasWday val Mo_Fr Weekday.Tuesday = true
  /\ WeekdayRange.HasWday val Mo_Fr Weekday.Saturday = false
  /\ WeekdayRange.HasWday val Mo_Fr Weekday.None = false.
Proof.
  intros (Hmo & Htu & Hwe & Hth & Hfr & Hsa).
  split; [ | split; [ | split; [ | repeat split]]].
  - unfold WeekdayRange.HasWday. intros [E | E].
    + now rewrite E.
    + subst wday. now rewrite orb_true_r.
  - intros Hne Hw He. unfold WeekdayRange.HasWday.
    apply Weekday_eqb_neq in Hw. rewrite Hne, Hw, He. cbn [orb negb].
    rewrite Weekday_eqb_eq. split; congruence.
  - intros Hw He. unfold WeekdayRange.HasWday.
    assert (Hne : WeekdayRange.IsEmpty range = false).
    { unfold WeekdayRange.IsEmpty. unfold WeekdayRange.HasEnd in He.
      destruct (Weekday.eqb (WeekdayRange.GetEnd range) Weekday.None);
        [discriminate | apply andb_false_r]. }
    apply Weekday_eqb_neq in Hw. rewrite Hne, Hw, He. cbn [orb negb].
    rewrite andb_true_iff, !Z.leb_le. reflexivity.
  - unfold WeekdayRange.HasWday. cbn. apply andb_true_iff. rewrite !Z.leb_le. lia.
  - unfold WeekdayRange.HasWday. cbn. apply andb_false_iff. right.
    apply Z.leb_gt. lia.
Qed.

Lemma HasWday_spec_witness :
  WeekdayRange.HasWday Weekday.value Mo_Fr Weekday.Tuesday = true
  /\ WeekdayRange.HasWday Weekday.value Mo_Fr Weekday.Saturday = false
  /\ WeekdayRange.HasWday Weekday.value Mo_Fr Weekday.None = false.
Proof.
  exact (proj2 (proj2 (proj2
    (HasWday_spec Weekday.value Mo_Fr Weekday.Wednesday week_ordered_value)))).
Defined.

Lemma to_uint32_sub_add (a b : Z) :
  to_uint32 (to_uint32 (to_uint32 a - to_uint32 b) + 1) = (a - b + 1) mod 2 ^ 32.
Proof.
  unfold to_uint32.
  rewrite <- (Zplus_mod_idemp_l (a - b) 1), (Zminus_mod a b). reflexivity.
Qed.

(** [GetDaysCount] in closed form: 0 for an empty range, and for any
    other range start - end + 1 on the enumerator values, start first,
    reduced modulo 2^32. *)
Lemma GetDaysCount_closed_form (val : Weekday.t -> Z) (range : WeekdayRange.t) :
  WeekdayRange.GetDaysCount val range =
    (if WeekdayRange.IsEmpty range then 0
     else (val (WeekdayRange.GetStart range) - val (WeekdayRange.GetEnd range) + 1)
          mod 2 ^ 32)
  /\ 0 <= WeekdayRange.GetDaysCount val range < 2 ^ 32.
Proof.
  assert (E : WeekdayRange.GetDaysCount val range =
    if WeekdayRange.IsEmpty range then 0
    else (val (WeekdayRange.GetStart range) - val (WeekdayRange.GetEnd range) + 1)
         mod 2 ^ 32).
  { unfold WeekdayRange.GetDaysCount.
    destruct (WeekdayRange.IsEmpty range); [reflexivity | apply to_uint32_sub_add]. }
  split; [exact E | ]. rewrite E.
  destruct (WeekdayRange.IsEmpty range); [lia | ].
  apply Z.mod_pos_bound. lia.
Qed.

(** C10 (what the code returns): [GetDaysCount] subtracts the end from the
    start.  For Mo-Tu, which is not empty and holds two days, it returns
    0; for Mo-Fr, which holds five days, it returns 2^32 - 3.  This is so
    for every numbering of the week days in calendar order, and a range
    that is not empty has the count 0 exactly when its end comes right
    after its start. *)
Theorem GetDaysCount_subtracts_end_from_start :
  WeekdayRange.IsEmpty Mo_Tu = false
  /\ days_in Weekday.value Mo_Tu = [Weekday.Monday; Weekday.Tuesday]
  /\ WeekdayRange.GetDaysCount Weekday.value Mo_Tu = 0
  /\ days_in Weekday.value Mo_Fr
     = [Weekday.Monday; Weekday.Tuesday; Weekday.Wednesday; Weekday.Thursday;
        Weekday.Friday]
  /\ WeekdayRange.GetDaysCount Weekday.value Mo_Fr = 2 ^ 32 - 3
  /\ (forall val, Weekday.week_ordered val ->
        WeekdayRange.GetDaysCount val Mo_Tu = 0
        /\ WeekdayRange.GetDaysCount val Mo_Fr = 2 ^ 32 - 3)
  /\ (forall val range,
        WeekdayRange.IsEmpty range = false ->
        - 2 ^ 32 < val (WeekdayRange.GetStart range) - val (WeekdayRange.GetEnd range)
          < 2 ^ 32 - 1 ->
        (WeekdayRange.GetDaysCount val range = 0 <->
         val (WeekdayRange.GetEnd range) = val (WeekdayRange.GetStart range) + 1)).
Proof.
  repeat match goal with |- _ /\ _ => split end; try reflexivity.
  - intros val (Hmo & Htu & Hwe & Hth & Hfr & _).
    destruct (GetDaysCount_closed_form val Mo_Tu) as [E2 _].
    destruct (GetDaysCount_closed_form val Mo_Fr) as [E5 _].
    rewrite E2, E5.
    cbn [WeekdayRange.IsEmpty WeekdayRange.GetStart WeekdayRange.GetEnd
         WeekdayRange.m_start WeekdayRange.m_end Mo_Tu Mo_Fr Weekday.eqb andb].
    replace (val Weekday.Monday - val Weekday.Tuesday + 1) with 0 by lia.
    replace (val Weekday.Monday - val Weekday.Friday + 1) with (-3) by lia.
    split; reflexivity.
  - intros val range Hne Hb.
    destruct (GetDaysCount_closed_form val range) as [E _].
    rewrite E, Hne.
    set (d := val (WeekdayRange.GetStart range) - val (WeekdayRange.GetEnd range)) in *.
    split.
    + intros H0.
      destruct (Z.eq_dec (d + 1) 0) as [Hz | Hnz]; [lia | exfalso].
      destruct (Z_le_gt_dec 0 (d + 1)) as [Hpos | Hneg].
      * rewrite Z.mod_small in H0 by lia. lia.
      * replace (d + 1) with ((d + 1 + 2 ^ 32) + (-1) * 2 ^ 32) in H0 by lia.
        rewrite Z_mod_plus_full, Z.mod_small in H0 by lia. lia.
    + intros He. replace (d + 1) with 0 by lia. reflexivity.
Qed.

(** ** The printers reach no undefined operation *)

Lemma agrees_step (cf : option ostream -> option ostream) (f : ostream -> ostream)
    (c : option ostream) (o : ostream) :
  refines cf f -> agrees c o -> agrees (cf c) (f o).
Proof. intros Hf Hc. unfold agrees in *. rewrite Hc. apply Hf. Qed.

Lemma refines_ok (f : ostream -> ostream) : refines (Checked.ok f) f.
Proof. intros o. reflexivity. Qed.

Lemma agrees_fst (cst : option ostream * bool) (st : ostream * bool) :
  agrees2 cst st -> agrees (fst cst) (fst st).
Proof. now intros [H _]. Qed.

Lemma agrees2_pair (c : option ostream) (o : ostream) (space : bool) :
  agrees c o -> agrees2 (c, space) (o, space).
Proof. intros H. split; [exact H | reflexivity]. Qed.

Lemma agrees2_putSpace (cst : option ostream * bool) (st : ostream * bool) :
  agrees2 cst st -> agrees2 (Checked.putSpace cst) (putSpace st).
Proof.
  intros [H1 H2]. unfold Checked.putSpace, putSpace. split; [ | reflexivity].
  cbn [fst snd]. rewrite H2. destruct (snd st); [ | exact H1].
  unfold agrees in *. now rewrite H1.
Qed.

Lemma agrees2_on_stream (cf : option ostream -> option ostream) (f : ostream -> ostream)
    (cst : option ostream * bool) (st : ostream * bool) :
  refines cf f -> agrees2 cst st -> agrees2 (Checked.on_stream cf cst) (on_stream f st).
Proof.
  intros Hf [H1 H2]. unfold Checked.on_stream, on_stream. split; [ | exact H2].
  cbn [fst]. now apply agrees_step.
Qed.

Create HintDb refines.
#[local] Hint Resolve refines_ok : refines.

(** One step of a proof that a checked printer returns what the printer
    returns: peel the last insertion on both sides, or split on the
    condition that guards it. *)
Ltac agrees_step :=
  match goal with
  | |- agrees (Some ?o) ?o => reflexivity
  | H : agrees ?c ?o |- agrees ?c ?o => exact H
  | |- agrees (fst _) (fst _) => apply agrees_fst
  | |- agrees2 (_, _) (_, _) => apply agrees2_pair
  | |- agrees2 (Checked.putSpace _) (putSpace _) => apply agrees2_putSpace
  | |- agrees2 (Checked.on_stream _ _) (on_stream _ _) =>
      apply agrees2_on_stream; [solve [auto with refines] | ]
  | |- agrees2 (if ?c then _ else _) _ => destruct c
  | |- agrees (if ?c then _ else _) _ => destruct c
  | |- agrees (_ _) (_ _) => apply agrees_step; [solve [auto with refines] | ]
  end.

Ltac refines_tac := intros ost;
  match goal with |- ?c = Some ?o => change (agrees c o) end;
  cbv zeta; repeat agrees_step.

Lemma int64_defined (z : Z) : INT64_MIN <= z <= INT64_MAX -> Checked.int64 z = Some z.
Proof.
  intros H. unfold Checked.int64.
  replace ((INT64_MIN <=? z) && (z <=? INT64_MAX)) with true; [reflexivity | ].
  symmetry. apply andb_true_iff. split; apply Z.leb_le; lia.
Qed.

Lemma std_abs_int64_defined (z : Z) :
  INT64_MIN < z <= INT64_MAX -> Checked.std_abs_int64 z = Some (std_abs z).
Proof.
  intros H. unfold Checked.std_abs_int64.
  replace ((INT64_MIN <? z) && (z <=? INT64_MAX)) with true; [reflexivity | ].
  symmetry. apply andb_true_iff. split; [apply Z.ltb_lt | apply Z.leb_le]; lia.
Qed.

Lemma std_abs_int32_defined (z : Z) :
  offset_defined z -> Checked.std_abs_int32 z = Some (std_abs z).
Proof.
  intros H. unfold Checked.std_abs_int32.
  replace ((INT32_MIN <? z) && (z <=? INT32_MAX)) with true; [reflexivity | ].
  symmetry. apply andb_true_iff. split; [apply Z.ltb_lt | apply Z.leb_le];
    unfold offset_defined in H; lia.
Qed.

(** [std::abs] has no result on the most negative value, and on it only. *)
Lemma std_abs_int32_undefined (z : Z) :
  INT32_MIN <= z <= INT32_MAX ->
  (Checked.std_abs_int32 z = None <-> z = INT32_MIN).
Proof.
  intros H. unfold Checked.std_abs_int32.
  destruct (Z.ltb_spec INT32_MIN z) as [Hlt | Hge]; cbn [andb].
  - replace (z <=? INT32_MAX) with true by (symmetry; apply Z.leb_le; lia).
    split; [discriminate | lia].
  - split; [lia | reflexivity].
Qed.

Lemma refines_PrintOffset (offset : Z) (space : bool) :
  offset_defined offset ->
  refines (Checked.PrintOffset offset space) (PrintOffset offset space).
Proof.
  intros H ost. unfold Checked.PrintOffset, PrintOffset.
  destruct (offset =? 0); [reflexivity | ].
  rewrite (std_abs_int32_defined offset H).
  destruct space, (offset >? 0), (std_abs offset >? 1); reflexivity.
Qed.

Lemma refines_PrintVector_loop (T : Type) (cout : T -> option ostream -> option ostream)
    (out : T -> ostream -> ostream) (sepFunc : T -> string) (it : list T) :
  Forall (fun x => refines (cout x) (out x)) it ->
  forall sep ost,
    Checked.PrintVector_loop cout sepFunc sep it (Some ost)
    = Some (PrintVector_loop out sepFunc sep it ost).
Proof.
  induction 1 as [|x it Hx _ IH]; intros sep ost; [reflexivity | ].
  cbn [Checked.PrintVector_loop PrintVector_loop Checked.ok]. rewrite Hx. apply IH.
Qed.

Lemma refines_PrintVector (T : Type) (cout : T -> option ostream -> option ostream)
    (out : T -> ostream -> ostream) (sepFunc : T -> string) (v : list T) :
  Forall (fun x => refines (cout x) (out x)) v ->
  refines (Checked.PrintVector cout sepFunc v) (PrintVector out sepFunc v).
Proof.
  intros H ost. destruct v as [|x it]; [reflexivity | ].
  cbn [Checked.PrintVector PrintVector]. inversion H as [|? ? Hx Hit]; subst.
  rewrite Hx. now apply refines_PrintVector_loop.
Qed.

Lemma refines_PrintVector_sep (T : Type) (defined : T -> Prop)
    (cout : T -> option ostream -> option ostream)
    (out : T -> ostream -> ostream) (sep : string) (v : list T) :
  (forall x, defined x -> refines (cout x) (out x)) ->
  Forall defined v ->
  refines (Checked.PrintVector_sep cout sep v) (PrintVector_sep out sep v).
Proof.
  intros Hout Hv. apply refines_PrintVector.
  apply (Forall_impl _ Hout Hv).
Qed.

(** *** Time, checked *)

Lemma minutes_beyond_hours_defined (time : Time.t) :
  Time.IsEvent time = false -> Time_defined time ->
  Checked.minutes_beyond_hours time = Some (Time.GetMinutes time)
  /\ INT64_MIN < Time.GetHours time <= INT64_MAX
  /\ INT64_MIN < Time.GetMinutes time <= INT64_MAX.
Proof.
  intros He Hd. unfold Time_defined, INT64_MIN, INT64_MAX in *.
  unfold Checked.minutes_beyond_hours.
  rewrite (GetMinutes_plain time He), (GetHours_plain time He).
  unfold Time.duration_cast_hours.
  pose proof (Z.quot_rem' (Time.m_duration time) 60) as Hq.
  set (q := Z.quot (Time.m_duration time) 60) in *.
  assert (Hr : 0 <= Time.m_duration time - 60 * q < 60 /\ 0 <= Time.m_duration time
               \/ - 60 < Time.m_duration time - 60 * q <= 0 /\ Time.m_duration time < 0).
  { destruct (Z_le_gt_dec 0 (Time.m_duration time)) as [Hp | Hn].
    - pose proof (Z.rem_bound_pos (Time.m_duration time) 60 Hp). lia.
    - pose proof (Z.rem_bound_pos_neg (Time.m_duration time) 60). lia. }
  rewrite int64_defined by (unfold INT64_MIN, INT64_MAX; lia).
  rewrite int64_defined by (unfold INT64_MIN, INT64_MAX; lia).
  repeat split; lia.
Qed.

Lemma GetMinutes_defined (time : Time.t) :
  Time_defined time ->
  Checked.GetMinutes time = Some (Time.GetMinutes time)
  /\ INT64_MIN < Time.GetHours time <= INT64_MAX
  /\ INT64_MIN < Time.GetMinutes time <= INT64_MAX.
Proof.
  intros Hd. unfold Checked.GetMinutes.
  destruct (Time.IsEvent time) eqn:He.
  - rewrite (GetMinutes_event time He), (GetHours_event time He).
    destruct (minutes_beyond_hours_defined (Time.GetEventTime time)) as (E & _).
    + reflexivity.
    + unfold Time_defined, INT64_MIN, INT64_MAX. cbn. lia.
    + rewrite E. change (Time.GetEventTime time) with Time.default.
      rewrite (GetMinutes_plain Time.default eq_refl),
        (GetHours_plain Time.default eq_refl).
      unfold INT64_MIN, INT64_MAX. cbn. repeat split; lia.
  - destruct (Time.IsEventOffset time) eqn:Ho.
    + pose proof (IsEventOffset_IsEvent time Ho). congruence.
    + now apply minutes_beyond_hours_defined.
Qed.

Lemma refines_PrintPaddedAbs (n : Z) :
  INT64_MIN < n <= INT64_MAX ->
  refines (Checked.PrintPaddedAbs n) (PrintPaddedNumber (std_abs n) 2).
Proof.
  intros H ost. unfold Checked.PrintPaddedAbs. now rewrite std_abs_int64_defined.
Qed.

Lemma refines_Time (time : Time.t) :
  Time_defined time -> refines (Checked.Time_out time) (Time.out time).
Proof.
  intros Hd. destruct (GetMinutes_defined time Hd) as (Em & Hh & Hm).
  pose proof (refines_PrintPaddedAbs _ Hh) as Rh.
  pose proof (refines_PrintPaddedAbs _ Hm) as Rm.
  unfold Checked.Time_out, Time.out, Checked.GetMinutesCount,
    Time.GetMinutesCount, Time.GetHoursCount.
  rewrite Em. refines_tac.
Qed.

#[local] Hint Resolve refines_Time refines_PrintOffset : refines.

Lemma refines_Timespan (span : Timespan.t) :
  Timespan_defined span -> refines (Checked.Timespan_out span) (Timespan.out span).
Proof.
  intros (Hs & He & Hp). unfold Checked.Timespan_out, Timespan.out. refines_tac.
Qed.

Lemma refines_TTimespans (timespans : list Timespan.t) :
  Forall Timespan_defined timespans ->
  refines (Checked.out_TTimespans timespans) (out_TTimespans timespans).
Proof. apply refines_PrintVector_sep, refines_Timespan. Qed.

(** *** Weekdays, checked *)

Lemma refines_nths (nths : list NthWeekdayOfTheMonthEntry.t) :
  refines (Checked.PrintVector_sep
             (fun entry => Checked.ok (NthWeekdayOfTheMonthEntry.out entry)) "," nths)
          (PrintVector_sep NthWeekdayOfTheMonthEntry.out "," nths).
Proof.
  apply (refines_PrintVector_sep _ (fun _ => True)).
  - intros x _. apply refines_ok.
  - apply Forall_forall. trivial.
Qed.

#[local] Hint Resolve refines_nths : refines.

Lemma refines_WeekdayRange (range : WeekdayRange.t) :
  WeekdayRange_defined range ->
  refines (Checked.WeekdayRange_out range) (WeekdayRange.out range).
Proof.
  intros Hd. unfold Checked.WeekdayRange_out, WeekdayRange.out.
  destruct (WeekdayRange.HasEnd range) eqn:He.
  - refines_tac.
  - destruct Hd as [Hd | Hd]; [congruence | ]. refines_tac.
Qed.

Lemma refines_TWeekdayRanges (ranges : list WeekdayRange.t) :
  Forall WeekdayRange_defined ranges ->
  refines (Checked.out_TWeekdayRanges ranges) (out_TWeekdayRanges ranges).
Proof. apply refines_PrintVector_sep, refines_WeekdayRange. Qed.

Lemma refines_Holiday (holiday : Holiday.t) :
  Holiday_defined holiday ->
  refines (Checked.Holiday_out holiday) (Holiday.out holiday).
Proof.
  intros Hd. unfold Checked.Holiday_out, Holiday.out.
  destruct (Holiday.IsPlural holiday) eqn:Hp.
  - refines_tac.
  - destruct Hd as [Hd | Hd]; [congruence | ]. refines_tac.
Qed.

Lemma refines_THolidays (holidays : list Holiday.t) :
  Forall Holiday_defined holidays ->
  refines (Checked.out_THolidays holidays) (out_THolidays holidays).
Proof. apply refines_PrintVector_sep, refines_Holiday. Qed.

#[local] Hint Resolve refines_THolidays refines_TWeekdayRanges : refines.

Lemma refines_Weekdays (weekday : Weekdays.t) :
  Weekdays_defined weekday ->
  refines (Checked.Weekdays_out weekday) (Weekdays.out weekday).
Proof.
  intros (Hh & Hr). unfold Checked.Weekdays_out, Weekdays.out. refines_tac.
Qed.

(** *** Dates, checked *)

Lemma refines_DateOffset (offset : DateOffset.t) :
  DateOffset_defined offset ->
  refines (Checked.DateOffset_out offset) (DateOffset.out offset).
Proof.
  intros Hd. unfold DateOffset_defined in Hd.
  unfold Checked.DateOffset_out, DateOffset.out. refines_tac.
Qed.

#[local] Hint Resolve refines_DateOffset : refines.

Lemma refines_MonthDay (md : MonthDay.t) :
  MonthDay_defined md -> refines (Checked.MonthDay_out md) (MonthDay.out md).
Proof.
  intros Hd. unfold MonthDay_defined in Hd.
  unfold Checked.MonthDay_out, MonthDay.out. refines_tac.
Qed.

#[local] Hint Resolve refines_MonthDay : refines.

Lemma refines_MonthdayRange (range : MonthdayRange.t) :
  MonthdayRange_defined range ->
  refines (Checked.MonthdayRange_out range) (MonthdayRange.out range).
Proof.
  intros (Hs & He). unfold Checked.MonthdayRange_out, MonthdayRange.out.
  destruct (MonthdayRange.HasStart range), (MonthdayRange.HasEnd range);
    try specialize (Hs eq_refl); try specialize (He eq_refl); refines_tac.
Qed.

Lemma refines_TMonthdayRanges (ranges : list MonthdayRange.t) :
  Forall MonthdayRange_defined ranges ->
  refines (Checked.out_TMonthdayRanges ranges) (out_TMonthdayRanges ranges).
Proof. apply refines_PrintVector_sep, refines_MonthdayRange. Qed.

Lemma refines_TYearRanges (ranges : list YearRange.t) :
  refines (Checked.out_TYearRanges ranges) (out_TYearRanges ranges).
Proof.
  apply (refines_PrintVector_sep _ (fun _ => True)).
  - intros x _. apply refines_ok.
  - apply Forall_forall. trivial.
Qed.

Lemma refines_week_list (ranges : list WeekRange.t) :
  refines (Checked.PrintVector_sep (fun range => Checked.ok (WeekRange.out range)) ", " ranges)
          (PrintVector_sep WeekRange.out ", " ranges).
Proof.
  apply (refines_PrintVector_sep _ (fun _ => True)).
  - intros x _. apply refines_ok.
  - apply Forall_forall. trivial.
Qed.

#[local] Hint Resolve refines_week_list : refines.

Lemma refines_TWeekRanges (ranges : list WeekRange.t) :
  refines (Checked.out_TWeekRanges ranges) (out_TWeekRanges ranges).
Proof. unfold Checked.out_TWeekRanges, out_TWeekRanges. refines_tac. Qed.

#[local] Hint Resolve refines_TYearRanges refines_TWeekRanges refines_TMonthdayRanges
  refines_Weekdays refines_TTimespans : refines.

(** *** Rule sequences, checked *)

Lemma refines_RuleSequence (s : RuleSequence.t) :
  RuleSequence_defined s ->
  refines (Checked.RuleSequence_out s) (RuleSequence.out s).
Proof.
  intros Hd. unfold Checked.RuleSequence_out, RuleSequence.out.
  destruct (RuleSequence.IsTwentyFourHours s) eqn:H24; [refines_tac | ].
  destruct (RuleSequence.HasComment s) eqn:Hc; [refines_tac | ].
  destruct Hd as [Hd | [Hd | (Hm & Hw & Ht)]]; try congruence.
  refines_tac.
Qed.

Lemma refines_TRuleSequences (rules : list RuleSequence.t) :
  Forall RuleSequence_defined rules ->
  refines (Checked.out_TRuleSequences rules) (out_TRuleSequences rules).
Proof.
  intros H. apply refines_PrintVector.
  apply (Forall_impl _ refines_RuleSequence H).
Qed.

(** At [INT32_MIN] the printers of a day offset pass through [std::abs]
    where it has no result: this is the one offset left out below. *)
Lemma PrintOffset_undefined (space : bool) (ost : ostream) :
  Checked.PrintOffset INT32_MIN space (Some ost) = None
  /\ Checked.Holiday_out holiday_most_negative (Some ost) = None.
Proof. split; [destruct space | ]; reflexivity. Qed.

Lemma total_on_refines (T : Type) (defined : T -> Prop)
    (cout : T -> option ostream -> option ostream) (out : T -> ostream -> ostream) :
  (forall x, defined x -> refines (cout x) (out x)) ->
  (forall x, appends (out x)) ->
  total_on defined cout out.
Proof. intros Hr Ha x ost Hx. split; [now apply Hr | apply Ha]. Qed.

Lemma text_of_Time_unset (time : Time.t) :
  Time.HasValue time = false -> text_of (Time.out time) = "hh:mm".
Proof. intros H. unfold text_of, Time.out. now rewrite H. Qed.



(** * Further properties *)

(** ** PrintVector *)

Lemma text_PrintVector_loop (T : Type) (out : T -> ostream -> ostream)
    (sepFunc : T -> string) (it : list T) :
  (forall x, renders (out x)) ->
  forall (sep : string) (ost : ostream),
    plain ost ->
    os_text (PrintVector_loop out sepFunc sep it ost) =
      os_text ost ++ match it with
                     | [] => ""
                     | _ :: _ => sep ++ join_texts (fun x => text_of (out x)) sepFunc it
                     end.
Proof.
  intros Hout. induction it as [|x it IH]; intros sep ost Hplain.
  - simpl. now rewrite append_nil_r.
  - cbn [PrintVector_loop]. rewrite IH.
    + rewrite (renders_text _ _ (Hout x)), (renders_text _ _ (renders_str sep) Hplain).
      * rewrite text_of_str. destruct it; cbn [join_texts];
          now rewrite ?append_nil_r, ?append_assoc.
      * apply renders_plain; [apply renders_str | exact Hplain].
    + apply renders_plain; [apply Hout | ].
      apply renders_plain; [apply renders_str | exact Hplain].
Qed.

Lemma text_of_PrintVector (T : Type) (out : T -> ostream -> ostream)
    (sepFunc : T -> string) (v : list T) :
  (forall x, renders (out x)) ->
  text_of (PrintVector out sepFunc v) = join_texts (fun x => text_of (out x)) sepFunc v.
Proof.
  intros Hout. unfold text_of. destruct v as [|x it]; [reflexivity | ].
  cbn [PrintVector]. rewrite text_PrintVector_loop.
  - rewrite (renders_text _ _ (Hout x) plain_ostringstream).
    destruct it; cbn [join_texts]; now rewrite ?append_nil_r.
  - exact Hout.
  - apply renders_plain; [apply Hout | exact plain_ostringstream].
Qed.

Lemma join_texts_constant (T : Type) (text : T -> string) (sep : string) (v : list T) :
  join_texts text (fun _ => sep) v = String.concat sep (map text v).
Proof.
  induction v as [|x v IH]; [reflexivity | ].
  cbn [join_texts map String.concat]. destruct v as [|y v].
  - apply append_nil_r.
  - now rewrite IH.
Qed.

Lemma join_texts_app (T : Type) (text sepFunc : T -> string) (v1 : list T) (x y : T)
    (v2 : list T) :
  join_texts text sepFunc (v1 ++ x :: y :: v2)%list =
    join_texts text sepFunc (v1 ++ [x])%list ++ sepFunc x
    ++ join_texts text sepFunc (y :: v2).
Proof.
  induction v1 as [|z v1 IH].
  - cbn [app join_texts]. now rewrite append_nil_r.
  - change ((z :: v1) ++ x :: y :: v2)%list with (z :: (v1 ++ x :: y :: v2))%list.
    change ((z :: v1) ++ [x])%list with (z :: (v1 ++ [x]))%list.
    cbn [join_texts]. rewrite IH.
    destruct v1; cbn [app]; now rewrite !append_assoc.
Qed.

(** X1: with a constant separator, on a plain stream, [PrintVector] writes
    the texts of the elements joined by the separator: nothing for an empty
    vector, no separator before the first or after the last element. *)
Theorem PrintVector_sep_joins (T : Type) (out : T -> ostream -> ostream)
    (sep : string) (v : list T) (ost : ostream) :
  (forall x, renders (out x)) ->
  plain ost ->
  os_text (PrintVector_sep out sep v ost) =
    os_text ost ++ String.concat sep (map (fun x => text_of (out x)) v).
Proof.
  intros Hout Hplain.
  rewrite (renders_text _ _ (renders_PrintVector_sep T out sep v Hout) Hplain).
  unfold PrintVector_sep. now rewrite text_of_PrintVector, join_texts_constant.
Qed.

Lemma PrintVector_sep_joins_witness :
  os_text (PrintVector_sep Holiday.out ", "
             [ {| Holiday.m_plural := true; Holiday.m_offset := 0 |};
               {| Holiday.m_plural := false; Holiday.m_offset := 2 |};
               {| Holiday.m_plural := false; Holiday.m_offset := 0 |} ]
             ostringstream)
  = "PH, SH +2 days, SH".
Proof.
  exact (PrintVector_sep_joins Holiday.t Holiday.out ", " _ ostringstream
           renders_Holiday plain_ostringstream).
Defined.

(** X2: [PrintVector] splits at any inner position: the text of a vector
    is the text of its front part, the separator of the last element of the
    front part, and the text of the rest. *)
Theorem PrintVector_splits (T : Type) (out : T -> ostream -> ostream)
    (sepFunc : T -> string) (v1 : list T) (x y : T) (v2 : list T) :
  (forall x, renders (out x)) ->
  text_of (PrintVector out sepFunc (v1 ++ x :: y :: v2)%list) =
    text_of (PrintVector out sepFunc (v1 ++ [x])%list) ++ sepFunc x
    ++ text_of (PrintVector out sepFunc (y :: v2)).
Proof.
  intros Hout. rewrite !text_of_PrintVector by exact Hout. apply join_texts_app.
Qed.

Lemma PrintVector_splits_witness :
  text_of (out_TRuleSequences [rule_always "||"; rule_open_semicolon; rule_closed_comma])
  = text_of (out_TRuleSequences [rule_always "||"; rule_open_semicolon])
    ++ "; " ++ text_of (out_TRuleSequences [rule_closed_comma]).
Proof.
  exact (PrintVector_splits RuleSequence.t RuleSequence.out rule_separator
           [rule_always "||"] rule_open_semicolon rule_closed_comma []
           renders_RuleSequence).
Defined.

(** ** Padded numbers *)

Lemma length_append (a b : string) :
  String.length (a ++ b) = (String.length a + String.length b)%nat.
Proof. induction a as [|c a IH]; simpl; [reflexivity | now rewrite IH]. Qed.

Lemma length_fill_string (n : nat) (c : ascii) : String.length (fill_string n c) = n.
Proof. induction n as [|n IH]; simpl; [reflexivity | now rewrite IH]. Qed.

Lemma to_uint_nonnil (n : N) : N.to_uint n <> Decimal.Nil.
Proof.
  destruct n as [|p]; [discriminate | apply DecimalPos.Unsigned.to_uint_nonnil].
Qed.

Lemma read_decimal_dec_digits (n : Z) : 0 <= n -> read_decimal (dec_digits n) = Some n.
Proof.
  intros Hn. unfold read_decimal, dec_digits.
  rewrite NilZero.usu by apply to_uint_nonnil.
  now rewrite DecimalN.Unsigned.of_to, Z2N.id.
Qed.

Lemma dec_digits_not_empty (n : Z) : dec_digits n <> "".
Proof.
  unfold dec_digits. intros E.
  pose proof (NilZero.usu (N.to_uint (Z.to_N n)) (to_uint_nonnil _)) as H.
  rewrite E in H. discriminate H.
Qed.

Lemma read_decimal_leading_zeros (k : nat) (s : string) :
  s <> "" -> read_decimal (fill_string k "0" ++ s) = read_decimal s.
Proof.
  intros Hs. induction k as [|k IH]; [reflexivity | ].
  rewrite <- IH. unfold read_decimal. cbn [fill_string append NilZero.uint_of_string].
  assert (E : NilZero.uint_of_string (fill_string k "0" ++ s)
              = NilEmpty.uint_of_string (fill_string k "0" ++ s)).
  { destruct (fill_string k "0" ++ s) eqn:F; [ | reflexivity].
    destruct k; [now elim Hs | discriminate F]. }
  rewrite E. cbn [NilEmpty.uint_of_string].
  destruct (NilEmpty.uint_of_string (fill_string k "0" ++ s)); reflexivity.
Qed.

Lemma to_uint32_small (n : Z) : 0 <= n < 2 ^ 32 -> to_uint32 n = n.
Proof. intros H. unfold to_uint32. now apply Z.mod_small. Qed.

Lemma to_int32_small (n : Z) : 0 <= n < 2 ^ 31 -> to_int32 n = n.
Proof. intros H. unfold to_int32. rewrite Z.mod_small; lia. Qed.

(** X3: on a plain stream [PrintPaddedNumber] writes the decimal digits of
    the number behind as many zeros as it takes to reach the padding: the
    field is as wide as the larger of the padding and the number of digits,
    so no digit is ever cut, and read back as a decimal number the field is
    the number. *)
Theorem PrintPaddedNumber_text (number padding : Z) (ost : ostream) :
  plain ost ->
  0 <= number < 2 ^ 32 ->
  0 <= padding < 2 ^ 31 ->
  os_text (PrintPaddedNumber number padding ost)
    = os_text ost ++ zero_padded padding number
  /\ Z.of_nat (String.length (zero_padded padding number))
     = Z.max padding (Z.of_nat (String.length (dec_digits number)))
  /\ read_decimal (zero_padded padding number) = Some number.
Proof.
  intros Hplain Hn Hp. split; [ | split].
  - rewrite (renders_text _ _ (renders_PrintPaddedNumber number padding) Hplain).
    rewrite text_of_PrintPaddedNumber, (to_uint32_small number Hn).
    rewrite (to_uint32_small padding) by lia. now rewrite (to_int32_small padding Hp).
  - unfold zero_padded. rewrite length_append, length_fill_string. lia.
  - unfold zero_padded.
    rewrite read_decimal_leading_zeros by apply dec_digits_not_empty.
    apply read_decimal_dec_digits. lia.
Qed.

Lemma PrintPaddedNumber_text_witness :
  os_text (PrintPaddedNumber 7 2 ostringstream) = "07"
  /\ Z.of_nat (String.length (zero_padded 2 7)) = 2
  /\ read_decimal (zero_padded 2 7) = Some 7.
Proof.
  refine (PrintPaddedNumber_text 7 2 ostringstream plain_ostringstream _ _); lia.
Defined.


(** ** Time: components, constructors, kinds *)

(** X5: for a [Time] that is not an event, [GetHours] and [GetMinutes]
    split the duration: sixty times the hours plus the minutes is the
    duration, the minutes stay within one hour, and neither component has
    the sign opposite to the duration. *)
Theorem GetHours_GetMinutes_split (time : Time.t) :
  Time.IsEvent time = false ->
  60 * Time.GetHours time + Time.GetMinutes time = Time.m_duration time
  /\ Z.abs (Time.GetMinutes time) < 60
  /\ 0 <= Time.GetHours time * Time.m_duration time
  /\ 0 <= Time.GetMinutes time * Time.m_duration time.
Proof.
  intros H. rewrite (GetMinutes_plain time H), (GetHours_plain time H).
  unfold Time.duration_cast_hours.
  pose proof (Z.quot_rem' (Time.m_duration time) 60) as E.
  pose proof (Z.rem_bound_abs (Time.m_duration time) 60 ltac:(lia)) as B.
  pose proof (Z.rem_sign_mul (Time.m_duration time) 60 ltac:(lia)) as S.
  pose proof (Z.quot_rem' (Time.m_duration time) 60) as Q.
  assert (Hq : 0 <= Z.quot (Time.m_duration time) 60 * Time.m_duration time).
  { destruct (Z.le_gt_cases 0 (Time.m_duration time)) as [P|N].
    - pose proof (Z.quot_pos (Time.m_duration time) 60 P ltac:(lia)). nia.
    - assert (Z.quot (Time.m_duration time) 60 <= 0).
      { rewrite <- (Z.opp_involutive (Time.m_duration time)), Z.quot_opp_l by lia.
        pose proof (Z.quot_pos (- Time.m_duration time) 60 ltac:(lia) ltac:(lia)). lia. }
      nia. }
  replace (Time.m_duration time - 60 * Z.quot (Time.m_duration time) 60)
    with (Z.rem (Time.m_duration time) 60) by lia.
  repeat split; lia.
Qed.

Lemma GetHours_GetMinutes_split_witness :
  60 * Time.GetHours (Time.of_minutes (-95)) + Time.GetMinutes (Time.of_minutes (-95))
    = -95
  /\ Z.abs (Time.GetMinutes (Time.of_minutes (-95))) < 60
  /\ 0 <= Time.GetHours (Time.of_minutes (-95)) * -95
  /\ 0 <= Time.GetMinutes (Time.of_minutes (-95)) * -95.
Proof. exact (GetHours_GetMinutes_split (Time.of_minutes (-95)) eq_refl). Defined.

(** X6: the two constructors, for an hour count whose conversion to
    minutes is representable (60 * hours within the 64-bit minute count)
    and a minute count of that type.  [Time(hours)] is an
    hours-and-minutes value whose components are the hours and 0.
    [Time(minutes)] has the components of the minute count; it is a
    minutes-only value when the count is within one hour, 60 and -60
    included, and an hours-and-minutes value beyond.  Both have a value. *)
Theorem Time_constructors (hours minutes : Z) :
  INT64_MIN <= 60 * hours <= INT64_MAX ->
  INT64_MIN <= minutes <= INT64_MAX ->
  Time.GetHours (Time.of_hours hours) = hours
  /\ Time.GetMinutes (Time.of_hours hours) = 0
  /\ Time.IsHoursMinutes (Time.of_hours hours) = true
  /\ Time.GetHours (Time.of_minutes minutes) = Z.quot minutes 60
  /\ Time.GetMinutes (Time.of_minutes minutes) = Z.rem minutes 60
  /\ Time.IsMinutes (Time.of_minutes minutes) = (Z.abs minutes <=? 60)
  /\ Time.IsHoursMinutes (Time.of_minutes minutes) = (Z.abs minutes >? 60)
  /\ Time.HasValue (Time.of_hours hours) = true
  /\ Time.HasValue (Time.of_minutes minutes) = true.
Proof.
  intros _ _.
  assert (Hh : Time.GetHours (Time.of_hours hours) = hours).
  { rewrite GetHours_plain by reflexivity.
    change (Time.m_duration (Time.of_hours hours)) with (60 * hours).
    unfold Time.duration_cast_hours. rewrite Z.mul_comm. apply Z.quot_mul. lia. }
  assert (Hm : Time.GetHours (Time.of_minutes minutes) = Z.quot minutes 60).
  { now rewrite GetHours_plain by reflexivity. }
  assert (Hk : (minutes >? Time.one_hour) || (minutes <? - Time.one_hour)
               = (Z.abs minutes >? 60)) by (unfold Time.one_hour; lia).
  split; [exact Hh | ]. split.
  { rewrite GetMinutes_plain by reflexivity. rewrite Hh.
    change (Time.m_duration (Time.of_hours hours)) with (60 * hours). lia. }
  split; [reflexivity | ]. split; [exact Hm | ]. split.
  { rewrite GetMinutes_plain by reflexivity. rewrite Hm.
    change (Time.m_duration (Time.of_minutes minutes)) with minutes.
    pose proof (Z.quot_rem' minutes 60). lia. }
  unfold Time.IsMinutes, Time.IsHoursMinutes, Time.HasValue, Time.IsTime,
    Time.IsHoursMinutes, Time.IsMinutes, Time.has_flag, Time.of_minutes,
    Time.SetMinutes. cbn [Time.m_state Time.default Time.IsEvent Time.GetEvent
    Time.m_event Time.Event_eqb negb andb orb].
  rewrite Hk. replace (Z.abs minutes <=? 60) with (negb (Z.abs minutes >? 60)) by lia.
  destruct (Z.abs minutes >? 60); repeat split.
Qed.

Lemma Time_constructors_witness :
  Time.GetHours (Time.of_hours 9) = 9
  /\ Time.GetMinutes (Time.of_hours 9) = 0
  /\ Time.IsHoursMinutes (Time.of_hours 9) = true
  /\ Time.GetHours (Time.of_minutes (-95)) = Z.quot (-95) 60
  /\ Time.GetMinutes (Time.of_minutes (-95)) = Z.rem (-95) 60
  /\ Time.IsMinutes (Time.of_minutes (-95)) = (Z.abs (-95) <=? 60)
  /\ Time.IsHoursMinutes (Time.of_minutes (-95)) = (Z.abs (-95) >? 60)
  /\ Time.HasValue (Time.of_hours 9) = true
  /\ Time.HasValue (Time.of_minutes (-95)) = true.
Proof.
  apply (Time_constructors 9 (-95)); unfold INT64_MIN, INT64_MAX; lia.
Defined.

(** X7: the kinds of a [Time].  Event, hours-and-minutes and minutes-only
    exclude one another; a [Time] has a value exactly when it is of one of
    these kinds, which is when it is an event or carries the minute flag;
    an event offset is an event.  The hour flag alone gives no value. *)
Theorem Time_kinds (time : Time.t) :
  Time.HasValue time
    = Time.IsEvent time || Time.IsHoursMinutes time || Time.IsMinutes time
  /\ Time.HasValue time = Time.IsEvent time || Time.has_flag Time.HaveMinutes time
  /\ Time.IsEvent time && Time.IsHoursMinutes time = false
  /\ Time.IsEvent time && Time.IsMinutes time = false
  /\ Time.IsHoursMinutes time && Time.IsMinutes time = false
  /\ Time.IsEventOffset time && negb (Time.IsEvent time) = false
  /\ Time.HasValue
       {| Time.m_event := Time.NotEvent; Time.m_duration := Time.m_duration time;
          Time.m_state := Time.HaveHours |} = false.
Proof.
  unfold Time.HasValue, Time.IsTime, Time.IsHoursMinutes, Time.IsMinutes,
    Time.IsEventOffset.
  destruct (Time.IsEvent time), (Time.has_flag Time.HaveHours time),
    (Time.has_flag Time.HaveMinutes time), (Time.m_state time =? Time.IsNotTime);
    repeat split.
Qed.

(** ** Time: the text of a clock time *)

Lemma GetHours_neg (time : Time.t) :
  Time.GetHours (Time.neg time) = - Time.GetHours time.
Proof.
  destruct (Time.IsEvent time) eqn:E.
  - rewrite (GetHours_event time E), (GetHours_event (Time.neg time)); [reflexivity | exact E].
  - rewrite (GetHours_plain time E), (GetHours_plain (Time.neg time)) by exact E.
    cbn [Time.neg Time.m_duration]. unfold Time.duration_cast_hours.
    apply Z.quot_opp_l. lia.
Qed.

Lemma GetMinutes_neg (time : Time.t) :
  Time.GetMinutes (Time.neg time) = - Time.GetMinutes time.
Proof.
  destruct (Time.IsEvent time) eqn:E.
  - rewrite (GetMinutes_event time E), (GetMinutes_event (Time.neg time));
      [reflexivity | exact E].
  - rewrite (GetMinutes_plain time E), (GetMinutes_plain (Time.neg time)) by exact E.
    rewrite GetHours_neg. cbn [Time.neg Time.m_duration]. lia.
Qed.

(** X8: the text of a [Time] does not show the sign of its duration: on
    every stream the negated [Time] is written as the [Time] itself. *)
Theorem Time_out_ignores_sign (time : Time.t) (ost : ostream) :
  Time.out (Time.neg time) ost = Time.out time ost.
Proof.
  unfold Time.out, Time.GetHoursCount, Time.GetMinutesCount.
  rewrite GetHours_neg, GetMinutes_neg. unfold std_abs. rewrite !Z.abs_opp.
  change (Time.HasValue (Time.neg time)) with (Time.HasValue time).
  change (Time.IsEvent (Time.neg time)) with (Time.IsEvent time).
  change (Time.IsEventOffset (Time.neg time)) with (Time.IsEventOffset time).
  change (Time.IsMinutes (Time.neg time)) with (Time.IsMinutes time).
  change (Time.GetEvent (Time.neg time)) with (Time.GetEvent time).
  destruct (Time.HasValue time); [ | reflexivity].
  destruct (Time.IsEvent time) eqn:E; [ | reflexivity].
  rewrite (GetHours_event time E). reflexivity.
Qed.

Lemma zero_padded_2_length_check :
  forallb (fun k => (String.length (zero_padded 2 (Z.of_nat k)) =? 2)%nat) (seq 0 100)
  = true.
Proof. vm_compute. reflexivity. Qed.

Lemma zero_padded_2_length (n : Z) :
  0 <= n < 100 -> String.length (zero_padded 2 n) = 2%nat.
Proof.
  intros H. pose proof zero_padded_2_length_check as C.
  rewrite forallb_forall in C. specialize (C (Z.to_nat n)).
  rewrite Z2Nat.id in C by lia. apply Nat.eqb_eq. apply C.
  apply in_seq. lia.
Qed.

Lemma zero_padded_read (width n : Z) : 0 <= n -> read_decimal (zero_padded width n) = Some n.
Proof.
  intros H. unfold zero_padded.
  rewrite read_decimal_leading_zeros by apply dec_digits_not_empty.
  now apply read_decimal_dec_digits.
Qed.

(** X9: an hours-and-minutes [Time] is written as the hours and the
    minutes of the magnitude of its duration, each padded to two digits,
    with a colon between them.  Below a hundred hours the text is five
    characters long, and read back as decimal numbers its two fields give
    the hours and the minutes. *)
Theorem Time_clock_text (time : Time.t) :
  Time.IsHoursMinutes time = true ->
  Z.abs (Time.m_duration time) < 6000 ->
  let hours := Z.abs (Time.m_duration time) / 60 in
  let minutes := Z.abs (Time.m_duration time) mod 60 in
  text_of (Time.out time) = zero_padded 2 hours ++ ":" ++ zero_padded 2 minutes
  /\ String.length (text_of (Time.out time)) = 5%nat
  /\ read_decimal (zero_padded 2 hours) = Some hours
  /\ read_decimal (zero_padded 2 minutes) = Some minutes
  /\ 60 * hours + minutes = Z.abs (Time.m_duration time).
Proof.
  intros Hhm Hd hours minutes.
  assert (E : Time.IsEvent time = false).
  { unfold Time.IsHoursMinutes in Hhm. now destruct (Time.IsEvent time). }
  assert (Hh : std_abs (Time.GetHours time) = hours).
  { rewrite (GetHours_plain time E). unfold std_abs, Time.duration_cast_hours, hours.
    rewrite <- (Z.quot_abs (Time.m_duration time) 60) by lia.
    apply Z.quot_div_nonneg; lia. }
  assert (Hm : std_abs (Time.GetMinutes time) = minutes).
  { rewrite (GetMinutes_plain time E), (GetHours_plain time E).
    unfold std_abs, Time.duration_cast_hours, minutes.
    pose proof (Z.quot_rem' (Time.m_duration time) 60) as Q.
    replace (Time.m_duration time - 60 * Z.quot (Time.m_duration time) 60)
      with (Z.rem (Time.m_duration time) 60) by lia.
    rewrite <- (Z.rem_abs (Time.m_duration time) 60) by lia.
    apply Z.rem_mod_nonneg; lia. }
  assert (Bh : 0 <= hours < 100).
  { unfold hours. split; [apply Z.div_pos; lia | apply Z.div_lt_upper_bound; lia]. }
  assert (Bm : 0 <= minutes < 60) by (unfold minutes; apply Z.mod_pos_bound; lia).
  assert (T : text_of (Time.out time) = zero_padded 2 hours ++ ":" ++ zero_padded 2 minutes).
  { unfold text_of at 1. unfold Time.out, Time.GetHoursCount, Time.GetMinutesCount.
    assert (V : Time.HasValue time = true).
    { unfold Time.HasValue, Time.IsTime. rewrite Hhm. now rewrite orb_true_r. }
    assert (M : Time.IsMinutes time = false).
    { unfold Time.IsMinutes. unfold Time.IsHoursMinutes in Hhm.
      rewrite E in *. cbn [negb andb] in *.
      apply andb_true_iff in Hhm. destruct Hhm as [H1 H2]. now rewrite H1, H2. }
    rewrite V, E, M, Hh, Hm. cbn [negb]. text_tac.
    rewrite !to_uint32_small by lia. reflexivity. }
  split; [exact T | ]. split.
  { rewrite T, !length_append, !zero_padded_2_length by lia. reflexivity. }
  split; [apply zero_padded_read; lia | ].
  split; [apply zero_padded_read; lia | ].
  unfold hours, minutes. pose proof (Z.div_mod (Z.abs (Time.m_duration time)) 60). lia.
Qed.

Lemma Time_clock_text_witness :
  text_of (Time.out (Time.of_minutes (-575))) = "09:35"
  /\ String.length (text_of (Time.out (Time.of_minutes (-575)))) = 5%nat
  /\ read_decimal "09" = Some 9
  /\ read_decimal "35" = Some 35
  /\ 60 * 9 + 35 = 575.
Proof.
  refine (Time_clock_text (Time.of_minutes (-575)) eq_refl _). cbn. lia.
Defined.

(** ** Weekdays: holidays and weekday ranges as one list *)

Lemma concat_app (sep : string) (l1 l2 : list string) :
  String.concat sep (l1 ++ l2)%list =
    match l1, l2 with
    | [], _ => String.concat sep l2
    | _, [] => String.concat sep l1
    | _ :: _, _ :: _ => String.concat sep l1 ++ sep ++ String.concat sep l2
    end.
Proof.
  induction l1 as [|x l1 IH]; [reflexivity | ].
  destruct l2 as [|y l2]; [now rewrite app_nil_r | ].
  change ((x :: l1) ++ y :: l2)%list with (x :: (l1 ++ y :: l2))%list.
  cbn [String.concat]. destruct l1 as [|z l1]; [reflexivity | ].
  change ((z :: l1) ++ y :: l2)%list with (z :: (l1 ++ y :: l2))%list in *.
  rewrite IH. now rewrite !append_assoc.
Qed.

Lemma text_of_PrintVector_sep (T : Type) (out : T -> ostream -> ostream)
    (sep : string) (v : list T) :
  (forall x, renders (out x)) ->
  text_of (PrintVector_sep out sep v) = String.concat sep (map (fun x => text_of (out x)) v).
Proof.
  intros Hout. unfold PrintVector_sep.
  now rewrite text_of_PrintVector, join_texts_constant.
Qed.

Lemma text_of_Weekdays (weekday : Weekdays.t) :
  text_of (Weekdays.out weekday) =
    String.concat ", "
      (map (fun h => text_of (Holiday.out h)) (Weekdays.GetHolidays weekday)
       ++ map (fun r => text_of (WeekdayRange.out r)) (Weekdays.GetWeekdayRanges weekday))%list.
Proof.
  unfold text_of at 1. unfold Weekdays.out, Weekdays.HasWeekday, Weekdays.HasHolidays.
  destruct (negb (empty (Weekdays.GetWeekdayRanges weekday))
            && negb (empty (Weekdays.GetHolidays weekday))) eqn:C;
    text_tac; unfold out_THolidays, out_TWeekdayRanges;
    rewrite (text_of_PrintVector_sep _ Holiday.out) by exact renders_Holiday;
    rewrite (text_of_PrintVector_sep _ WeekdayRange.out) by exact renders_WeekdayRange;
    rewrite concat_app;
    destruct (Weekdays.GetHolidays weekday), (Weekdays.GetWeekdayRanges weekday);
    try discriminate C; cbn [map String.concat]; rewrite ?append_nil_r; reflexivity.
Qed.

(** X10: on a plain stream [Weekdays] is written as one list joined by a
    comma and a space: the holidays in their order, then the weekday ranges
    in theirs.  An empty [Weekdays] writes nothing. *)
Theorem Weekdays_one_list (weekday : Weekdays.t) (ost : ostream) :
  plain ost ->
  os_text (Weekdays.out weekday ost) =
    os_text ost
    ++ String.concat ", "
         (map (fun h => text_of (Holiday.out h)) (Weekdays.GetHolidays weekday)
          ++ map (fun r => text_of (WeekdayRange.out r))
                 (Weekdays.GetWeekdayRanges weekday))%list.
Proof.
  intros Hplain. rewrite (renders_text _ _ (renders_Weekdays weekday) Hplain).
  now rewrite text_of_Weekdays.
Qed.

Lemma Weekdays_one_list_witness :
  os_text (Weekdays.out
             {| Weekdays.m_weekdayRanges := [Mo_Fr; Mo_Tu];
                Weekdays.m_holidays :=
                  [ {| Holiday.m_plural := true; Holiday.m_offset := 0 |};
                    {| Holiday.m_plural := false; Holiday.m_offset := -1 |} ] |}
             ostringstream)
  = "PH, SH -1 day, Mo-Fr, Mo-Tu".
Proof.
  exact (Weekdays_one_list _ ostringstream plain_ostringstream).
Defined.

Lemma concat_snoc (sep : string) (l : list string) (x : string) :
  String.concat sep (l ++ [x])%list =
    match l with
    | [] => x
    | _ :: _ => String.concat sep l ++ sep ++ x
    end.
Proof. rewrite concat_app. destruct l; reflexivity. Qed.

(** X11: [AddWeekdayRange] puts the new range at the end of the text: after
    it the [Weekdays] is written as before, followed by a comma, a space
    and the new range, or as the new range alone when it was empty.  It has
    weekdays from then on, and its holidays are untouched. *)
Theorem AddWeekdayRange_appends (range : WeekdayRange.t) (weekday : Weekdays.t) :
  text_of (Weekdays.out (Weekdays.AddWeekdayRange range weekday)) =
    (if Weekdays.IsEmpty weekday then text_of (WeekdayRange.out range)
     else text_of (Weekdays.out weekday) ++ ", " ++ text_of (WeekdayRange.out range))
  /\ Weekdays.HasWeekday (Weekdays.AddWeekdayRange range weekday) = true
  /\ Weekdays.IsEmpty (Weekdays.AddWeekdayRange range weekday) = false
  /\ Weekdays.GetHolidays (Weekdays.AddWeekdayRange range weekday)
     = Weekdays.GetHolidays weekday.
Proof.
  split; [ | split; [ | split; [ | reflexivity]]].
  - rewrite !text_of_Weekdays.
    unfold Weekdays.AddWeekdayRange, Weekdays.IsEmpty, Weekdays.GetWeekdayRanges,
      Weekdays.GetHolidays. cbn [Weekdays.m_weekdayRanges Weekdays.m_holidays].
    rewrite map_app, app_assoc. cbn [map]. rewrite concat_snoc.
    destruct (Weekdays.m_weekdayRanges weekday), (Weekdays.m_holidays weekday);
      reflexivity.
  - unfold Weekdays.HasWeekday, Weekdays.AddWeekdayRange, Weekdays.GetWeekdayRanges.
    cbn [Weekdays.m_weekdayRanges]. now destruct (Weekdays.m_weekdayRanges weekday).
  - unfold Weekdays.IsEmpty, Weekdays.AddWeekdayRange, Weekdays.GetWeekdayRanges.
    cbn [Weekdays.m_weekdayRanges]. now destruct (Weekdays.m_weekdayRanges weekday).
Qed.

(** X12: [AddHoliday] puts the new holiday after the holidays and before
    the weekday ranges, whenever it is added: the text is the list of the
    old holidays, the new holiday and the weekday ranges. *)
Theorem AddHoliday_before_weekdays (holiday : Holiday.t) (weekday : Weekdays.t) :
  text_of (Weekdays.out (Weekdays.AddHoliday holiday weekday)) =
    String.concat ", "
      (map (fun h => text_of (Holiday.out h)) (Weekdays.GetHolidays weekday)
       ++ [text_of (Holiday.out holiday)]
       ++ map (fun r => text_of (WeekdayRange.out r)) (Weekdays.GetWeekdayRanges weekday))%list
  /\ (forall range,
        Weekdays.AddHoliday holiday (Weekdays.AddWeekdayRange range weekday)
        = Weekdays.AddWeekdayRange range (Weekdays.AddHoliday holiday weekday)).
Proof.
  split; [ | reflexivity].
  rewrite text_of_Weekdays.
  unfold Weekdays.AddHoliday, Weekdays.GetWeekdayRanges, Weekdays.GetHolidays.
  cbn [Weekdays.m_weekdayRanges Weekdays.m_holidays].
  now rewrite map_app, <- app_assoc.
Qed.

(** ** Weekday ranges: what is written and what is contained *)

(** X13: a [WeekdayRange] with an end is written as start, [-], end; its
    nth entries and its offset are not written.  Without an end it is
    written as the start, the bracketed list of nth entries joined by
    commas when there is one, and the offset after a space. *)
Theorem WeekdayRange_text (range : WeekdayRange.t) :
  text_of (WeekdayRange.out range) =
    text_of (Weekday.out (WeekdayRange.GetStart range))
    ++ (if WeekdayRange.HasEnd range
        then "-" ++ text_of (Weekday.out (WeekdayRange.GetEnd range))
        else (if WeekdayRange.HasNth range
              then "[" ++ String.concat ","
                            (map (fun e => text_of (NthWeekdayOfTheMonthEntry.out e))
                                 (WeekdayRange.GetNths range))
                   ++ "]"
              else "")
             ++ text_of (PrintOffset (WeekdayRange.GetOffset range) true))
  /\ (WeekdayRange.HasEnd range = true ->
      forall offset nths ost,
        WeekdayRange.out
          {| WeekdayRange.m_start := WeekdayRange.GetStart range;
             WeekdayRange.m_end := WeekdayRange.GetEnd range;
             WeekdayRange.m_offset := offset; WeekdayRange.m_nths := nths |} ost
        = WeekdayRange.out range ost).
Proof.
  split.
  - unfold text_of at 1. unfold WeekdayRange.out.
    destruct (WeekdayRange.HasEnd range), (WeekdayRange.HasNth range); text_tac;
      try rewrite (text_of_PrintVector_sep _ NthWeekdayOfTheMonthEntry.out)
        by exact renders_NthWeekdayOfTheMonthEntry;
      rewrite ?append_assoc; reflexivity.
  - intros He offset nths ost. unfold WeekdayRange.out.
    change (WeekdayRange.HasEnd
              {| WeekdayRange.m_start := WeekdayRange.GetStart range;
                 WeekdayRange.m_end := WeekdayRange.GetEnd range;
                 WeekdayRange.m_offset := offset; WeekdayRange.m_nths := nths |})
      with (WeekdayRange.HasEnd range).
    now rewrite He.
Qed.

Ltac decide_leb :=
  repeat match goal with
  | |- context [?a <=? ?b] =>
      let H := fresh in
      destruct (Z.leb_spec a b) as [H|H]; try (exfalso; lia); clear H
  end.

(** X14: whatever values the header gives the enumerators, as long as the
    days follow each other from Sunday to Saturday: a range from one day to
    a later or the same day contains end - start + 1 days of the week, a
    range whose end comes before its start contains none (it does not wrap
    around the week), and a range with a start and no end contains one. *)
Theorem HasWday_days (val : Weekday.t -> Z) (range : WeekdayRange.t) :
  Weekday.week_ordered val ->
  WeekdayRange.GetStart range <> Weekday.None ->
  (WeekdayRange.GetEnd range = Weekday.None -> length (days_in val range) = 1%nat)
  /\ (WeekdayRange.GetEnd range <> Weekday.None ->
      val (WeekdayRange.GetStart range) <= val (WeekdayRange.GetEnd range) ->
      Z.of_nat (length (days_in val range))
      = val (WeekdayRange.GetEnd range) - val (WeekdayRange.GetStart range) + 1)
  /\ (WeekdayRange.GetEnd range <> Weekday.None ->
      val (WeekdayRange.GetEnd range) < val (WeekdayRange.GetStart range) ->
      days_in val range = []).
Proof.
  intros (Hmo & Htu & Hwe & Hth & Hfr & Hsa) Hs.
  destruct range as [s e off nths].
  unfold days_in, week, WeekdayRange.HasWday, WeekdayRange.IsEmpty, WeekdayRange.HasEnd,
    WeekdayRange.GetStart, WeekdayRange.GetEnd in *.
  cbn [WeekdayRange.m_start WeekdayRange.m_end] in *.
  split; [ | split].
  - intros He. subst e. destruct s; try (now elim Hs); reflexivity.
  - intros He Hle.
    destruct s; try (now elim Hs); destruct e; try (now elim He);
      cbn [Weekday.eqb andb orb negb filter];
      rewrite ?Hsa, ?Hfr, ?Hth, ?Hwe, ?Htu, ?Hmo in *;
      decide_leb; cbn [andb filter length]; lia.
  - intros He Hlt.
    destruct s; try (now elim Hs); destruct e; try (now elim He);
      cbn [Weekday.eqb andb orb negb filter];
      rewrite ?Hsa, ?Hfr, ?Hth, ?Hwe, ?Htu, ?Hmo in *;
      try (exfalso; lia);
      decide_leb; cbn [andb filter length]; reflexivity.
Qed.

Lemma HasWday_days_witness :
  Z.of_nat (length (days_in Weekday.value Mo_Fr)) = 5.
Proof.
  refine (proj1 (proj2 (HasWday_days Weekday.value Mo_Fr week_ordered_value _)) _ _);
    [discriminate | discriminate | cbn; lia].
Defined.

(** ** Date ranges *)

(** X15: the second test of [MonthdayRange::HasEnd] adds nothing: a
    [MonthDay] with a day number is not empty, so a range has an end
    exactly when its end is not empty, and it is empty exactly when both
    its start and its end are. *)
Theorem MonthdayRange_HasEnd (range : MonthdayRange.t) :
  MonthdayRange.HasEnd range = negb (MonthDay.IsEmpty (MonthdayRange.GetEnd range))
  /\ MonthdayRange.IsEmpty range
     = MonthDay.IsEmpty (MonthdayRange.GetStart range)
       && MonthDay.IsEmpty (MonthdayRange.GetEnd range).
Proof.
  assert (E : MonthdayRange.HasEnd range
              = negb (MonthDay.IsEmpty (MonthdayRange.GetEnd range))).
  { unfold MonthdayRange.HasEnd, MonthDay.IsEmpty.
    destruct (MonthDay.HasYear _), (MonthDay.HasMonth _), (MonthDay.HasDayNum _),
      (MonthDay.IsVariable _); reflexivity. }
  split; [exact E | ].
  unfold MonthdayRange.IsEmpty. rewrite E. unfold MonthdayRange.HasStart.
  now rewrite !negb_involutive.
Qed.

Lemma text_of_YearRange (range : YearRange.t) :
  text_of (YearRange.out range) =
    if YearRange.IsEmpty range then ""
    else dec_digits (YearRange.GetStart range)
         ++ (if YearRange.HasEnd range
             then "-" ++ dec_digits (YearRange.GetEnd range)
                  ++ (if YearRange.HasPeriod range
                      then "/" ++ dec_digits (YearRange.GetPeriod range) else "")
             else if YearRange.HasPlus range then "+" else "").
Proof.
  unfold text_of at 1. unfold YearRange.out.
  destruct (YearRange.IsEmpty range); [reflexivity | ].
  destruct (YearRange.HasEnd range), (YearRange.HasPeriod range),
    (YearRange.HasPlus range); text_tac; reflexivity.
Qed.

(** X16: on a plain stream a [YearRange] that is not empty is written as
    its start, then [-], its end and, with a period, [/] and the period
    when it has an end, or [+] when it has none and the plus flag is set.
    So the plus flag is not written beside an end, the period is not
    written without an end, and a range with an end and no start begins
    with the start as it is, [0]. *)
Theorem YearRange_text (range : YearRange.t) (ost : ostream) :
  plain ost ->
  os_text (YearRange.out range ost) =
    os_text ost
    ++ (if YearRange.IsEmpty range then ""
        else dec_digits (YearRange.GetStart range)
             ++ (if YearRange.HasEnd range
                 then "-" ++ dec_digits (YearRange.GetEnd range)
                      ++ (if YearRange.HasPeriod range
                          then "/" ++ dec_digits (YearRange.GetPeriod range) else "")
                 else if YearRange.HasPlus range then "+" else ""))
  /\ (YearRange.HasEnd range = true ->
      forall plus,
        YearRange.out {| YearRange.m_start := YearRange.GetStart range;
                         YearRange.m_end := YearRange.GetEnd range;
                         YearRange.m_plus := plus;
                         YearRange.m_period := YearRange.GetPeriod range |} ost
        = YearRange.out range ost)
  /\ (YearRange.HasEnd range = false ->
      forall period,
        YearRange.out {| YearRange.m_start := YearRange.GetStart range;
                         YearRange.m_end := YearRange.GetEnd range;
                         YearRange.m_plus := YearRange.HasPlus range;
                         YearRange.m_period := period |} ost
        = YearRange.out range ost)
  /\ (YearRange.HasStart range = false -> YearRange.HasEnd range = true ->
      YearRange.HasPeriod range = false ->
      text_of (YearRange.out range) = "0-" ++ dec_digits (YearRange.GetEnd range)).
Proof.
  intros Hplain. split; [ | split; [ | split]].
  - rewrite (renders_text _ _ (renders_YearRange range) Hplain).
    now rewrite text_of_YearRange.
  - intros He plus. unfold YearRange.out.
    change (YearRange.IsEmpty {| YearRange.m_start := YearRange.GetStart range;
                                 YearRange.m_end := YearRange.GetEnd range;
                                 YearRange.m_plus := plus;
                                 YearRange.m_period := YearRange.GetPeriod range |})
      with (YearRange.IsEmpty range).
    change (YearRange.HasEnd {| YearRange.m_start := YearRange.GetStart range;
                                YearRange.m_end := YearRange.GetEnd range;
                                YearRange.m_plus := plus;
                                YearRange.m_period := YearRange.GetPeriod range |})
      with (YearRange.HasEnd range).
    now rewrite He.
  - intros He period. unfold YearRange.out.
    change (YearRange.IsEmpty {| YearRange.m_start := YearRange.GetStart range;
                                 YearRange.m_end := YearRange.GetEnd range;
                                 YearRange.m_plus := YearRange.HasPlus range;
                                 YearRange.m_period := period |})
      with (YearRange.IsEmpty range).
    change (YearRange.HasEnd {| YearRange.m_start := YearRange.GetStart range;
                                YearRange.m_end := YearRange.GetEnd range;
                                YearRange.m_plus := YearRange.HasPlus range;
                                YearRange.m_period := period |})
      with (YearRange.HasEnd range).
    now rewrite He.
  - intros Hs He Hp. rewrite text_of_YearRange.
    unfold YearRange.IsEmpty. rewrite Hs, He, Hp. cbn [negb andb].
    unfold YearRange.HasStart in Hs. apply negb_false_iff, Z.eqb_eq in Hs.
    rewrite Hs, append_nil_r. reflexivity.
Qed.

Lemma YearRange_text_witness :
  os_text (YearRange.out {| YearRange.m_start := 2015; YearRange.m_end := 2021;
                            YearRange.m_plus := true; YearRange.m_period := 2 |}
             ostringstream)
  = "2015-2021/2".
Proof.
  exact (proj1 (YearRange_text _ ostringstream plain_ostringstream)).
Defined.

(** ** Rule sequences: the comment branch *)

(** X17: a rule that is not open around the clock and has a comment is
    written as the comment and a colon; its selectors are not written.  The
    modifier keyword follows the colon without a space, and the quoted
    modifier comment follows after a space only when a keyword was
    written. *)
Theorem RuleSequence_comment_text (s : RuleSequence.t) (ost : ostream) :
  plain ost ->
  RuleSequence.IsTwentyFourHours s = false ->
  RuleSequence.HasComment s = true ->
  os_text (RuleSequence.out s ost) =
    os_text ost ++ RuleSequence.GetComment s ++ ":"
    ++ match RuleSequence.GetModifier s with
       | RuleSequence.DefaultOpen | RuleSequence.Comment =>
           if RuleSequence.HasModifierComment s
           then String RuleSequence.dquote
                  (RuleSequence.GetModifierComment s ++ String RuleSequence.dquote "")
           else ""
       | m =>
           text_of (RuleSequence.out_Modifier m)
           ++ (if RuleSequence.HasModifierComment s
               then " " ++ String RuleSequence.dquote
                             (RuleSequence.GetModifierComment s
                              ++ String RuleSequence.dquote "")
               else "")
       end.
Proof.
  intros Hplain H24 Hc.
  rewrite (renders_text _ _ (renders_RuleSequence s) Hplain). f_equal.
  unfold text_of at 1. unfold RuleSequence.out. rewrite H24, Hc. cbv zeta.
  destruct (RuleSequence.GetModifier s), (RuleSequence.HasModifierComment s);
    cbn [RuleSequence.Modifier_eqb negb andb putSpace on_stream fst snd];
    text_tac; reflexivity.
Qed.

Lemma RuleSequence_comment_text_witness :
  os_text (RuleSequence.out rule_by_appointment ostringstream) = "by appointment:closed".
Proof.
  exact (RuleSequence_comment_text rule_by_appointment ostringstream
           plain_ostringstream eq_refl eq_refl).
Defined.

(** ** Space-separated parts *)

Lemma existsb_present (parts : list (bool * (ostream -> ostream))) :
  existsb fst parts = match present (texts parts) with [] => false | _ :: _ => true end.
Proof.
  induction parts as [|[c f] parts IH]; [reflexivity | ].
  unfold present, texts in *. cbn [existsb map filter fst snd]. now destruct c.
Qed.

Lemma emit_part_text (c : bool) (f : ostream -> ostream) (st : ostream * bool) :
  renders f -> plain (fst st) ->
  plain (fst (emit_part (c, f) st))
  /\ os_text (fst (emit_part (c, f) st)) =
       os_text (fst st)
       ++ (if c then (if snd st then " " else "") ++ text_of f else "")
  /\ snd (emit_part (c, f) st) = snd st || c.
Proof.
  intros Hf Hplain. destruct st as [ost space]. cbn [fst snd] in *.
  unfold emit_part, putSpace, on_stream. cbn [fst snd]. destruct c; cbn [fst snd].
  - assert (P : plain (if space then chr " " ost else ost)).
    { destruct space; [ | exact Hplain].
      apply renders_plain; [apply renders_chr | exact Hplain]. }
    split; [apply renders_plain; assumption | ].
    split; [ | now rewrite orb_true_r].
    rewrite (renders_text _ _ Hf P). destruct space; [ | reflexivity].
    rewrite (renders_text _ _ (renders_chr " ") Hplain), text_of_chr.
    now rewrite !append_assoc.
  - split; [exact Hplain | ]. split; [now rewrite append_nil_r | now rewrite orb_false_r].
Qed.

Lemma emit_parts_text (parts : list (bool * (ostream -> ostream))) :
  Forall (fun p => renders (snd p)) parts ->
  forall st, plain (fst st) ->
    plain (fst (emit_parts parts st))
    /\ os_text (fst (emit_parts parts st)) =
         os_text (fst st)
         ++ (if snd st && existsb fst parts then " " else "")
         ++ String.concat " " (present (texts parts))
    /\ snd (emit_parts parts st) = snd st || existsb fst parts.
Proof.
  induction 1 as [|[c f] parts Hf _ IH]; intros st Hplain.
  - cbn [emit_parts fold_left existsb present texts map filter String.concat].
    rewrite andb_false_r, orb_false_r, !append_nil_r. auto.
  - cbn [emit_parts fold_left]. fold (emit_parts parts (emit_part (c, f) st)).
    cbn [snd] in Hf.
    destruct (emit_part_text c f st Hf Hplain) as (P & T & S).
    destruct (IH _ P) as (IH1 & IH2 & IH3). split; [exact IH1 | ].
    rewrite IH2, IH3, T, S. rewrite (existsb_present ((c, f) :: parts)).
    rewrite (existsb_present parts).
    unfold present, texts. cbn [map filter fst snd].
    destruct c, (snd st); cbn [orb andb map filter snd String.concat];
      destruct (map snd (filter fst (map (fun p => (fst p, text_of (snd p))) parts)));
      rewrite ?append_assoc; cbn [append]; rewrite ?append_nil_r; auto.
Qed.

Lemma text_of_quoted (mc : string) :
  text_of (fun ost => ost << chr RuleSequence.dquote << str mc << chr RuleSequence.dquote)
  = String RuleSequence.dquote (mc ++ String RuleSequence.dquote "").
Proof. unfold text_of. text_tac. reflexivity. Qed.

Lemma renders_quoted (mc : string) :
  renders (fun ost => ost << chr RuleSequence.dquote << str mc << chr RuleSequence.dquote).
Proof. renders_tac. Qed.

(** X18: on a plain stream a [MonthDay] is written as its parts separated
    by single spaces, each part only when it is there: the year; then the
    variable date when there is one, and otherwise the month and the day
    number padded to two digits; the offset follows after a space.  With a
    variable date the month and the day number are not written. *)
Theorem MonthDay_text (md : MonthDay.t) (ost : ostream) :
  plain ost ->
  os_text (MonthDay.out md ost) =
    os_text ost
    ++ String.concat " "
         (present
            ((MonthDay.HasYear md, dec_digits (MonthDay.GetYear md))
             :: (if MonthDay.IsVariable md
                 then [(true, text_of (MonthDay.out_VariableDate (MonthDay.GetVariableDate md)))]
                 else [(MonthDay.HasMonth md,
                        text_of (MonthDay.out_Month (MonthDay.GetMonth md)));
                       (MonthDay.HasDayNum md,
                        text_of (PrintPaddedNumber (MonthDay.GetDayNum md) 2))])))
    ++ (if MonthDay.HasOffset md
        then " " ++ text_of (DateOffset.out (MonthDay.GetOffset md)) else "").
Proof.
  intros Hplain.
  set (parts :=
    (MonthDay.HasYear md, unsigned_ (MonthDay.GetYear md))
    :: (if MonthDay.IsVariable md
        then [(true, MonthDay.out_VariableDate (MonthDay.GetVariableDate md))]
        else [(MonthDay.HasMonth md, MonthDay.out_Month (MonthDay.GetMonth md));
              (MonthDay.HasDayNum md, PrintPaddedNumber (MonthDay.GetDayNum md) 2)])).
  assert (E : MonthDay.out md ost =
    let o := fst (emit_parts parts (ost, false)) in
    if MonthDay.HasOffset md
    then o << chr " " << DateOffset.out (MonthDay.GetOffset md) else o).
  { unfold MonthDay.out, parts. destruct (MonthDay.IsVariable md); reflexivity. }
  assert (R : Forall (fun p => renders (snd p)) parts).
  { unfold parts.
    destruct (MonthDay.IsVariable md);
      repeat (apply Forall_cons; [cbn [snd]; auto with renders | ]); apply Forall_nil. }
  destruct (emit_parts_text parts R (ost, false) Hplain) as (P & T & _).
  rewrite E. cbv zeta. cbn [fst snd andb] in T.
  assert (Q : present (texts parts) =
    present
      ((MonthDay.HasYear md, dec_digits (MonthDay.GetYear md))
       :: (if MonthDay.IsVariable md
           then [(true, text_of (MonthDay.out_VariableDate (MonthDay.GetVariableDate md)))]
           else [(MonthDay.HasMonth md,
                  text_of (MonthDay.out_Month (MonthDay.GetMonth md)));
                 (MonthDay.HasDayNum md,
                  text_of (PrintPaddedNumber (MonthDay.GetDayNum md) 2))]))).
  { unfold parts, texts.
    destruct (MonthDay.IsVariable md); cbn [map fst snd];
      now rewrite text_of_unsigned. }
  rewrite <- Q.
  destruct (MonthDay.HasOffset md).
  - rewrite (renders_text _ _ (renders_DateOffset _)).
    + rewrite (renders_text _ _ (renders_chr " ") P), T, text_of_chr.
      now rewrite !append_assoc.
    + apply renders_plain; [apply renders_chr | exact P].
  - rewrite T. cbn [append]. now rewrite append_nil_r.
Qed.

Lemma MonthDay_text_witness :
  os_text (MonthDay.out
             {| MonthDay.m_year := 2015; MonthDay.m_month := MonthDay.Jan;
                MonthDay.m_daynum := 5;
                MonthDay.m_variable_date := MonthDay.VariableDate_None;
                MonthDay.m_offset :=
                  {| DateOffset.m_wday_offset := Weekday.Monday;
                     DateOffset.m_positive := true; DateOffset.m_offset := -2 |} |}
             ostringstream)
  = "2015 Jan 05 +Mo -2 days".
Proof. exact (MonthDay_text _ ostringstream plain_ostringstream). Defined.

(** X19: on a plain stream a rule that is not open around the clock and
    has no comment is written as its parts separated by single spaces,
    each part only when it is there: years, months, weeks, weekdays, times,
    the modifier keyword and the quoted modifier comment.  The readability
    colon, when set, is written right after the years, months and weeks,
    without a space before it; a space follows it only when one of those
    three was written and something comes after. *)
Theorem RuleSequence_selectors_text (s : RuleSequence.t) (ost : ostream) :
  plain ost ->
  RuleSequence.IsTwentyFourHours s = false ->
  RuleSequence.HasComment s = false ->
  let before :=
    present
      [(RuleSequence.HasYears s, text_of (out_TYearRanges (RuleSequence.GetYears s)));
       (RuleSequence.HasMonths s, text_of (out_TMonthdayRanges (RuleSequence.GetMonths s)));
       (RuleSequence.HasWeeks s, text_of (out_TWeekRanges (RuleSequence.GetWeeks s)))] in
  let after :=
    present
      [(RuleSequence.HasWeekdays s, text_of (Weekdays.out (RuleSequence.GetWeekdays s)));
       (RuleSequence.HasTimes s, text_of (out_TTimespans (RuleSequence.GetTimes s)));
       (negb (RuleSequence.Modifier_eqb (RuleSequence.GetModifier s) RuleSequence.DefaultOpen)
        && negb (RuleSequence.Modifier_eqb (RuleSequence.GetModifier s) RuleSequence.Comment),
        text_of (RuleSequence.out_Modifier (RuleSequence.GetModifier s)));
       (RuleSequence.HasModifierComment s,
        String RuleSequence.dquote
          (RuleSequence.GetModifierComment s ++ String RuleSequence.dquote ""))] in
  os_text (RuleSequence.out s ost) =
    os_text ost
    ++ (if RuleSequence.HasSeparatorForReadability s
        then String.concat " " before ++ ":"
             ++ match before, after with
                | _ :: _, _ :: _ => " "
                | _, _ => ""
                end
             ++ String.concat " " after
        else String.concat " " (before ++ after)%list).
Proof.
  intros Hplain H24 Hc before after.
  set (A := [(RuleSequence.HasYears s, out_TYearRanges (RuleSequence.GetYears s));
             (RuleSequence.HasMonths s, out_TMonthdayRanges (RuleSequence.GetMonths s));
             (RuleSequence.HasWeeks s, out_TWeekRanges (RuleSequence.GetWeeks s))]).
  set (B := [(RuleSequence.HasWeekdays s, Weekdays.out (RuleSequence.GetWeekdays s));
             (RuleSequence.HasTimes s, out_TTimespans (RuleSequence.GetTimes s));
             (negb (RuleSequence.Modifier_eqb (RuleSequence.GetModifier s)
                      RuleSequence.DefaultOpen)
              && negb (RuleSequence.Modifier_eqb (RuleSequence.GetModifier s)
                         RuleSequence.Comment),
              RuleSequence.out_Modifier (RuleSequence.GetModifier s));
             (RuleSequence.HasModifierComment s,
              fun o => o << chr RuleSequence.dquote
                         << str (RuleSequence.GetModifierComment s)
                         << chr RuleSequence.dquote)]).
  assert (E : RuleSequence.out s ost =
    fst (emit_parts B
           (let st := emit_parts A (ost, false) in
            if RuleSequence.HasSeparatorForReadability s
            then st << on_stream (chr ":") else st))).
  { unfold RuleSequence.out. rewrite H24, Hc. reflexivity. }
  assert (RA : Forall (fun p => renders (snd p)) A).
  { repeat (apply Forall_cons; [cbn [snd]; auto with renders | ]). apply Forall_nil. }
  assert (RB : Forall (fun p => renders (snd p)) B).
  { repeat (apply Forall_cons;
            [cbn [snd]; first [apply renders_quoted | auto with renders] | ]).
    apply Forall_nil. }
  assert (QA : present (texts A) = before) by reflexivity.
  assert (QB : present (texts B) = after).
  { unfold B, after, texts. cbn [map fst snd]. now rewrite text_of_quoted. }
  destruct (emit_parts_text A RA (ost, false) Hplain) as (PA & TA & SA).
  cbn [fst snd andb orb] in TA, SA. rewrite QA in TA. cbn [append] in TA.
  rewrite E. cbv zeta.
  destruct (RuleSequence.HasSeparatorForReadability s).
  - assert (PC : plain (fst (emit_parts A (ost, false) << on_stream (chr ":")))).
    { unfold on_stream. cbn [fst]. apply renders_plain; [apply renders_chr | exact PA]. }
    destruct (emit_parts_text B RB _ PC) as (_ & TB & _).
    rewrite TB, QB. unfold on_stream. cbn [fst snd].
    rewrite (renders_text _ _ (renders_chr ":") PA), TA, text_of_chr, SA.
    rewrite (existsb_present A), (existsb_present B), QA, QB.
    destruct before, after; cbn [andb]; rewrite ?append_assoc; reflexivity.
  - destruct (emit_parts_text B RB _ PA) as (_ & TB & _).
    rewrite TB, QB, TA, SA, concat_app.
    rewrite (existsb_present A), (existsb_present B), QA, QB.
    destruct before, after; cbn [andb String.concat append];
      rewrite ?append_assoc, ?append_nil_r; reflexivity.
Qed.

Lemma RuleSequence_selectors_text_witness :
  os_text (RuleSequence.out rule_weekdays_times ostringstream)
  = "2015-2020: Mo-Fr 09:00-18:00 unknown".
Proof.
  exact (RuleSequence_selectors_text rule_weekdays_times ostringstream
           plain_ostringstream eq_refl eq_refl).
Defined.

(** ** The printers do not depend on what was written before *)

Lemma renders_context_free (f : ostream -> ostream) : renders f -> context_free f.
Proof.
  intros Hf ost Hplain. split; [now apply renders_plain | now apply renders_text].
Qed.

(** X20: on a plain stream every printer writes the same text whatever was
    written before it and whatever the fill character is, and leaves the
    stream plain.  So the fill character that [PrintPaddedNumber] leaves
    behind changes nothing in what the printers of this file write, and
    the text of two printers in a row is the text of the first followed by
    the text of the second. *)
Theorem printers_context_free :
  (forall time, context_free (Time.out time))
  /\ (forall span, context_free (Timespan.out span))
  /\ (forall timespans, context_free (out_TTimespans timespans))
  /\ (forall entry, context_free (NthWeekdayOfTheMonthEntry.out entry))
  /\ (forall wday, context_free (Weekday.out wday))
  /\ (forall range, context_free (WeekdayRange.out range))
  /\ (forall ranges, context_free (out_TWeekdayRanges ranges))
  /\ (forall holiday, context_free (Holiday.out holiday))
  /\ (forall holidays, context_free (out_THolidays holidays))
  /\ (forall weekday, context_free (Weekdays.out weekday))
  /\ (forall offset, context_free (DateOffset.out offset))
  /\ (forall md, context_free (MonthDay.out md))
  /\ (forall range, context_free (MonthdayRange.out range))
  /\ (forall ranges, context_free (out_TMonthdayRanges ranges))
  /\ (forall range, context_free (YearRange.out range))
  /\ (forall ranges, context_free (out_TYearRanges ranges))
  /\ (forall range, context_free (WeekRange.out range))
  /\ (forall ranges, context_free (out_TWeekRanges ranges))
  /\ (forall s, context_free (RuleSequence.out s))
  /\ (forall s, context_free (out_TRuleSequences s))
  /\ (forall number padding, context_free (PrintPaddedNumber number padding))
  /\ (forall offset space, context_free (PrintOffset offset space))
  /\ (forall f g, context_free f -> context_free g ->
        context_free (fun ost => g (f ost))
        /\ text_of (fun ost => g (f ost)) = text_of f ++ text_of g).
Proof.
  repeat match goal with |- _ /\ _ => split end;
    try (intros; apply renders_context_free; auto with renders; fail).
  - intros s. apply renders_context_free, renders_TRuleSequences.
  - intros f g Hf Hg.
    assert (T : text_of (fun ost => g (f ost)) = text_of f ++ text_of g).
    { unfold text_of at 1.
      destruct (Hf ostringstream plain_ostringstream) as [Pf Tf].
      destruct (Hg _ Pf) as [_ Tg]. now rewrite Tg. }
    split; [ | exact T].
    intros ost Hplain. destruct (Hf ost Hplain) as [Pf Tf].
    destruct (Hg _ Pf) as [Pg Tg]. split; [exact Pg | ].
    now rewrite Tg, Tf, T, append_assoc.
Qed.

(** ** The format state after a printer *)

Lemma frame_refl (a : ostream) : frame a a.
Proof. split; [reflexivity | split; now left + now right]. Qed.

Lemma frame_step (f : ostream -> ostream) (a b : ostream) :
  keeps f -> frame a b -> frame a (f b).
Proof.
  intros Hf (F & W & C). destruct (Hf b) as (F' & W' & C').
  split; [congruence | split].
  - destruct W' as [W' | W']; [now left | ]. rewrite W'. exact W.
  - destruct C' as [C' | C']; [ | now right]. rewrite C'. exact C.
Qed.

Lemma keeps_insert_field (pre body : string) : keeps (insert_field pre body).
Proof. intros ost. split; [reflexivity | split; now left]. Qed.

Lemma frame_putSpace (a : ostream) (st : ostream * bool) :
  frame a (fst st) -> frame a (fst (putSpace st)).
Proof.
  intros H. unfold putSpace. simpl. destruct (snd st); [ | exact H].
  apply frame_step; [ | exact H]. apply keeps_insert_field.
Qed.

Lemma frame_on_stream (f : ostream -> ostream) (a : ostream) (st : ostream * bool) :
  keeps f -> frame a (fst st) -> frame a (fst (on_stream f st)).
Proof. intros Hf H. unfold on_stream. simpl. now apply frame_step. Qed.

Lemma keeps_chr (c : ascii) : keeps (chr c).
Proof. apply keeps_insert_field. Qed.

Lemma keeps_str (s : string) : keeps (str s).
Proof. apply keeps_insert_field. Qed.

Lemma keeps_unsigned (n : Z) : keeps (unsigned_ n).
Proof. intros ost. unfold unsigned_. apply keeps_insert_field. Qed.

Lemma keeps_int (n : Z) : keeps (int_ n).
Proof.
  intros ost. unfold int_.
  destruct (ios.basefield (os_flags ost));
    [apply keeps_insert_field | apply keeps_unsigned ..].
Qed.

Lemma keeps_PrintPaddedNumber (number padding : Z) :
  keeps (PrintPaddedNumber number padding).
Proof. intros ost. split; [reflexivity | split; [now left | now right]]. Qed.

Create HintDb keeps.
#[local] Hint Resolve keeps_chr keeps_str keeps_unsigned keeps_int
  keeps_PrintPaddedNumber : keeps.

(** One step of a proof that a printer keeps the format state: peel the
    last insertion, or split on the condition it was guarded by. *)
Ltac keeps_step :=
  match goal with
  | |- frame ?a ?a => apply frame_refl
  | |- frame _ (fst (_, _)) => cbn [fst]
  | |- frame _ (fst (putSpace _)) => apply frame_putSpace
  | |- frame _ (fst (on_stream _ _)) =>
      apply frame_on_stream; [solve [auto with keeps] | ]
  | |- frame _ (fst (if ?c then _ else _)) => destruct c
  | |- frame _ (if ?c then _ else _) => destruct c
  | |- frame _ (_ _) => apply frame_step; [solve [auto with keeps] | ]
  end.

Ltac keeps_tac := intros ost; cbv zeta; repeat keeps_step.

Lemma keeps_PrintOffset (offset : Z) (space : bool) : keeps (PrintOffset offset space).
Proof. unfold PrintOffset. keeps_tac. Qed.

#[local] Hint Resolve keeps_PrintOffset : keeps.

Lemma frame_PrintVector_loop (T : Type) (out : T -> ostream -> ostream)
    (sepFunc : T -> string) (it : list T) :
  (forall x, keeps (out x)) ->
  forall sep a b, frame a b -> frame a (PrintVector_loop out sepFunc sep it b).
Proof.
  intros Hout. induction it as [|x it IH]; intros sep a b Hab; simpl.
  - exact Hab.
  - apply IH. apply frame_step; [apply Hout | ].
    apply frame_step; [apply keeps_str | exact Hab].
Qed.

Lemma keeps_PrintVector (T : Type) (out : T -> ostream -> ostream)
    (sepFunc : T -> string) (v : list T) :
  (forall x, keeps (out x)) -> keeps (PrintVector out sepFunc v).
Proof.
  intros Hout ost. destruct v as [|x it]; simpl.
  - apply frame_refl.
  - apply frame_PrintVector_loop; [exact Hout | ].
    apply frame_step; [apply Hout | apply frame_refl].
Qed.

Lemma keeps_PrintVector_sep (T : Type) (out : T -> ostream -> ostream)
    (sep : string) (v : list T) :
  (forall x, keeps (out x)) -> keeps (PrintVector_sep out sep v).
Proof. apply keeps_PrintVector. Qed.

Lemma keeps_Event (event : Time.Event) : keeps (Time.out_Event event).
Proof. destruct event; unfold Time.out_Event; auto with keeps. Qed.

#[local] Hint Resolve keeps_Event : keeps.

Lemma keeps_Time (time : Time.t) : keeps (Time.out time).
Proof. unfold Time.out. keeps_tac. Qed.

#[local] Hint Resolve keeps_Time : keeps.

Lemma keeps_Timespan (span : Timespan.t) : keeps (Timespan.out span).
Proof. unfold Timespan.out. keeps_tac. Qed.

#[local] Hint Resolve keeps_Timespan : keeps.

Lemma keeps_TTimespans (timespans : list Timespan.t) : keeps (out_TTimespans timespans).
Proof. apply keeps_PrintVector_sep. auto with keeps. Qed.

#[local] Hint Resolve keeps_TTimespans : keeps.

Lemma keeps_NthWeekdayOfTheMonthEntry (entry : NthWeekdayOfTheMonthEntry.t) :
  keeps (NthWeekdayOfTheMonthEntry.out entry).
Proof. unfold NthWeekdayOfTheMonthEntry.out. keeps_tac. Qed.

Lemma keeps_Weekday (wday : Weekday.t) : keeps (Weekday.out wday).
Proof. destruct wday; unfold Weekday.out; auto with keeps. Qed.

#[local] Hint Resolve keeps_NthWeekdayOfTheMonthEntry keeps_Weekday : keeps.

Lemma keeps_nths (nths : list NthWeekdayOfTheMonthEntry.t) :
  keeps (PrintVector_sep NthWeekdayOfTheMonthEntry.out "," nths).
Proof. apply keeps_PrintVector_sep. auto with keeps. Qed.

#[local] Hint Resolve keeps_nths : keeps.

Lemma keeps_WeekdayRange (range : WeekdayRange.t) : keeps (WeekdayRange.out range).
Proof. unfold WeekdayRange.out. keeps_tac. Qed.

#[local] Hint Resolve keeps_WeekdayRange : keeps.

Lemma keeps_TWeekdayRanges (ranges : list WeekdayRange.t) :
  keeps (out_TWeekdayRanges ranges).
Proof. apply keeps_PrintVector_sep. auto with keeps. Qed.

Lemma keeps_Holiday (holiday : Holiday.t) : keeps (Holiday.out holiday).
Proof. unfold Holiday.out. keeps_tac. Qed.

#[local] Hint Resolve keeps_TWeekdayRanges keeps_Holiday : keeps.

Lemma keeps_THolidays (holidays : list Holiday.t) : keeps (out_THolidays holidays).
Proof. apply keeps_PrintVector_sep. auto with keeps. Qed.

#[local] Hint Resolve keeps_THolidays : keeps.

Lemma keeps_Weekdays (weekday : Weekdays.t) : keeps (Weekdays.out weekday).
Proof. unfold Weekdays.out. keeps_tac. Qed.

Lemma keeps_DateOffset (offset : DateOffset.t) : keeps (DateOffset.out offset).
Proof. unfold DateOffset.out. keeps_tac. Qed.

Lemma keeps_Month (month : MonthDay.Month) : keeps (MonthDay.out_Month month).
Proof. destruct month; unfold MonthDay.out_Month; auto with keeps. Qed.

Lemma keeps_VariableDate (date : MonthDay.VariableDate) :
  keeps (MonthDay.out_VariableDate date).
Proof. destruct date; unfold MonthDay.out_VariableDate; auto with keeps. Qed.

#[local] Hint Resolve keeps_Weekdays keeps_DateOffset keeps_Month
  keeps_VariableDate : keeps.

Lemma keeps_MonthDay (md : MonthDay.t) : keeps (MonthDay.out md).
Proof. unfold MonthDay.out. keeps_tac. Qed.

#[local] Hint Resolve keeps_MonthDay : keeps.

Lemma keeps_MonthdayRange (range : MonthdayRange.t) : keeps (MonthdayRange.out range).
Proof. unfold MonthdayRange.out. keeps_tac. Qed.

#[local] Hint Resolve keeps_MonthdayRange : keeps.

Lemma keeps_TMonthdayRanges (ranges : list MonthdayRange.t) :
  keeps (out_TMonthdayRanges ranges).
Proof. apply keeps_PrintVector_sep. auto with keeps. Qed.

Lemma keeps_YearRange (range : YearRange.t) : keeps (YearRange.out range).
Proof. unfold YearRange.out. keeps_tac. Qed.

#[local] Hint Resolve keeps_TMonthdayRanges keeps_YearRange : keeps.

Lemma keeps_TYearRanges (ranges : list YearRange.t) : keeps (out_TYearRanges ranges).
Proof. apply keeps_PrintVector_sep. auto with keeps. Qed.

Lemma keeps_WeekRange (range : WeekRange.t) : keeps (WeekRange.out range).
Proof. unfold WeekRange.out. keeps_tac. Qed.

#[local] Hint Resolve keeps_TYearRanges keeps_WeekRange : keeps.

Lemma keeps_week_list (ranges : list WeekRange.t) :
  keeps (PrintVector_sep WeekRange.out ", " ranges).
Proof. apply keeps_PrintVector_sep. auto with keeps. Qed.

#[local] Hint Resolve keeps_week_list : keeps.

Lemma keeps_TWeekRanges (ranges : list WeekRange.t) : keeps (out_TWeekRanges ranges).
Proof. unfold out_TWeekRanges. keeps_tac. Qed.

Lemma keeps_Modifier (modifier : RuleSequence.Modifier) :
  keeps (RuleSequence.out_Modifier modifier).
Proof.
  destruct modifier; unfold RuleSequence.out_Modifier; auto with keeps;
    intros ost; apply frame_refl.
Qed.

#[local] Hint Resolve keeps_TWeekRanges keeps_Modifier : keeps.

Lemma keeps_RuleSequence (s : RuleSequence.t) : keeps (RuleSequence.out s).
Proof. unfold RuleSequence.out. keeps_tac. Qed.

#[local] Hint Resolve keeps_RuleSequence : keeps.

Lemma keeps_TRuleSequences (s : list RuleSequence.t) : keeps (out_TRuleSequences s).
Proof. apply keeps_PrintVector. auto with keeps. Qed.

(** X4: no printer changes the format flags of the stream, whatever state
    it is in; after a printer the width is 0 or as it was, and the fill
    character is as it was or [0].  [StreamFlagsKeeper] therefore never has
    flags to restore, and the fill character is the only format state a
    printer can leave changed. *)
Theorem printers_keep_flags :
  (forall time, keeps (Time.out time))
  /\ (forall span, keeps (Timespan.out span))
  /\ (forall timespans, keeps (out_TTimespans timespans))
  /\ (forall entry, keeps (NthWeekdayOfTheMonthEntry.out entry))
  /\ (forall wday, keeps (Weekday.out wday))
  /\ (forall range, keeps (WeekdayRange.out range))
  /\ (forall ranges, keeps (out_TWeekdayRanges ranges))
  /\ (forall holiday, keeps (Holiday.out holiday))
  /\ (forall holidays, keeps (out_THolidays holidays))
  /\ (forall weekday, keeps (Weekdays.out weekday))
  /\ (forall offset, keeps (DateOffset.out offset))
  /\ (forall md, keeps (MonthDay.out md))
  /\ (forall range, keeps (MonthdayRange.out range))
  /\ (forall ranges, keeps (out_TMonthdayRanges ranges))
  /\ (forall range, keeps (YearRange.out range))
  /\ (forall ranges, keeps (out_TYearRanges ranges))
  /\ (forall range, keeps (WeekRange.out range))
  /\ (forall ranges, keeps (out_TWeekRanges ranges))
  /\ (forall s, keeps (RuleSequence.out s))
  /\ (forall s, keeps (out_TRuleSequences s))
  /\ (forall number padding, keeps (PrintPaddedNumber number padding))
  /\ (forall offset space, keeps (PrintOffset offset space))
  /\ (forall number padding ost,
        PrintPaddedNumber number padding ost
        = (ost << setw (to_int32 (to_uint32 padding)) << setfill "0"
               << unsigned_ (to_uint32 number))).
Proof.
  repeat match goal with |- _ /\ _ => split end; auto with keeps;
    first [apply keeps_TRuleSequences | reflexivity].
Qed.
